(** * End-to-end HTTP scenarios of the link-manager test suite

    The repository is a set of ten Python scripts ([testsprite_tests/TC001]
    ... [TC010]).  Each script talks to an external server with the
    [requests] library and asserts on what comes back.  The scripts are
    embedded here as computations in a small state-and-exception monad:

    - the server, the [uuid] generator and the clock are the environment
      ([Env]); the server answers a request from the history of the run;
    - the state holds the trace of events issued so far, the local variables
      that a [try]/[finally] block reads after a failure, and the exception
      being handled (Python's implicit exception chaining);
    - a Python exception is an [Err] result carrying its class, its message
      and its [__context__]. *)

From Stdlib Require Import ZArith List String Ascii Bool Lia QArith.
From Stdlib Require Import SpecFloat.
Import ListNotations.

Local Open Scope string_scope.
Local Open Scope Z_scope.
Local Open Scope list_scope.

Set Implicit Arguments.
Set Warnings "-register-all".

(** ** Python values that [response.json()] and the payload literals produce *)

Inductive JSON : Type :=
| JNull                                  (* None *)
| JBool (b : bool)
| JInt (z : Z)
| JFloat (f : spec_float)                (* a binary64 value *)
| JStr (s : string)
| JArr (l : list JSON)
| JObj (m : list (string * JSON)).       (* a dict, in insertion order *)

(** An f-string is kept as its pieces: the literal text and the values that
    are interpolated.  [str()] of a string is the string itself, so a string
    is interpolated as a [Lit]; the rendering of the other values is not
    computed. *)
Inductive piece : Type :=
| Lit (s : string)
| Val (v : JSON).

Definition fstring := list piece.

(** Truth value of an object, as [if x:], [assert x] and [x or y] test it. *)
Definition truthy (v : JSON) : bool :=
  match v with
  | JNull => false
  | JBool b => b
  | JInt z => negb (z =? 0)
  | JFloat (S754_zero _) => false
  | JFloat _ => true
  | JStr s => negb (s =? EmptyString)%string
  | JArr l => match l with [] => false | _ => true end
  | JObj m => match m with [] => false | _ => true end
  end.

Definition is_None (v : JSON) : bool :=
  match v with JNull => true | _ => false end.

(** [x or y] *)
Definition py_or (x y : JSON) : JSON := if truthy x then x else y.

Fixpoint lookup (k : string) (m : list (string * JSON)) : option JSON :=
  match m with
  | [] => None
  | (k', v) :: rest => if (k =? k')%string then Some v else lookup k rest
  end.

Definition has_key (k : string) (m : list (string * JSON)) : bool :=
  match lookup k m with Some _ => true | None => false end.

Definition isinstance_dict (v : JSON) : bool :=
  match v with JObj _ => true | _ => false end.

Definition isinstance_list (v : JSON) : bool :=
  match v with JArr _ => true | _ => false end.

(** [type(v).__name__] *)
Definition type_name (v : JSON) : string :=
  match v with
  | JNull => "NoneType"
  | JBool _ => "bool"
  | JInt _ => "int"
  | JFloat _ => "float"
  | JStr _ => "str"
  | JArr _ => "list"
  | JObj _ => "dict"
  end.

(** ** Strings *)

(** [needle in hay] on strings *)
Fixpoint contains (needle hay : string) : bool :=
  prefix needle hay ||
  match hay with
  | EmptyString => false
  | String _ rest => contains needle rest
  end.

Definition lower_ascii (c : ascii) : ascii :=
  let n := nat_of_ascii c in
  if ((65 <=? n) && (n <=? 90))%nat then ascii_of_nat (n + 32) else c.

(** [s.lower()] on the characters a Rocq string holds (8-bit) *)
Fixpoint lower (s : string) : string :=
  match s with
  | EmptyString => EmptyString
  | String c rest => String (lower_ascii c) (lower rest)
  end.

(** ** Requests, replies and events *)

Inductive Method := GET | POST | PATCH | DELETE.

Record Request := mkRequest {
  method : Method;
  url : fstring;
  json : option JSON;                          (* json=... *)
  headers : option (list (string * fstring));  (* headers=... *)
  timeout : Z                                  (* timeout=..., seconds *)
}.

Record Response := mkResponse {
  status_code : Z;
  text : string;
  decoded : option JSON     (* what .json() returns; None: the body is not JSON *)
}.

(** Exception classes that occur in the scripts.  [Timeout],
    [ConnectionError] and [JSONDecodeError] are subclasses of
    [requests.RequestException]. *)
Inductive ExnKind :=
| AssertionError | Timeout | ConnectionError | RequestException
| JSONDecodeError | AttributeError | TypeError | KeyError.

Inductive Exn : Type :=
| mkExn (kind : ExnKind) (message : fstring) (context : option Exn).

Definition kind (e : Exn) : ExnKind := let 'mkExn k _ _ := e in k.
Definition message (e : Exn) : fstring := let 'mkExn _ m _ := e in m.
Definition context (e : Exn) : option Exn := let 'mkExn _ _ c := e in c.

Definition is_RequestException (e : Exn) : bool :=
  match kind e with
  | Timeout | ConnectionError | RequestException | JSONDecodeError => true
  | _ => false
  end.

Definition is_AssertionError (e : Exn) : bool :=
  match kind e with AssertionError => true | _ => false end.

(** [except Exception] *)
Definition is_Exception (e : Exn) : bool := true.

(** What [requests] raises when no response arrives. *)
Inductive NetError := NetTimeout | NetConnection | NetOther.

Definition net_kind (n : NetError) : ExnKind :=
  match n with
  | NetTimeout => Timeout
  | NetConnection => ConnectionError
  | NetOther => RequestException
  end.

Inductive Reply :=
| Responded (r : Response)
| Failed (n : NetError) (msg : string).

Inductive Event :=
| EvSend (r : Request) (rep : Reply)
| EvSleep (seconds : Q)
| EvClose.                                   (* session.close() *)

(** The world outside the script. *)
Record Env := mkEnv {
  server : list Event -> Request -> Reply;   (* answer, given the run so far *)
  uuid4_hex : nat -> string;                 (* uuid.uuid4().hex of the n-th call *)
  utcnow_plus_days_iso : Z -> string         (* (utcnow() + timedelta(days=d)).isoformat() *)
}.

(** ** The monad *)

Inductive Res (A : Type) :=
| Ok (a : A)
| Err (e : Exn).
Arguments Ok {A} a.
Arguments Err {A} e.

Record State (L : Type) := mkState {
  locals : L;                  (* variables read after a failure *)
  trace : list Event;          (* oldest first *)
  uuids : nat;                 (* uuid4() calls so far *)
  handling : option Exn        (* the exception being handled *)
}.

Definition M (L A : Type) := Env -> State L -> Res A * State L.

Definition ret {L A} (a : A) : M L A := fun _ st => (Ok a, st).

Definition bind {L A B} (m : M L A) (k : A -> M L B) : M L B :=
  fun env st =>
    match m env st with
    | (Ok a, st') => k a env st'
    | (Err e, st') => (Err e, st')
    end.

Declare Scope py_scope.
Delimit Scope py_scope with py.
Notation "x <- m ;; k" := (bind m (fun x => k))
  (at level 61, m at next level, right associativity) : py_scope.
Notation "m ;; k" := (bind m (fun _ => k))
  (at level 61, right associativity) : py_scope.
Local Open Scope py_scope.

Definition set_locals {L} (l : L) (st : State L) : State L :=
  mkState l (trace st) (uuids st) (handling st).
Definition set_handling {L} (h : option Exn) (st : State L) : State L :=
  mkState (locals st) (trace st) (uuids st) h.
Definition emit {L} (ev : Event) (st : State L) : State L :=
  mkState (locals st) (trace st ++ [ev]) (uuids st) (handling st).

Definition get_locals {L} : M L L := fun _ st => (Ok (locals st), st).
Definition modify {L} (f : L -> L) : M L unit :=
  fun _ st => (Ok tt, set_locals (f (locals st)) st).

(** [raise K(msg)]: the new exception's [__context__] is the one being handled. *)
Definition raise {L A} (k : ExnKind) (msg : fstring) : M L A :=
  fun _ st => (Err (mkExn k msg (handling st)), st).

(** a bare [raise] inside a handler *)
Definition reraise {L A} (e : Exn) : M L A := fun _ st => (Err e, st).

(** [assert cond, msg] *)
Definition assert_ {L} (cond : bool) (msg : fstring) : M L unit :=
  if cond then ret tt else raise AssertionError msg.

(** [assert False, msg] *)
Definition assert_False {L A} (msg : fstring) : M L A := raise AssertionError msg.

(** [try: body  except <catches> as e: handler e] *)
Definition try_except {L A} (body : M L A) (catches : Exn -> bool)
    (handler : Exn -> M L A) : M L A :=
  fun env st =>
    match body env st with
    | (Ok a, st1) => (Ok a, st1)
    | (Err e, st1) =>
        if catches e then
          let '(r, st2) := handler e env (set_handling (Some e) st1) in
          (r, set_handling (handling st1) st2)
        else (Err e, st1)
    end.

(** [try: body  finally: fin].  An exception leaving [fin] replaces the one
    of [body], which stays reachable as its context. *)
Definition try_finally {L A} (body : M L A) (fin : M L unit) : M L A :=
  fun env st =>
    match body env st with
    | (Ok a, st1) =>
        match fin env st1 with
        | (Ok _, st2) => (Ok a, st2)
        | (Err e', st2) => (Err e', st2)
        end
    | (Err e, st1) =>
        match fin env (set_handling (Some e) st1) with
        | (Ok _, st2) => (Err e, set_handling (handling st1) st2)
        | (Err e', st2) => (Err e', set_handling (handling st1) st2)
        end
    end.

(** [requests.request(...)]: ask the server, record the exchange. *)
Definition send {L} (r : Request) : M L Response :=
  fun env st =>
    let rep := server env (trace st) r in
    let st' := emit (EvSend r rep) st in
    match rep with
    | Responded resp => (Ok resp, st')
    | Failed n msg => (Err (mkExn (net_kind n) [Lit msg] (handling st)), st')
    end.

Definition sleep {L} (seconds : Q) : M L unit :=
  fun _ st => (Ok tt, emit (EvSleep seconds) st).

Definition session_close {L} : M L unit :=
  fun _ st => (Ok tt, emit EvClose st).

(** [uuid.uuid4().hex] *)
Definition uuid4_hex_ {L} : M L string :=
  fun env st =>
    (Ok (uuid4_hex env (uuids st)),
     mkState (locals st) (trace st) (S (uuids st)) (handling st)).

Definition utcnow_plus_days {L} (d : Z) : M L string :=
  fun env st => (Ok (utcnow_plus_days_iso env d), st).

(** [response.json()] *)
Definition json_of {L} (r : Response) : M L JSON :=
  match decoded r with
  | Some v => ret v
  | None => raise JSONDecodeError [Lit "Expecting value"]
  end.

(** [obj.get(key, default)]: only a dict has [get]. *)
Definition get_default {L} (obj : JSON) (key : string) (default : JSON) : M L JSON :=
  match obj with
  | JObj m => ret (match lookup key m with Some v => v | None => default end)
  | _ => raise AttributeError
           [Lit "'"; Lit (type_name obj); Lit "' object has no attribute 'get'"]
  end.

(** [obj.get(key)] *)
Definition get {L} (obj : JSON) (key : string) : M L JSON :=
  get_default obj key JNull.

(** [key in obj] for a string [key] *)
Definition py_in {L} (key : string) (obj : JSON) : M L bool :=
  match obj with
  | JObj m => ret (has_key key m)
  | JArr l => ret (existsb (fun x => match x with
                                     | JStr s => (s =? key)%string
                                     | _ => false
                                     end) l)
  | JStr s => ret (contains key s)
  | _ => raise TypeError
           [Lit "argument of type '"; Lit (type_name obj); Lit "' is not iterable"]
  end.

(** [a or b] on two conditions, the second evaluated only when needed *)
Definition or_else {L} (a b : M L bool) : M L bool :=
  x <- a ;; if (x : bool) then ret true else b.

Definition initial {L} (l : L) : State L := mkState l [] 0%nat None.

(** Run a script from the start: its result and the events it issued. *)
Definition run {L A} (m : M L A) (l : L) (env : Env) : Res A * list Event :=
  let '(r, st) := m env (initial l) in (r, trace st).

Definition post {L} (u : fstring) (j : option JSON)
    (h : option (list (string * fstring))) (t : Z) : M L Response :=
  send (mkRequest POST u j h t).
Definition http_get {L} (u : fstring)
    (h : option (list (string * fstring))) (t : Z) : M L Response :=
  send (mkRequest GET u None h t).
Definition patch {L} (u : fstring) (j : option JSON)
    (h : option (list (string * fstring))) (t : Z) : M L Response :=
  send (mkRequest PATCH u j h t).
Definition delete {L} (u : fstring)
    (h : option (list (string * fstring))) (t : Z) : M L Response :=
  send (mkRequest DELETE u None h t).

Definition status (z : Z) : piece := Val (JInt z).

(** [f"{v}"] *)
Definition interp (v : JSON) : piece :=
  match v with JStr s => Lit s | _ => Val v end.

(** [a or b] on two objects, the second evaluated only when needed *)
Definition or_val {L} (a b : M L JSON) : M L JSON :=
  x <- a ;; if truthy x then ret x else b.

(** [v == s] for a string [s] *)
Definition eq_str (v : JSON) (s : string) : bool :=
  match v with JStr t => (t =? s)%string | _ => false end.

(** [v > 0] *)
Definition gt0 {L} (v : JSON) : M L bool :=
  match v with
  | JBool b => ret b
  | JInt z => ret (0 <? z)
  | JFloat f => ret (SFltb (S754_zero false) f)
  | _ => raise TypeError
           [Lit "'>' not supported between instances of '"; Lit (type_name v);
            Lit "' and 'int'"]
  end.

(** [obj[key]] for a string [key] *)
Definition subscript {L} (obj : JSON) (key : string) : M L JSON :=
  match obj with
  | JObj m => match lookup key m with
              | Some v => ret v
              | None => raise KeyError [Lit "'"; Lit key; Lit "'"]
              end
  | JArr _ => raise TypeError [Lit "list indices must be integers or slices, not str"]
  | JStr _ => raise TypeError [Lit "string indices must be integers, not 'str'"]
  | _ => raise TypeError [Lit "'"; Lit (type_name obj); Lit "' object is not subscriptable"]
  end.

(** [for x in xs: body x] *)
Fixpoint for_each {L A} (xs : list A) (body : A -> M L unit) : M L unit :=
  match xs with
  | [] => ret tt
  | x :: rest => body x ;; for_each rest body
  end.

(** 100.0 as a binary64 value *)
Definition float_100 : spec_float := S754_finite false 7036874417766400 (-46).

(** ** TC001: user login *)

Module TC001.

Definition BASE_URL := "http://localhost:3003".
Definition LOGIN_URL := (BASE_URL ++ "/api/auth/login")%string.
Definition TIMEOUT := 30.

Definition headers : list (string * fstring) :=
  [("Content-Type", [Lit "application/json"])].
Definition valid_username := "testuser".
Definition valid_password := "testpassword123".

Definition login_payload :=
  JObj [("username", JStr valid_username); ("password", JStr valid_password)].
Definition invalid_payload :=
  JObj [("username", JStr valid_username); ("password", JStr "wrongpassword")].

(** 1. successful login with valid credentials *)
Definition step1 : M unit unit :=
  response <- post [Lit LOGIN_URL] (Some login_payload) (Some headers) TIMEOUT ;;
  assert_ (status_code response =? 200)
    [Lit "Expected 200, got "; status (status_code response)] ;;
  response_json <- json_of response ;;
  ok <- or_else (py_in "token" response_json) (py_in "accessToken" response_json) ;;
  assert_ ok [Lit "JWT token not returned on successful login"].

(** 2. login with an invalid password *)
Definition step2 : M unit unit :=
  response_invalid <- post [Lit LOGIN_URL] (Some invalid_payload) (Some headers) TIMEOUT ;;
  assert_ (status_code response_invalid =? 401)
    [Lit "Expected 401 Unauthorized for invalid password, got ";
     status (status_code response_invalid)].

Definition max_attempts : nat := 10.

Definition probe_request : Request :=
  mkRequest POST [Lit LOGIN_URL] (Some invalid_payload) (Some headers) TIMEOUT.

(** [for _ in range(max_attempts): ...], as a recursion on the attempts
    left; the value is [rate_limited] when the loop is left. *)
Fixpoint probe_loop (attempts : list nat) (rate_limited : bool) : M unit bool :=
  match attempts with
  | [] => ret rate_limited
  | _ :: rest =>
      resp <- post [Lit LOGIN_URL] (Some invalid_payload) (Some headers) TIMEOUT ;;
      if status_code resp =? 429 then
        ret true                                     (* rate_limited = True; break *)
      else
        sleep (1 # 10) ;;
        probe_loop rest rate_limited
  end.

(** 3. rate limiting *)
Definition step3 : M unit unit :=
  rate_limited <- probe_loop (seq 0 max_attempts) false ;;
  assert_ rate_limited
    [Lit "Rate limit not enforced after multiple invalid login attempts"].

Definition test_user_login_functionality : M unit unit :=
  step1 ;; step2 ;; step3.

End TC001.

(** ** TC002: user registration *)

Module TC002.

Definition BASE_URL := "http://localhost:3003".
Definition REGISTER_ENDPOINT := "/api/auth/register".
Definition TIMEOUT := 30.
Definition register_url : fstring := [Lit (BASE_URL ++ REGISTER_ENDPOINT)%string].

Definition headers : list (string * fstring) :=
  [("Content-Type", [Lit "application/json"])].

Definition valid_payload :=
  JObj [("username", JStr "testuser_tc002");
        ("email", JStr "testuser_tc002@example.com");
        ("password", JStr "StrongPass!123")].

(** 1) registration with the valid payload *)
Definition step1 : M unit unit :=
  response <- post register_url (Some valid_payload) (Some headers) TIMEOUT ;;
  try_except
    (assert_ (status_code response =? 201)
       [Lit "Expected status code 201, got "; status (status_code response)])
    is_AssertionError
    (fun e =>
       if (status_code response =? 400) && contains "already" (lower (text response))
       then ret tt                                  (* pass *)
       else reraise e).

Definition payload_missing_username :=
  JObj [("email", JStr "missingusername@example.com"); ("password", JStr "pass1234")].
Definition payload_missing_email :=
  JObj [("username", JStr "userwithoutemail"); ("password", JStr "pass1234")].
Definition payload_missing_password :=
  JObj [("username", JStr "userwithoutpassword");
        ("email", JStr "userwithoutpassword@example.com")].
Definition payload_invalid_email :=
  JObj [("username", JStr "userinvalidemail"); ("email", JStr "not-an-email");
        ("password", JStr "ValidPass123!")].

(** one of the validation checks of 2) and 3) *)
Definition expect_400 (payload : JSON) (what : string) : M unit unit :=
  r <- post register_url (Some payload) (Some headers) TIMEOUT ;;
  assert_ (status_code r =? 400)
    [Lit ("Expected 400 for " ++ what ++ ", got ")%string; status (status_code r)].

Definition test_user_registration_process : M unit unit :=
  step1 ;;
  expect_400 payload_missing_username "missing username" ;;
  expect_400 payload_missing_email "missing email" ;;
  expect_400 payload_missing_password "missing password" ;;
  expect_400 payload_invalid_email "invalid email".

End TC002.

(** ** TC003: email verification *)

Module TC003.

Definition BASE_URL := "http://localhost:3003".
Definition TIMEOUT := 30.

(** [VERIFY_EMAIL_ENDPOINT.format(token)] *)
Definition VERIFY_EMAIL_ENDPOINT_format (token : string) : string :=
  ("/api/auth/verify-email/" ++ token)%string.

Definition invalid_tokens : list string :=
  ["invalidtoken123"; "expiredtoken456"; "!!@@##$$%%^^&&"].

Definition check_token (token : string) : M unit unit :=
  let url := [Lit (BASE_URL ++ VERIFY_EMAIL_ENDPOINT_format token)%string] in
  try_except
    (response <- http_get url None TIMEOUT ;;
     assert_ (status_code response =? 400)
       [Lit "Expected status 400 for invalid token '"; Lit token; Lit "', got ";
        status (status_code response)])
    is_RequestException                   (* except (RequestException, Timeout) *)
    (fun e =>
       assert_False ([Lit "Request failed for token '"; Lit token; Lit "': "] ++ message e)).

Definition test_email_verification_mechanism : M unit unit :=
  for_each invalid_tokens check_token.

End TC003.

(** ** TC004: JWT token refresh *)

Module TC004.

Definition BASE_URL := "http://localhost:3003".
Definition TIMEOUT := 30.
Definition register_url : fstring := [Lit (BASE_URL ++ "/api/auth/register")%string].
Definition login_url : fstring := [Lit (BASE_URL ++ "/api/auth/login")%string].
Definition refresh_url : fstring := [Lit (BASE_URL ++ "/api/auth/refresh")%string].

Definition username := "testuser_jwt_refresh".
Definition password := "TestPass123!".
Definition user_data :=
  JObj [("username", JStr username); ("email", JStr "testuser_jwt_refresh@example.com");
        ("password", JStr password)].
Definition login_data :=
  JObj [("username", JStr username); ("password", JStr password)].

Definition register : M unit unit :=
  try_except
    (r <- post register_url (Some user_data) None TIMEOUT ;;
     assert_ ((status_code r =? 201) || (status_code r =? 400))
       [Lit "Unexpected status code on register: "; status (status_code r)])
    is_RequestException
    (fun e => assert_False (Lit "Registration request failed: " :: message e)).

(** the refresh token, under either of its keys *)
Definition extract_refresh_token (login_resp : JSON) : M unit JSON :=
  found <- or_else (py_in "refreshToken" login_resp)
             (or_else (py_in "refresh_token" login_resp) (py_in "token" login_resp)) ;;
  assert_ found [Lit "No token found in login response"] ;;
  a <- py_in "refreshToken" login_resp ;;
  if (a : bool) then subscript login_resp "refreshToken"
  else
    b <- py_in "refresh_token" login_resp ;;
    if (b : bool) then subscript login_resp "refresh_token"
    else
      c <- py_in "token" login_resp ;;
      if (c : bool) then
        assert_False [Lit "No refresh token provided in login response"]
      else
        assert_False [Lit "Refresh token not found in login response"].

Definition login : M unit JSON :=
  try_except
    (r <- post login_url (Some login_data) None TIMEOUT ;;
     (if status_code r =? 401 then
        assert_False
          [Lit "Login failed with 401 Unauthorized. User may not be verified. Cannot proceed with token refresh test."]
      else ret tt) ;;
     assert_ (status_code r =? 200)
       [Lit "Login failed with status code "; status (status_code r)] ;;
     login_resp <- json_of r ;;
     extract_refresh_token login_resp)
    is_RequestException
    (fun e => assert_False (Lit "Login request failed: " :: message e)).

Definition headers : list (string * fstring) :=
  [("Content-Type", [Lit "application/json"])].

Definition refresh_valid (refresh_token : JSON) : M unit unit :=
  try_except
    (let payload := JObj [("refreshToken", refresh_token)] in
     r <- post refresh_url (Some payload) (Some headers) TIMEOUT ;;
     assert_ (status_code r =? 200)
       [Lit "Valid refresh token request failed with status "; status (status_code r)] ;;
     resp_json <- json_of r ;;
     assert_ (isinstance_dict resp_json) [Lit "Refresh response is not a JSON object"] ;;
     found <- or_else (py_in "accessToken" resp_json) (py_in "token" resp_json) ;;
     assert_ found [Lit "New access token not found in refresh response"])
    is_RequestException
    (fun e => assert_False (Lit "Refresh request failed: " :: message e)).

Definition refresh_invalid : M unit unit :=
  try_except
    (let invalid_payload :=
       JObj [("refreshToken", JStr "invalid_or_expired_refresh_token_value")] in
     r <- post refresh_url (Some invalid_payload) (Some headers) TIMEOUT ;;
     assert_ (status_code r =? 401)
       [Lit "Invalid refresh token should return 401, got "; status (status_code r)])
    is_RequestException
    (fun e => assert_False (Lit "Invalid refresh request failed: " :: message e)).

Definition test_jwt_token_refresh : M unit unit :=
  register ;;
  refresh_token <- login ;;
  refresh_valid refresh_token ;;
  refresh_invalid.

End TC004.

(** ** TC005: current user profile *)

Module TC005.

Definition BASE_URL := "http://localhost:3003".
Definition TIMEOUT := 30.
Definition login_url : fstring := [Lit (BASE_URL ++ "/api/auth/login")%string].
Definition profile_url : fstring := [Lit (BASE_URL ++ "/api/users/profile")%string].

Definition login_payload :=
  JObj [("username", JStr "testuser"); ("password", JStr "TestPassword123!")].

(** [login_data.get("token") or login_data.get("accessToken")] and the
    assertion on it *)
Definition extract_token (login_data : JSON) : M unit JSON :=
  token <- or_val (get login_data "token") (get login_data "accessToken") ;;
  assert_ (negb (is_None token)) [Lit "JWT token not found in login response"] ;;
  ret token.

Definition login : M unit JSON :=
  try_except
    (login_response <- post login_url (Some login_payload) None TIMEOUT ;;
     assert_ (status_code login_response =? 200)
       [Lit "Login failed with status code "; status (status_code login_response)] ;;
     login_data <- json_of login_response ;;
     extract_token login_data)
    is_RequestException
    (fun e => assert_False (Lit "Login request failed: " :: message e)).

Definition expected_fields : list string := ["username"; "email"].

(** [[field for field in expected_fields if field not in profile_data]] on a dict *)
Definition missing_fields (profile_data : list (string * JSON)) : list string :=
  filter (fun field => negb (has_key field profile_data)) expected_fields.

Definition profile (token : JSON) : M unit unit :=
  let headers := [("Authorization", [Lit "Bearer "; interp token])] in
  try_except
    (profile_response <- http_get profile_url (Some headers) TIMEOUT ;;
     assert_ (status_code profile_response =? 200)
       [Lit "Failed to get user profile, status code ";
        status (status_code profile_response)] ;;
     profile_data <- json_of profile_response ;;
     assert_ (isinstance_dict profile_data) [Lit "Profile response is not a JSON object"] ;;
     match profile_data with
     | JObj m =>
         let missing := missing_fields m in
         assert_ (match missing with [] => true | _ => false end)
           [Lit "Missing fields in profile response: "; Val (JArr (map JStr missing))]
     | _ => ret tt                                   (* not reached *)
     end)
    is_RequestException
    (fun e => assert_False (Lit "Profile request failed: " :: message e)).

Definition test_get_current_user_profile : M unit unit :=
  token <- login ;;
  profile token.

End TC005.

(** ** TC006: profile update *)

Module TC006.

Definition BASE_URL := "http://localhost:3003".
Definition TIMEOUT := 30.
Definition register_url : fstring := [Lit (BASE_URL ++ "/api/auth/register")%string].
Definition login_url : fstring := [Lit (BASE_URL ++ "/api/auth/login")%string].
Definition profile_url : fstring := [Lit (BASE_URL ++ "/api/users/profile")%string].

(** [f"testuser_{uuid.uuid4().hex[:8]}"] *)
Definition make_username (hex : string) : string :=
  ("testuser_" ++ substring 0 8 hex)%string.
(** [f"{TEST_USERNAME}@example.com"] *)
Definition make_email (username : string) : string :=
  (username ++ "@example.com")%string.
Definition TEST_PASSWORD := "TestPass123!".

Definition register_payload (TEST_USERNAME TEST_EMAIL : string) :=
  JObj [("username", JStr TEST_USERNAME); ("email", JStr TEST_EMAIL);
        ("password", JStr TEST_PASSWORD)].

Definition register (TEST_USERNAME TEST_EMAIL : string) : M unit unit :=
  register_resp <- post register_url
    (Some (register_payload TEST_USERNAME TEST_EMAIL)) None TIMEOUT ;;
  assert_ (status_code register_resp =? 201)
    [Lit "User registration failed: "; Lit (text register_resp)].

(** [login_resp.json().get("token")] and the assertion on it *)
Definition extract_token (login_data : JSON) : M unit JSON :=
  token <- get login_data "token" ;;
  assert_ (truthy token) [Lit "JWT token not found in login response"] ;;
  ret token.

Definition login (TEST_USERNAME : string) : M unit JSON :=
  let login_payload :=
    JObj [("username", JStr TEST_USERNAME); ("password", JStr TEST_PASSWORD)] in
  login_resp <- post login_url (Some login_payload) None TIMEOUT ;;
  assert_ (status_code login_resp =? 200) [Lit "Login failed: "; Lit (text login_resp)] ;;
  login_data <- json_of login_resp ;;
  extract_token login_data.

Definition body (TEST_USERNAME TEST_EMAIL : string) : M unit unit :=
  register TEST_USERNAME TEST_EMAIL ;;
  token <- login TEST_USERNAME ;;
  let headers := [("Authorization", [Lit "Bearer "; interp token]);
                  ("Content-Type", [Lit "application/json"])] in
  (* current profile *)
  profile_resp <- http_get profile_url (Some headers) TIMEOUT ;;
  assert_ (status_code profile_resp =? 200)
    [Lit "Get profile failed: "; Lit (text profile_resp)] ;;
  profile_before <- json_of profile_resp ;;
  has_email <- py_in "email" profile_before ;;
  (* ... and ("display_name" in profile_before or True) *)
  has_rest <- (if (has_email : bool)
               then or_else (py_in "display_name" profile_before) (ret true)
               else ret false) ;;
  assert_ has_rest [] ;;
  (* new profile data *)
  let new_email := ("updated_" ++ TEST_USERNAME ++ "@example.com")%string in
  hex <- uuid4_hex_ ;;
  let new_display_name := ("DisplayName_" ++ substring 0 6 hex)%string in
  let update_payload :=
    JObj [("email", JStr new_email); ("display_name", JStr new_display_name)] in
  update_resp <- patch profile_url (Some update_payload) (Some headers) TIMEOUT ;;
  assert_ (status_code update_resp =? 200)
    [Lit "Profile update failed: "; Lit (text update_resp)] ;;
  updated_profile <- json_of update_resp ;;
  email1 <- get updated_profile "email" ;;
  assert_ (eq_str email1 new_email) [Lit "Email not updated correctly: "; interp email1] ;;
  name1 <- get updated_profile "display_name" ;;
  assert_ (eq_str name1 new_display_name)
    [Lit "Display name not updated correctly: "; interp name1] ;;
  (* the update persisted *)
  profile_after_resp <- http_get profile_url (Some headers) TIMEOUT ;;
  assert_ (status_code profile_after_resp =? 200)
    [Lit "Get profile after update failed: "; Lit (text profile_after_resp)] ;;
  profile_after <- json_of profile_after_resp ;;
  email2 <- get profile_after "email" ;;
  assert_ (eq_str email2 new_email) [Lit "Updated email not persisted"] ;;
  name2 <- get profile_after "display_name" ;;
  assert_ (eq_str name2 new_display_name) [Lit "Updated display name not persisted"] ;;
  (* invalid email format *)
  let invalid_update_payload := JObj [("email", JStr "invalid-email-format")] in
  invalid_resp <- patch profile_url (Some invalid_update_payload) (Some headers) TIMEOUT ;;
  assert_ ((status_code invalid_resp =? 400) || (status_code invalid_resp =? 422))
    [Lit "Invalid email format accepted: "; Lit (text invalid_resp)] ;;
  (* no auth header *)
  unauth_resp <- patch profile_url (Some update_payload) None TIMEOUT ;;
  assert_ (status_code unauth_resp =? 401)
    [Lit "Unauthorized update allowed: "; Lit (text unauth_resp)].

Definition test_update_user_profile (TEST_USERNAME TEST_EMAIL : string) : M unit unit :=
  try_finally (body TEST_USERNAME TEST_EMAIL) session_close.

(** The module: its constants are computed when it is loaded, then the test runs. *)
Definition script : M unit unit :=
  hex <- uuid4_hex_ ;;
  let TEST_USERNAME := make_username hex in
  let TEST_EMAIL := make_email TEST_USERNAME in
  test_update_user_profile TEST_USERNAME TEST_EMAIL.

End TC006.

(** ** TC007: password change *)

Module TC007.

Definition BASE_URL := "http://localhost:3003".
Definition TIMEOUT := 30.
Definition register_url : fstring := [Lit (BASE_URL ++ "/api/auth/register")%string].
Definition login_url : fstring := [Lit (BASE_URL ++ "/api/auth/login")%string].
Definition change_password_url : fstring :=
  [Lit (BASE_URL ++ "/api/users/change-password")%string].

Definition test_username := "testuser_tc007".
Definition test_email := "testuser_tc007@example.com".
Definition initial_password := "InitialPass123!".
Definition new_password := "NewPass123!".

Definition headers : list (string * fstring) :=
  [("Content-Type", [Lit "application/json"])].

Definition register_payload :=
  JObj [("username", JStr test_username); ("email", JStr test_email);
        ("password", JStr initial_password)].

Definition register : M unit unit :=
  reg_resp <- post register_url (Some register_payload) (Some headers) TIMEOUT ;;
  assert_ (status_code reg_resp =? 201)
    [Lit "Registration failed: "; status (status_code reg_resp); Lit " ";
     Lit (text reg_resp)].

(** [login_resp.json().get("token")] and the assertion on it *)
Definition extract_token (login_data : JSON) : M unit JSON :=
  auth_token <- get login_data "token" ;;
  assert_ (truthy auth_token) [Lit "No auth token received after login"] ;;
  ret auth_token.

Definition login : M unit JSON :=
  let login_payload :=
    JObj [("username", JStr test_username); ("password", JStr initial_password)] in
  login_resp <- post login_url (Some login_payload) (Some headers) TIMEOUT ;;
  assert_ (status_code login_resp =? 200)
    [Lit "Login failed: "; status (status_code login_resp); Lit " "; Lit (text login_resp)] ;;
  login_data <- json_of login_resp ;;
  extract_token login_data.

Definition body : M unit unit :=
  register ;;
  auth_token <- login ;;
  let auth_headers := [("Authorization", [Lit "Bearer "; interp auth_token]);
                       ("Content-Type", [Lit "application/json"])] in
  let change_pass_payload :=
    JObj [("currentPassword", JStr initial_password); ("newPassword", JStr new_password)] in
  change_pass_resp <- post change_password_url (Some change_pass_payload)
                        (Some auth_headers) TIMEOUT ;;
  assert_ (status_code change_pass_resp =? 200)
    [Lit "Password change failed (correct current password): ";
     status (status_code change_pass_resp); Lit " "; Lit (text change_pass_resp)] ;;
  let login_new_payload :=
    JObj [("username", JStr test_username); ("password", JStr new_password)] in
  login_new_resp <- post login_url (Some login_new_payload) (Some headers) TIMEOUT ;;
  assert_ (status_code login_new_resp =? 200)
    [Lit "Login failed with new password: "; status (status_code login_new_resp);
     Lit " "; Lit (text login_new_resp)] ;;
  let change_pass_bad_payload :=
    JObj [("currentPassword", JStr "WrongPass123!");
          ("newPassword", JStr "DoesNotMatter123!")] in
  change_pass_bad_resp <- post change_password_url (Some change_pass_bad_payload)
                            (Some auth_headers) TIMEOUT ;;
  assert_ (status_code change_pass_bad_resp =? 400)
    [Lit "Password change succeeded with wrong current password: ";
     status (status_code change_pass_bad_resp); Lit " "; Lit (text change_pass_bad_resp)].

Definition test_change_user_password : M unit unit :=
  try_finally body (ret tt).                         (* finally: pass *)

End TC007.

(** ** TC008: project creation and retrieval *)

Module TC008.

Definition BASE_URL := "http://localhost:3003".
Definition TIMEOUT := 30.
Definition TEST_USERNAME := "testuser".
Definition TEST_PASSWORD := "testpassword".
Definition auth_url : fstring := [Lit (BASE_URL ++ "/api/auth/login")%string].
Definition projects_url : fstring := [Lit (BASE_URL ++ "/api/projects")%string].

(** The one variable the [finally] block reads. *)
Record Locals := mkLocals { created_project_id : JSON }.

Definition auth_payload :=
  JObj [("username", JStr TEST_USERNAME); ("password", JStr TEST_PASSWORD)].

(** [auth_data.get("token")] and the assertion on it *)
Definition extract_token (auth_data : JSON) : M Locals JSON :=
  token <- get auth_data "token" ;;
  assert_ (negb (is_None token)) [Lit "JWT token not found in login response"] ;;
  ret token.

Definition authenticate : M Locals JSON :=
  try_except
    (auth_response <- post auth_url (Some auth_payload) None TIMEOUT ;;
     assert_ (status_code auth_response =? 200)
       [Lit "Login failed with status "; status (status_code auth_response)] ;;
     auth_data <- json_of auth_response ;;
     extract_token auth_data)
    is_Exception
    (fun e => raise AssertionError (Lit "Authentication failed: " :: message e)).

Definition make_headers (token : JSON) : list (string * fstring) :=
  [("Authorization", [Lit "Bearer "; interp token]);
   ("Content-Type", [Lit "application/json"])].

Definition project_payload :=
  JObj [("name", JStr "Test Project via API");
        ("description", JStr "Test project created during automated testing.")].

(** [[proj.get("id") for proj in projects_list if isinstance(proj, dict)]] *)
Definition project_ids (projects_list : list JSON) : list JSON :=
  flat_map (fun proj => match proj with
                        | JObj m => [match lookup "id" m with Some v => v | None => JNull end]
                        | _ => []
                        end) projects_list.

Definition delete_project_url (id : JSON) : fstring :=
  [Lit (BASE_URL ++ "/api/projects/")%string; interp id].

Section WithEquality.

(** [x is y or x == y] on two parsed values, as list membership tests it *)
Variable py_eq : JSON -> JSON -> bool.

Definition body (headers : list (string * fstring)) : M Locals unit :=
  create_response <- post projects_url (Some project_payload) (Some headers) TIMEOUT ;;
  assert_ (status_code create_response =? 201)
    [Lit "Project creation failed with status "; status (status_code create_response)] ;;
  project_data <- json_of create_response ;;
  id <- or_val (or_val (get project_data "id") (get project_data "projectId"))
          (get project_data "project_id") ;;
  modify (fun _ => mkLocals id) ;;
  assert_ (negb (is_None id)) [Lit "Created project ID not found in response"] ;;
  get_response <- http_get projects_url (Some headers) TIMEOUT ;;
  assert_ (status_code get_response =? 200)
    [Lit "Getting projects failed with status "; status (status_code get_response)] ;;
  projects_list <- json_of get_response ;;
  assert_ (isinstance_list projects_list) [Lit "Projects list response is not a list"] ;;
  match projects_list with
  | JArr l =>
      assert_ (existsb (py_eq id) (project_ids l))
        [Lit "Created project is not found in the projects list"]
  | _ => ret tt                                      (* not reached *)
  end.

Definition cleanup (headers : list (string * fstring)) : M Locals unit :=
  l <- get_locals ;;
  let id := created_project_id l in
  if truthy id then
    try_except
      (del_response <- delete (delete_project_url id) (Some headers) TIMEOUT ;;
       assert_ (status_code del_response =? 200)
         [Lit "Deleting project failed with status "; status (status_code del_response)])
      is_Exception
      (fun e =>
         raise AssertionError
           ([Lit "Cleanup failed: could not delete project "; interp id; Lit " - "]
            ++ message e))
  else ret tt.

Definition test_project_creation_and_retrieval : M Locals unit :=
  token <- authenticate ;;
  let headers := make_headers token in
  modify (fun _ => mkLocals JNull) ;;                (* created_project_id = None *)
  try_finally (body headers) (cleanup headers).

End WithEquality.

Definition no_locals : Locals := mkLocals JNull.

End TC008.

(** ** TC009: site registration from the WordPress plugin *)

Module TC009.

Definition BASE_URL := "http://localhost:3003".
Definition TIMEOUT := 30.
Definition url_register : fstring :=
  [Lit (BASE_URL ++ "/api/sites/register-from-wordpress")%string].

Definition valid_registration_token := "valid_sample_token_123".
Definition site_url := "https://example-wordpress-site.com".
Definition api_key := "sample_api_key_456".

Definition headers : list (string * fstring) :=
  [("Content-Type", [Lit "application/json"])].

Definition payload_valid :=
  JObj [("registration_token", JStr valid_registration_token);
        ("site_url", JStr site_url); ("api_key", JStr api_key)].
Definition invalid_payload :=
  JObj [("registration_token", JStr "invalid_token_xyz");
        ("site_url", JStr "https://example-invalid-site.com"); ("api_key", JStr api_key)].

Definition test_site_registration_from_wordpress_plugin : M unit unit :=
  response <- try_except
    (post url_register (Some payload_valid) (Some headers) TIMEOUT)
    is_RequestException
    (fun e =>
       assert_False (Lit "Request failed during valid registration attempt: " :: message e)) ;;
  assert_ (status_code response =? 201)
    [Lit "Expected 201 Created for valid registration but got ";
     status (status_code response)] ;;
  json_resp <- json_of response ;;
  assert_ (isinstance_dict json_resp) [Lit "Response JSON is not a dictionary"] ;;
  found <- or_else (py_in "site_url" json_resp) (py_in "id" json_resp) ;;
  assert_ found [Lit "Response missing site_url or id"] ;;
  response_invalid <- try_except
    (post url_register (Some invalid_payload) (Some headers) TIMEOUT)
    is_RequestException
    (fun e =>
       assert_False
         (Lit "Request failed during invalid registration attempt: " :: message e)) ;;
  assert_ (status_code response_invalid =? 400)
    [Lit "Expected 400 Bad Request for invalid token but got ";
     status (status_code response_invalid)] ;;
  json_invalid <- json_of response_invalid ;;
  found' <- or_else (py_in "error" json_invalid) (py_in "message" json_invalid) ;;
  assert_ found' [Lit "Error response expected for invalid token registration"].

End TC009.

(** ** TC010: purchase of a placement, with billing *)

Module TC010.

Definition BASE_URL := "http://localhost:3003".
Definition TIMEOUT := 30.
Definition TEST_USERNAME := "testuser_tc010".
Definition TEST_EMAIL := "testuser_tc010@example.com".
Definition TEST_PASSWORD := "TestPassword123!".

(** The variables the [finally] block reads; [JNull] is [None]. *)
Record Locals := mkLocals {
  auth_token : JSON;
  project_id : JSON;
  site_id : JSON;
  link_id : JSON
}.

Definition no_locals : Locals := mkLocals JNull JNull JNull JNull.

Definition set_auth_token (v : JSON) (l : Locals) : Locals :=
  mkLocals v (project_id l) (site_id l) (link_id l).
Definition set_project_id (v : JSON) (l : Locals) : Locals :=
  mkLocals (auth_token l) v (site_id l) (link_id l).
Definition set_site_id (v : JSON) (l : Locals) : Locals :=
  mkLocals (auth_token l) (project_id l) v (link_id l).
Definition set_link_id (v : JSON) (l : Locals) : Locals :=
  mkLocals (auth_token l) (project_id l) (site_id l) v.

Definition headers : list (string * fstring) :=
  [("Content-Type", [Lit "application/json"])].

Definition make_auth_headers (token : JSON) : list (string * fstring) :=
  [("Authorization", [Lit "Bearer "; interp token]);
   ("Content-Type", [Lit "application/json"])].

Definition register_url : fstring := [Lit (BASE_URL ++ "/api/auth/register")%string].
Definition login_url : fstring := [Lit (BASE_URL ++ "/api/auth/login")%string].
Definition projects_url : fstring := [Lit (BASE_URL ++ "/api/projects")%string].
Definition sites_url : fstring := [Lit (BASE_URL ++ "/api/sites")%string].
Definition links_url (pid : JSON) : fstring :=
  [Lit (BASE_URL ++ "/api/projects/")%string; interp pid; Lit "/links"].
Definition deposit_url : fstring := [Lit (BASE_URL ++ "/api/billing/deposit")%string].
Definition balance_url : fstring := [Lit (BASE_URL ++ "/api/billing/balance")%string].
Definition purchase_url : fstring := [Lit (BASE_URL ++ "/api/billing/purchase")%string].

Definition link_delete_url (pid lid : JSON) : fstring :=
  [Lit (BASE_URL ++ "/api/projects/")%string; interp pid; Lit "/links/"; interp lid].
Definition project_delete_url (pid : JSON) : fstring :=
  [Lit (BASE_URL ++ "/api/projects/")%string; interp pid].
Definition site_delete_url (sid : JSON) : fstring :=
  [Lit (BASE_URL ++ "/api/sites/")%string; interp sid].

Definition register_payload :=
  JObj [("username", JStr TEST_USERNAME); ("email", JStr TEST_EMAIL);
        ("password", JStr TEST_PASSWORD)].
Definition login_payload :=
  JObj [("username", JStr TEST_USERNAME); ("password", JStr TEST_PASSWORD)].
Definition project_payload :=
  JObj [("name", JStr "Test Project for TC010");
        ("description", JStr "Project created for testing purchase placement.")].
Definition site_payload :=
  JObj [("site_url", JStr "http://example-tc010-site.com");
        ("site_type", JStr "wordpress")].
Definition link_payload :=
  JObj [("anchor_text", JStr "Test Anchor for TC010");
        ("url", JStr "http://example-tc010-link.com")].
Definition deposit_payload :=
  JObj [("amount", JFloat float_100);
        ("description", JStr "Deposit for placement purchase testing")].
Definition purchase_payload (pid sid lid : JSON) (scheduled_date_iso : string) :=
  JObj [("projectId", pid); ("siteId", sid); ("type", JStr "link");
        ("contentIds", JArr [lid]); ("scheduledDate", JStr scheduled_date_iso);
        ("autoRenewal", JBool true)].

(** 1. register the user *)
Definition step1_register : M Locals unit :=
  resp <- post register_url (Some register_payload) (Some headers) TIMEOUT ;;
  assert_ (status_code resp =? 201) [Lit "User registration failed: "; Lit (text resp)].

(** [resp.json().get("token") or resp.json().get("accessToken")] and the
    assertion on it *)
Definition extract_token (resp : Response) : M Locals JSON :=
  token <- or_val (d <- json_of resp ;; get d "token")
             (d <- json_of resp ;; get d "accessToken") ;;
  assert_ (truthy token) [Lit "No token received on login"] ;;
  ret token.

(** 2. log in, keep the token *)
Definition step2_login : M Locals unit :=
  resp <- post login_url (Some login_payload) (Some headers) TIMEOUT ;;
  assert_ (status_code resp =? 200) [Lit "User login failed: "; Lit (text resp)] ;;
  token <- extract_token resp ;;
  modify (set_auth_token token).

(** 3. create the project *)
Definition step3_project (auth_headers : list (string * fstring)) : M Locals unit :=
  resp <- post projects_url (Some project_payload) (Some auth_headers) TIMEOUT ;;
  assert_ (status_code resp =? 201) [Lit "Project creation failed: "; Lit (text resp)] ;;
  project <- json_of resp ;;
  id <- or_val (get project "id") (get project "projectId") ;;
  modify (set_project_id id) ;;
  assert_ (negb (is_None id)) [Lit "Project ID missing after creation"].

(** 4. create the site *)
Definition step4_site (auth_headers : list (string * fstring)) : M Locals unit :=
  resp <- post sites_url (Some site_payload) (Some auth_headers) TIMEOUT ;;
  assert_ (status_code resp =? 201) [Lit "Site creation failed: "; Lit (text resp)] ;;
  site <- json_of resp ;;
  id <- get site "id" ;;
  modify (set_site_id id) ;;
  assert_ (negb (is_None id)) [Lit "Site ID missing after creation"].

(** 5. add a link to the project *)
Definition step5_link (auth_headers : list (string * fstring)) : M Locals unit :=
  l <- get_locals ;;
  resp <- post (links_url (project_id l)) (Some link_payload) (Some auth_headers) TIMEOUT ;;
  assert_ (status_code resp =? 201) [Lit "Adding link failed: "; Lit (text resp)] ;;
  link <- json_of resp ;;
  id <- or_val (get link "id") (get link "linkId") ;;
  modify (set_link_id id) ;;
  assert_ (negb (is_None id)) [Lit "Link ID missing after creation"].

(** 6. deposit funds *)
Definition step6_deposit (auth_headers : list (string * fstring)) : M Locals unit :=
  resp <- post deposit_url (Some deposit_payload) (Some auth_headers) TIMEOUT ;;
  assert_ (status_code resp =? 200) [Lit "Deposit failed: "; Lit (text resp)].

(** [balance is not None and balance > 0] *)
Definition balance_positive (balance : JSON) : M Locals bool :=
  if is_None balance then ret false else gt0 balance.

(** 7. the balance is positive *)
Definition step7_balance (auth_headers : list (string * fstring)) : M Locals unit :=
  resp <- http_get balance_url (Some auth_headers) TIMEOUT ;;
  assert_ (status_code resp =? 200) [Lit "Get balance failed: "; Lit (text resp)] ;;
  balance_info <- json_of resp ;;
  balance <- get balance_info "balance" ;;
  ok <- balance_positive balance ;;
  assert_ ok [Lit "Insufficient balance for purchase test"].

(** 9. what the purchase response means *)
Definition validate_purchase (resp : Response) : M Locals unit :=
  if status_code resp =? 200 then
    purchase_resp <- json_of resp ;;
    found <- or_else (py_in "placementId" purchase_resp) (py_in "id" purchase_resp) ;;
    assert_ found [Lit "Purchase response missing placementId"]
  else if status_code resp =? 400 then
    d <- json_of resp ;;
    error_msg <- get_default d "message" (JStr (text resp)) ;;
    assert_False [Lit "Purchase failed with 400 error: "; interp error_msg]
  else
    assert_False [Lit "Unexpected status code on purchase: "; status (status_code resp);
                  Lit " - "; Lit (text resp)].

(** 8. and 9. purchase with the captured identifiers *)
Definition step8_purchase (auth_headers : list (string * fstring)) : M Locals unit :=
  now <- utcnow_plus_days 1 ;;
  let scheduled_date_iso := (now ++ "Z")%string in
  l <- get_locals ;;
  resp <- post purchase_url
            (Some (purchase_payload (project_id l) (site_id l) (link_id l) scheduled_date_iso))
            (Some auth_headers) TIMEOUT ;;
  validate_purchase resp.

Definition body : M Locals unit :=
  step1_register ;;
  step2_login ;;
  l <- get_locals ;;
  let auth_headers := make_auth_headers (auth_token l) in
  step3_project auth_headers ;;
  step4_site auth_headers ;;
  step5_link auth_headers ;;
  step6_deposit auth_headers ;;
  step7_balance auth_headers ;;
  step8_purchase auth_headers.

(** [try: session.delete(...)  except Exception: pass] *)
Definition delete_quietly (u : fstring) (auth_headers : list (string * fstring))
  : M Locals unit :=
  try_except (delete u (Some auth_headers) TIMEOUT ;; ret tt) is_Exception (fun _ => ret tt).

Definition cleanup : M Locals unit :=
  l <- get_locals ;;
  if truthy (auth_token l) then
    let auth_headers := make_auth_headers (auth_token l) in
    (if truthy (link_id l) && truthy (project_id l)
     then delete_quietly (link_delete_url (project_id l) (link_id l)) auth_headers
     else ret tt) ;;
    (if truthy (project_id l)
     then delete_quietly (project_delete_url (project_id l)) auth_headers
     else ret tt) ;;
    (if truthy (site_id l)
     then delete_quietly (site_delete_url (site_id l)) auth_headers
     else ret tt)
  else ret tt.

Definition test_purchase_placement_with_billing : M Locals unit :=
  modify (fun _ => no_locals) ;;
  try_finally body cleanup.

End TC010.

(** * Vocabulary of the properties *)

(** ** TC001: the rate-limit probe *)

(** One attempt that was not throttled: the request, its response, the pause. *)
Definition quiet_round (resp : Response) : list Event :=
  [EvSend TC001.probe_request (Responded resp); EvSleep (1 # 10)].

Definition not_throttled (resp : Response) : Prop := status_code resp <> 429.

(** How a probe of at most [n] attempts can end, after [k] quiet rounds:
    throttled, exhausted, or cut short by a request that raised. *)
Inductive ProbeEnd (n k : nat) (h : option Exn) : list Event -> Res bool -> Prop :=
| probe_throttled resp :
    status_code resp = 429 -> (k < n)%nat ->
    ProbeEnd n k h [EvSend TC001.probe_request (Responded resp)] (Ok true)
| probe_exhausted :
    k = n ->
    ProbeEnd n k h [] (Ok false)
| probe_raised net msg :
    (k < n)%nat ->
    ProbeEnd n k h [EvSend TC001.probe_request (Failed net msg)]
      (Err (mkExn (net_kind net) [Lit msg] h)).

(** How step 3 of the login scenario can end, after [k] quiet rounds. *)
Inductive Step3End (h : option Exn) : nat -> list Event -> Res unit -> Prop :=
| step3_pass k resp :
    status_code resp = 429 -> (k < 10)%nat ->
    Step3End h k [EvSend TC001.probe_request (Responded resp)] (Ok tt)
| step3_fail :
    Step3End h 10 []
      (Err (mkExn AssertionError
              [Lit "Rate limit not enforced after multiple invalid login attempts"] h))
| step3_raised k net msg :
    (k < 10)%nat ->
    Step3End h k [EvSend TC001.probe_request (Failed net msg)]
      (Err (mkExn (net_kind net) [Lit msg] h)).

(** ** TC002 and TC004: the registration step *)

(** The body mentions "already" in some mix of upper and lower case. *)
Definition mentions_already (body : string) : Prop :=
  exists pre w suf, body = (pre ++ w ++ suf)%string /\ lower w = "already".

Definition TC002_register_request : Request :=
  mkRequest POST TC002.register_url (Some TC002.valid_payload) (Some TC002.headers)
    TC002.TIMEOUT.

(** The condition under which step 1 of TC002 lets the scenario go on. *)
Definition registration_accepted (resp : Response) : Prop :=
  status_code resp = 201 \/ (status_code resp = 400 /\ mentions_already (text resp)).

(** ** Traces of computations *)

(** The requests of a trace, in order. *)
Definition sends (tr : list Event) : list Request :=
  flat_map (fun ev => match ev with EvSend r _ => [r] | _ => [] end) tr.

(** A computation that issues no event. *)
Definition Silent {L A} (m : M L A) : Prop :=
  forall env st, trace (snd (m env st)) = trace st.

(** What the steps of a scenario may issue: requests other than DELETE, with
    the 30 s timeout, and pauses. *)
Definition step_event (ev : Event) : Prop :=
  match ev with
  | EvSend r _ => timeout r = 30 /\ method r <> DELETE
  | EvSleep _ => True
  | EvClose => False
  end.

Definition is_err {A} (r : Res A) : Prop := exists e, r = Err e.

(** The events [new] of a computation that stops at the first request that
    raised: such a request is the last event, and the result is an error. *)
Definition fail_stop {A} (new : list Event) (r : Res A) : Prop :=
  Forall step_event new
  /\ forall pre rq net msg post,
       new = pre ++ EvSend rq (Failed net msg) :: post -> post = [] /\ is_err r.

Definition Steps {L A} (m : M L A) : Prop :=
  forall env st, exists new,
    trace (snd (m env st)) = trace st ++ new /\ fail_stop new (fst (m env st)).

(** ** Scenarios: steps followed by cleanup *)






(** ** TC010: the cleanup block *)

(** The DELETE requests of a trace, in order. *)
Definition is_delete (r : Request) : bool :=
  match method r with DELETE => true | _ => false end.

Definition deletes (tr : list Event) : list Request := filter is_delete (sends tr).

(** The requests [rs] sent one after the other, with the server's answers,
    after the trace [tr]. *)
Fixpoint exchanges (env : Env) (rs : list Request) (tr : list Event) : list Event :=
  match rs with
  | [] => []
  | r :: rest =>
      let ev := EvSend r (server env tr r) in
      ev :: exchanges env rest (tr ++ [ev])
  end.

Definition TC010_delete (u : fstring) (l : TC010.Locals) : Request :=
  mkRequest DELETE u None (Some (TC010.make_auth_headers (TC010.auth_token l)))
    TC010.TIMEOUT.

Definition delete_link (l : TC010.Locals) : Request :=
  TC010_delete (TC010.link_delete_url (TC010.project_id l) (TC010.link_id l)) l.
Definition delete_project (l : TC010.Locals) : Request :=
  TC010_delete (TC010.project_delete_url (TC010.project_id l)) l.
Definition delete_site (l : TC010.Locals) : Request :=
  TC010_delete (TC010.site_delete_url (TC010.site_id l)) l.

(** The requests of the cleanup block, from the variables it reads. *)
Definition cleanup_requests (l : TC010.Locals) : list Request :=
  if truthy (TC010.auth_token l) then
    (if truthy (TC010.link_id l) && truthy (TC010.project_id l)
     then [delete_link l] else [])
    ++ (if truthy (TC010.project_id l) then [delete_project l] else [])
    ++ (if truthy (TC010.site_id l) then [delete_site l] else [])
  else [].

(** After [rs] were sent from [st]. *)
Definition after_exchanges {L} (env : Env) (rs : list Request) (st : State L) : State L :=
  mkState (locals st) (trace st ++ exchanges env rs (trace st)) (uuids st) (handling st).


(** ** TC008: the cleanup block *)

Definition TC008_delete (token id : JSON) : Request :=
  mkRequest DELETE (TC008.delete_project_url id) None (Some (TC008.make_headers token))
    TC008.TIMEOUT.

(** The error that the cleanup of TC008 raises around [inner]. *)
Definition cleanup_failed (id : JSON) (inner : Exn) : Exn :=
  mkExn AssertionError
    ([Lit "Cleanup failed: could not delete project "; interp id; Lit " - "]
     ++ message inner)
    (Some inner).

(** What goes wrong with the DELETE of TC008, if anything. *)
Definition delete_failure (h : option Exn) (rep : Reply) : option Exn :=
  match rep with
  | Responded resp =>
      if status_code resp =? 200 then None
      else Some (mkExn AssertionError
                   [Lit "Deleting project failed with status "; status (status_code resp)] h)
  | Failed n msg => Some (mkExn (net_kind n) [Lit msg] h)
  end.

(** [e'] was raised while handling an exception raised while handling [e]. *)
Definition chained (e' e : Exn) : Prop :=
  exists inner, context e' = Some inner /\ context inner = Some e.

(** Length of the context chain of an exception. *)
Fixpoint depth (e : Exn) : nat :=
  match e with
  | mkExn _ _ None => 0
  | mkExn _ _ (Some c) => S (depth c)
  end.

(** ** Example servers *)

(** The double quote character. *)
Definition dq : string := String "034"%char EmptyString.

(** The text of a JSON object with one member. *)
Definition object_text (key value : string) : string :=
  ("{" ++ dq ++ key ++ dq ++ ": " ++ value ++ "}")%string.
Definition quoted (s : string) : string := (dq ++ s ++ dq)%string.

(** A server that answers the n-th request with the n-th of [replies], and
    refuses connections after them. *)
Definition scripted (replies : list Reply) : Env :=
  mkEnv (fun hist _ =>
           nth (List.length (sends hist)) replies (Failed NetConnection "Connection refused"))
        (fun _ => "0123456789abcdef0123456789abcdef")
        (fun _ => "2026-01-02T03:04:05.000006").

Definition json_reply (code : Z) (key value : string) (v : JSON) : Reply :=
  Responded (mkResponse code (object_text key value) (Some (JObj [(key, v)]))).
Definition plain_reply (code : Z) (body : string) : Reply :=
  Responded (mkResponse code body None).

(** Equality of numbers and strings, standing for Python's [==] in the examples. *)
Definition scalar_eq (a b : JSON) : bool :=
  match a, b with
  | JInt x, JInt y => x =? y
  | JStr x, JStr y => (x =? y)%string
  | _, _ => false
  end.

(** TC008: the project is created, listing the projects fails, and so does
    the DELETE of the cleanup. *)
Definition failing_list_and_delete : Env :=
  scripted [json_reply 200 "token" (quoted "jwt") (JStr "jwt");
            json_reply 201 "id" "7" (JInt 7);
            plain_reply 500 "Internal Server Error";
            plain_reply 500 "Internal Server Error"].

(** ** Failures of the cleanup and the reported outcome *)

(** The steps of TC008 without its [finally] block. *)
Definition TC008_steps (py_eq : JSON -> JSON -> bool) : M TC008.Locals unit :=
  token <- TC008.authenticate ;;
  modify (fun _ => TC008.mkLocals JNull) ;;
  TC008.body py_eq (TC008.make_headers token).

Definition TC008_primary : Exn :=
  mkExn AssertionError [Lit "Getting projects failed with status "; status 500] None.

Definition TC008_reported : Exn :=
  cleanup_failed (JInt 7)
    (mkExn AssertionError [Lit "Deleting project failed with status "; status 500]
       (Some TC008_primary)).

Definition TC008_after_login : State TC008.Locals :=
  snd (TC008.authenticate failing_list_and_delete (initial TC008.no_locals)).

(** ** Cleanup: once, in order *)

(** The purchase scenario against a server that lets every step through, up
    to the purchase, which it answers with [purchase]; the site is created
    under the identifier [site]. *)
Definition purchase_run (site : JSON) (site_text : string) (purchase : Reply) : Env :=
  scripted [plain_reply 201 "Created";
            json_reply 200 "token" (quoted "jwt") (JStr "jwt");
            json_reply 201 "id" "11" (JInt 11);
            json_reply 201 "id" site_text site;
            json_reply 201 "id" "33" (JInt 33);
            plain_reply 200 "OK";
            json_reply 200 "balance" "100" (JInt 100);
            purchase;
            plain_reply 200 "OK"; plain_reply 200 "OK"; plain_reply 200 "OK"].

Definition purchase_accepted : Reply := json_reply 200 "placementId" "44" (JInt 44).
Definition purchase_refused : Reply :=
  json_reply 400 "message" (quoted "Insufficient balance") (JStr "Insufficient balance").

Definition captured_with_site (site : JSON) : TC010.Locals :=
  TC010.mkLocals (JStr "jwt") (JInt 11) site (JInt 33).

(** ** Registration: accepted statuses *)

(** A server that says the user exists, whatever it is asked. *)
Definition user_exists : Env :=
  scripted [plain_reply 400 "Username ALREADY taken"].

Definition user_exists_response : Response :=
  mkResponse 400 "Username ALREADY taken" None.

Definition TC004_register_request : Request :=
  mkRequest POST TC004.register_url (Some TC004.user_data) None TC004.TIMEOUT.

(** ** Token extraction *)

(** [m] carries [v] under exactly one of the keys [k1] and [k2]. *)
Definition under_one_key (m : list (string * JSON)) (k1 k2 : string) (v : JSON) : Prop :=
  (lookup k1 m = Some v /\ lookup k2 m = None)
  \/ (lookup k1 m = None /\ lookup k2 m = Some v).

Definition token_not_found (msg : string) (h : option Exn) : Exn :=
  mkExn AssertionError [Lit msg] h.

(** A login response that carries the token under [accessToken]. *)
Definition access_token_data : JSON := JObj [("accessToken", JStr "jwt")].
Definition access_token_response : Response :=
  mkResponse 200 (object_text "accessToken" (quoted "jwt")) (Some access_token_data).

(** Registration succeeds and the login answers with [accessToken]. *)
Definition login_with_access_token : Env :=
  scripted [plain_reply 201 "Created"; Responded access_token_response].

(** ** The first request of a scenario *)

Definition Extends {L A} (m : M L A) : Prop :=
  forall env st, exists new, trace (snd (m env st)) = trace st ++ new.

(** The first event that [m] adds to the trace is the request [r]. *)
Definition first_send {L A} (m : M L A) (env : Env) (st : State L) (r : Request) : Prop :=
  exists rep rest, trace (snd (m env st)) = trace st ++ EvSend r rep :: rest.

Definition first_request (tr : list Event) : option Request := hd_error (sends tr).

Definition TC006_register_request (hex : string) : Request :=
  mkRequest POST TC006.register_url
    (Some (TC006.register_payload (TC006.make_username hex)
             (TC006.make_email (TC006.make_username hex))))
    None TC006.TIMEOUT.
Definition TC007_register_request : Request :=
  mkRequest POST TC007.register_url (Some TC007.register_payload) (Some TC007.headers)
    TC007.TIMEOUT.
Definition TC010_register_request : Request :=
  mkRequest POST TC010.register_url (Some TC010.register_payload) (Some TC010.headers)
    TC010.TIMEOUT.

(** ** User names *)

(** The same environment with another [uuid] generator. *)
Definition with_uuid (hex : string) (env : Env) : Env :=
  mkEnv (server env) (fun _ => hex) (utcnow_plus_days_iso env).

Definition first_uuid : string := "aaaaaaaa0123456789abcdef01234567".
Definition second_uuid : string := "bbbbbbbb0123456789abcdef01234567".

(** ** Every scenario: the timeout, and no retry *)


(** ** TC010: the steps, in order *)

(** The requests of the eight steps, from the variables captured by the end
    of the run and the date computed for the purchase. *)
Definition planned_requests (l : TC010.Locals) (scheduled_date_iso : string)
  : list Request :=
  let h := Some (TC010.make_auth_headers (TC010.auth_token l)) in
  [ mkRequest POST TC010.register_url (Some TC010.register_payload)
      (Some TC010.headers) 30;
    mkRequest POST TC010.login_url (Some TC010.login_payload) (Some TC010.headers) 30;
    mkRequest POST TC010.projects_url (Some TC010.project_payload) h 30;
    mkRequest POST TC010.sites_url (Some TC010.site_payload) h 30;
    mkRequest POST (TC010.links_url (TC010.project_id l)) (Some TC010.link_payload) h 30;
    mkRequest POST TC010.deposit_url (Some TC010.deposit_payload) h 30;
    mkRequest GET TC010.balance_url None h 30;
    mkRequest POST TC010.purchase_url
      (Some (TC010.purchase_payload (TC010.project_id l) (TC010.site_id l)
               (TC010.link_id l) scheduled_date_iso)) h 30 ].

Definition scheduled_date (env : Env) : string :=
  (utcnow_plus_days_iso env 1 ++ "Z")%string.

(** What a step of TC010 does to the state: it sends [rq], once, and leaves
    the exception being handled as it was. *)
Definition sends_once (rq : Request) (env : Env) (st st' : State TC010.Locals) : Prop :=
  trace st' = trace st ++ [EvSend rq (server env (trace st) rq)]
  /\ handling st' = handling st.

(** A number greater than zero, as [balance > 0] decides it. *)
Definition positive_balance (b : JSON) : Prop :=
  match b with
  | JBool x => x = true
  | JInt z => 0 < z
  | JFloat f => SFltb (S754_zero false) f = true
  | _ => False
  end.

(** The response to the balance request lets step 7 pass. *)
Definition balance_confirmed (resp : Response) : Prop :=
  status_code resp = 200
  /\ exists m b, decoded resp = Some (JObj m) /\ lookup "balance" m = Some b
                 /\ positive_balance b.

Definition purchase_request (h : list (string * fstring)) (l : TC010.Locals) (env : Env)
  : Request :=
  mkRequest POST TC010.purchase_url
    (Some (TC010.purchase_payload (TC010.project_id l) (TC010.site_id l)
             (TC010.link_id l) (scheduled_date env)))
    (Some h) 30.

(** The result of steps 8 and 9, from the reply to the purchase request. *)
Definition purchase_result (env : Env) (st : State TC010.Locals) (rep : Reply) : Res unit :=
  match rep with
  | Responded resp => fst (TC010.validate_purchase resp env st)
  | Failed n msg => Err (mkExn (net_kind n) [Lit msg] (handling st))
  end.

Definition purchase_refused_error (resp : Response) (m : list (string * JSON))
    (h : option Exn) : Exn :=
  mkExn AssertionError
    [Lit "Purchase failed with 400 error: ";
     interp (match lookup "message" m with Some v => v | None => JStr (text resp) end)]
    h.

Definition balance_request (h : list (string * fstring)) : Request :=
  mkRequest GET TC010.balance_url None (Some h) 30.

(** How the steps of TC010 end, from [st0] to [stb] with result [r]: before
    the purchase, with an error, after a prefix of the planned requests; or
    with the purchase, sent after the seven other requests and a confirmed
    balance, whose reply decides the result. *)
Inductive StepsEnd (env : Env) (st0 stb : State TC010.Locals) (r : Res unit) : Prop :=
| steps_stopped n :
    (n < 8)%nat ->
    trace stb
      = trace st0
        ++ exchanges env (firstn n (planned_requests (locals stb) (scheduled_date env)))
             (trace st0) ->
    handling stb = handling st0 ->
    is_err r ->
    StepsEnd env st0 stb r
| steps_purchased resp7 :
    let h := TC010.make_auth_headers (TC010.auth_token (locals stb)) in
    let plan := planned_requests (locals stb) (scheduled_date env) in
    trace stb = trace st0 ++ exchanges env plan (trace st0) ->
    In (EvSend (balance_request h) (Responded resp7)) (exchanges env plan (trace st0)) ->
    balance_confirmed resp7 ->
    handling stb = handling st0 ->
    r = purchase_result env stb
          (server env (trace st0 ++ exchanges env (firstn 7 plan) (trace st0))
             (purchase_request h (locals stb) env)) ->
    StepsEnd env st0 stb r.

Definition refused_response : Response :=
  mkResponse 400 (object_text "message" (quoted "Insufficient balance"))
    (Some (JObj [("message", JStr "Insufficient balance")])).
Definition accepted_response : Response :=
  mkResponse 200 (object_text "placementId" "44") (Some (JObj [("placementId", JInt 44)])).

(** ** Example runs *)

(** The login scenario against a server that throttles the third failing
    login of the probe. *)
Definition throttling_server : Env :=
  scripted [json_reply 200 "token" (quoted "jwt") (JStr "jwt");
            plain_reply 401 "Unauthorized";
            plain_reply 401 "Unauthorized";
            plain_reply 401 "Unauthorized";
            plain_reply 429 "Too Many Requests"].

(** A server that does not answer in time. *)
Definition silent_server : Env :=
  mkEnv (fun _ _ => Failed NetTimeout "Read timed out.")
        (fun _ => first_uuid)
        (fun _ => "2026-01-02T03:04:05.000006").

(** ** Passing runs *)

(** [m] passes from [st]: it ends in [st'] with the value [a]. *)
Definition passes {L A} (m : M L A) (env : Env) (st : State L) (a : A) (st' : State L)
  : Prop :=
  m env st = (Ok a, st').

(** The response [resp] answers with the status [code]. *)
Definition answered (code : Z) (rep : Reply) : Prop :=
  exists resp, rep = Responded resp /\ status_code resp = code.

(** ** TC007: the requests *)

Definition TC007_login_request (password : string) : Request :=
  mkRequest POST TC007.login_url
    (Some (JObj [("username", JStr TC007.test_username); ("password", JStr password)]))
    (Some TC007.headers) 30.

Definition TC007_change_request (token : JSON) (current new : string) : Request :=
  mkRequest POST TC007.change_password_url
    (Some (JObj [("currentPassword", JStr current); ("newPassword", JStr new)]))
    (Some [("Authorization", [Lit "Bearer "; interp token]);
           ("Content-Type", [Lit "application/json"])])
    30.

(** The JSON object of [resp] carries the truthy value [v] under [key]. *)
Definition carries (resp : Response) (key : string) (v : JSON) : Prop :=
  exists m, decoded resp = Some (JObj m) /\ lookup key m = Some v /\ truthy v = true.

(** A server under which the password scenario passes. *)
Definition password_changing_server : Env :=
  scripted [plain_reply 201 "created";
            json_reply 200 "token" (quoted "jwt") (JStr "jwt");
            plain_reply 200 "changed";
            plain_reply 200 "ok";
            plain_reply 400 "wrong password"].

(** ** TC003: the requests and the failures *)

Definition verify_request (token : string) : Request :=
  mkRequest GET [Lit (TC003.BASE_URL ++ TC003.VERIFY_EMAIL_ENDPOINT_format token)%string]
    None None 30.

(** The exchanges of the verification loop: the i-th token with the i-th
    reply, as long as there are both. *)
Definition verification_events (tokens : list string) (replies : list Reply) : list Event :=
  map (fun p => EvSend (verify_request (fst p)) (snd p)) (combine tokens replies).

(** The assertion error that reports the reply [rep] to the request for
    [token], raised while [ctx] was being handled. *)
Definition verification_error (token : string) (rep : Reply) (ctx : option Exn) : Exn :=
  match rep with
  | Responded r =>
      mkExn AssertionError
        [Lit "Expected status 400 for invalid token '"; Lit token; Lit "', got ";
         status (status_code r)] ctx
  | Failed n msg =>
      mkExn AssertionError
        [Lit "Request failed for token '"; Lit token; Lit "': "; Lit msg]
        (Some (mkExn (net_kind n) [Lit msg] ctx))
  end.

(** The outcome of the verification loop over [tokens] after the replies
    [replies]: it passes when every token was answered 400, and fails at the
    first reply that is anything else. *)
Definition verification_outcome (tokens : list string) (replies : list Reply)
    (ctx : option Exn) (r : Res unit) : Prop :=
  match r with
  | Ok _ => List.length replies = List.length tokens /\ Forall (answered 400) replies
  | Err e =>
      exists done rep token,
        replies = done ++ [rep]
        /\ Forall (answered 400) done
        /\ ~ answered 400 rep
        /\ nth_error tokens (List.length done) = Some token
        /\ e = verification_error token rep ctx
  end.

(** ** TC009: the requests *)

Definition TC009_request (payload : JSON) : Request :=
  mkRequest POST TC009.url_register (Some payload) (Some TC009.headers) 30.

(** What [key in obj] evaluates to; [None] when it raises. *)
Definition contained (key : string) (obj : JSON) : option bool :=
  match obj with
  | JObj m => Some (has_key key m)
  | JArr l => Some (existsb (fun x => match x with
                                      | JStr s => (s =? key)%string
                                      | _ => false
                                      end) l)
  | JStr s => Some (contains key s)
  | _ => None
  end.

(** [a in obj or b in obj] holds: the first test holds, or it is false
    without raising and the second holds. *)
Definition either_contained (a b : string) (obj : JSON) : Prop :=
  contained a obj = Some true
  \/ (contained a obj = Some false /\ contained b obj = Some true).

(** A server that registers the site and refuses the invalid token. *)
Definition plugin_server : Env :=
  scripted [json_reply 201 "id" "7" (JInt 7);
            json_reply 400 "error" (quoted "Invalid registration token")
              (JStr "Invalid registration token")].

(** ** TC004: the refresh token of a login response *)

(** What the extraction yields for a JSON object: the member [refreshToken]
    when there is one, else the member [refresh_token], whatever their
    values; else an assertion error, whose message depends on a [token]
    member. *)
Definition refresh_token_of (m : list (string * JSON)) (ctx : option Exn) : Res JSON :=
  match lookup "refreshToken" m, lookup "refresh_token" m with
  | Some v, _ => Ok v
  | None, Some v => Ok v
  | None, None =>
      if has_key "token" m
      then Err (mkExn AssertionError [Lit "No refresh token provided in login response"] ctx)
      else Err (mkExn AssertionError [Lit "No token found in login response"] ctx)
  end.

(** ** TC004: the requests *)

Definition TC004_login_request : Request :=
  mkRequest POST TC004.login_url (Some TC004.login_data) None 30.

Definition TC004_refresh_request (refresh_token : JSON) : Request :=
  mkRequest POST TC004.refresh_url (Some (JObj [("refreshToken", refresh_token)]))
    (Some TC004.headers) 30.

(** A server under which the refresh scenario passes; the login response
    carries both spellings of the refresh token. *)
Definition refreshing_server : Env :=
  scripted [plain_reply 400 "Bad Request";
            Responded (mkResponse 200 "{...}"
                         (Some (JObj [("token", JStr "jwt");
                                      ("refresh_token", JStr "old");
                                      ("refreshToken", JStr "new")])));
            json_reply 200 "accessToken" (quoted "jwt2") (JStr "jwt2");
            plain_reply 401 "Unauthorized"].

(** ** TC005: the token and the requests *)

(** [m.get(key)] on a dict *)
Definition member (key : string) (m : list (string * JSON)) : JSON :=
  match lookup key m with Some v => v | None => JNull end.

(** The token the profile scenario takes from the login data: the member
    [token] when it is truthy, else the member [accessToken] unless that is
    missing or null. *)
Definition login_token_of (m : list (string * JSON)) : option JSON :=
  if truthy (member "token" m) then Some (member "token" m)
  else if is_None (member "accessToken" m) then None
       else Some (member "accessToken" m).

Definition TC005_login_request : Request :=
  mkRequest POST TC005.login_url (Some TC005.login_payload) None 30.

Definition TC005_profile_request (token : JSON) : Request :=
  mkRequest GET TC005.profile_url None
    (Some [("Authorization", [Lit "Bearer "; interp token])]) 30.

(** A server whose login response carries an empty [token] and an empty
    [accessToken], and which serves the profile. *)
Definition empty_token_server : Env :=
  scripted [Responded (mkResponse 200 "{...}"
                         (Some (JObj [("token", JStr EmptyString);
                                      ("accessToken", JStr EmptyString)])));
            Responded (mkResponse 200 "{...}"
                         (Some (JObj [("id", JInt 1); ("username", JStr "testuser");
                                      ("email", JStr "testuser@example.com")])))].

(** ** TC006: the requests of a run *)

Definition TC006_headers (token : JSON) : list (string * fstring) :=
  [("Authorization", [Lit "Bearer "; interp token]);
   ("Content-Type", [Lit "application/json"])].

Definition TC006_login_request (username : string) : Request :=
  mkRequest POST TC006.login_url
    (Some (JObj [("username", JStr username); ("password", JStr TC006.TEST_PASSWORD)]))
    None 30.

Definition TC006_profile_request (token : JSON) : Request :=
  mkRequest GET TC006.profile_url None (Some (TC006_headers token)) 30.

Definition TC006_patch_request (payload : JSON) (h : option (list (string * fstring)))
  : Request :=
  mkRequest PATCH TC006.profile_url (Some payload) h 30.

(** The new email, made from the user name, and the new display name, made
    from a fresh uuid. *)
Definition new_email_of (username : string) : string :=
  ("updated_" ++ username ++ "@example.com")%string.
Definition new_display_name_of (hex : string) : string :=
  ("DisplayName_" ++ substring 0 6 hex)%string.
Definition update_payload_of (username hex : string) : JSON :=
  JObj [("email", JStr (new_email_of username));
        ("display_name", JStr (new_display_name_of hex))].

(** The JSON object of [resp] shows the string [s] under [key]. *)
Definition shows (resp : Response) (key s : string) : Prop :=
  exists m, decoded resp = Some (JObj m) /\ lookup key m = Some (JStr s).

(** A server under which the profile update passes: the two uuids differ,
    and the profile is served as a JSON array of field names at first. *)
Definition updated_profile : Response :=
  mkResponse 200 "{...}"
    (Some (JObj [("email", JStr "updated_testuser_aaaaaaaa@example.com");
                 ("display_name", JStr "DisplayName_bbbbbb")])).

Definition profile_server : Env :=
  mkEnv (server (scripted [plain_reply 201 "created";
                           json_reply 200 "token" (quoted "jwt") (JStr "jwt");
                           Responded (mkResponse 200 "[...]"
                                        (Some (JArr [JStr "username"; JStr "email"])));
                           Responded updated_profile;
                           Responded updated_profile;
                           plain_reply 422 "Unprocessable Entity";
                           plain_reply 401 "Unauthorized"]))
        (fun n => match n with O => first_uuid | _ => second_uuid end)
        (fun _ => "2026-01-02T03:04:05.000006").

(** ** TC008: the requests of a run *)

Definition TC008_login_request : Request :=
  mkRequest POST TC008.auth_url (Some TC008.auth_payload) None 30.

Definition TC008_create_request (token : JSON) : Request :=
  mkRequest POST TC008.projects_url (Some TC008.project_payload)
    (Some (TC008.make_headers token)) 30.

Definition TC008_list_request (token : JSON) : Request :=
  mkRequest GET TC008.projects_url None (Some (TC008.make_headers token)) 30.

(** [d.get("id") or d.get("projectId") or d.get("project_id")] on a dict *)
Definition project_id_of (m : list (string * JSON)) : JSON :=
  py_or (py_or (member "id" m) (member "projectId" m)) (member "project_id" m).

(** The error reported when the login of TC008 fails with [cause]. *)
Definition authentication_failed (cause : Exn) : Exn :=
  mkExn AssertionError (Lit "Authentication failed: " :: message cause) (Some cause).

(** What the cleanup of TC008 does in a passing run: one DELETE of the
    project, answered 200, when the identifier is truthy; nothing
    otherwise. *)
Definition deleted_if_truthy (token id : JSON) (events : list Event) : Prop :=
  if truthy id
  then exists r, events = [EvSend (TC008_delete token id) (Responded r)]
                 /\ status_code r = 200
  else events = [].

(** A server that creates the project under the identifier 0, given as
    [project_id]. *)
Definition project_zero_server : Env :=
  scripted [json_reply 200 "token" (quoted "jwt") (JStr "jwt");
            json_reply 201 "project_id" "0" (JInt 0);
            Responded (mkResponse 200 "[...]" (Some (JArr [JObj [("id", JInt 0)]])))].

(** ** TC001: the requests *)

Definition TC001_login_request : Request :=
  mkRequest POST [Lit TC001.LOGIN_URL] (Some TC001.login_payload) (Some TC001.headers) 30.

(** A server that accepts the valid login, refuses the wrong password twice
    and then throttles. *)
Definition login_then_throttle : Env :=
  scripted [json_reply 200 "accessToken" (quoted "jwt") (JStr "jwt");
            plain_reply 401 "Unauthorized";
            plain_reply 401 "Unauthorized";
            plain_reply 429 "Too Many Requests"].

(** ** TC002: the validation requests *)

Definition TC002_request (payload : JSON) : Request :=
  mkRequest POST TC002.register_url (Some payload) (Some TC002.headers) 30.

(** A server that knows the user already and refuses the four invalid
    payloads. *)
Definition validating_server : Env :=
  scripted [plain_reply 400 "Username already exists";
            plain_reply 400 "username is required";
            plain_reply 400 "email is required";
            plain_reply 400 "password is required";
            plain_reply 400 "invalid email"].

(** ** The exceptions a computation can end with *)

(** Every failure of [m], from any state, is of one of the classes [ks]. *)
Definition raises_only {L A} (ks : list ExnKind) (m : M L A) : Prop :=
  forall env st e, fst (m env st) = Err e -> In (kind e) ks.

(** The classes that [except requests.RequestException] catches. *)
Definition request_kinds : list ExnKind :=
  [Timeout; ConnectionError; RequestException; JSONDecodeError].

(** ** How strict the scenarios are about the login token *)

Definition succeeds {A} (r : Res A) : bool :=
  match r with Ok _ => true | Err _ => false end.

(** ** Every scenario but TC010: a request that raised is fatal *)






(** ** TC010: what the steps capture *)

Definition TC010_login_request : Request :=
  mkRequest POST TC010.login_url (Some TC010.login_payload) (Some TC010.headers) 30.

(** A step went from [st] to [st']: it sent [rq], the server answered with
    [resp], and the variables are [l'] afterwards. *)
Definition stepped (rq : Request) (resp : Response) (l' : TC010.Locals) (env : Env)
    (st st' : State TC010.Locals) : Prop :=
  server env (trace st) rq = Responded resp
  /\ trace st' = trace st ++ [EvSend rq (Responded resp)]
  /\ locals st' = l'
  /\ handling st' = handling st.

(** [m.get("token") or m.get("accessToken")] *)
Definition login_token (m : list (string * JSON)) : JSON :=
  py_or (member "token" m) (member "accessToken" m).

(** [m.get("id") or m.get(alt)] *)
Definition created_id (alt : string) (m : list (string * JSON)) : JSON :=
  py_or (member "id" m) (member alt m).

(** The variables [l] hold what the responses to the login and to the
    creation of the project, the site and the link carried. *)
Definition captured_from (login project site link : Response) (l : TC010.Locals) : Prop :=
  exists m2 m3 m4 m5,
    decoded login = Some (JObj m2) /\ TC010.auth_token l = login_token m2
    /\ decoded project = Some (JObj m3) /\ TC010.project_id l = created_id "projectId" m3
    /\ decoded site = Some (JObj m4) /\ TC010.site_id l = member "id" m4
    /\ decoded link = Some (JObj m5) /\ TC010.link_id l = created_id "linkId" m5.

(** The requests [rqs], each answered by the response of [resps] at the same
    position. *)
Definition answers (rqs : list Request) (resps : list Response) : list Event :=
  map (fun p => EvSend (fst p) (Responded (snd p))) (combine rqs resps).

(** Steps 1 to 7 of the purchase scenario; their value is the headers that
    step 8 uses. *)
Definition TC010_steps_to_balance : M TC010.Locals (list (string * fstring)) :=
  TC010.step1_register ;;
  TC010.step2_login ;;
  l <- get_locals ;;
  let auth_headers := TC010.make_auth_headers (TC010.auth_token l) in
  TC010.step3_project auth_headers ;;
  TC010.step4_site auth_headers ;;
  TC010.step5_link auth_headers ;;
  TC010.step6_deposit auth_headers ;;
  TC010.step7_balance auth_headers ;;
  ret auth_headers.

(** [m] issues at most [n] events. *)
Definition AtMost {L A} (n : nat) (m : M L A) : Prop :=
  forall env st, exists new,
    trace (snd (m env st)) = trace st ++ new /\ (List.length new <= n)%nat.

(** The error of step 9 on a purchase response with status 400, raised while
    [h] was being handled: the assertion error with the [message] member, or
    the response text, when the body is a JSON object; otherwise the error of
    reading the body. *)
Definition purchase_400_error (resp : Response) (h : option Exn) : Exn :=
  match decoded resp with
  | Some (JObj m) => purchase_refused_error resp m h
  | Some v =>
      mkExn AttributeError
        [Lit "'"; Lit (type_name v); Lit "' object has no attribute 'get'"] h
  | None => mkExn JSONDecodeError [Lit "Expecting value"] h
  end.

(** The purchase response is a 200 that carries a placement identifier. *)
Definition purchase_confirmed (resp : Response) : Prop :=
  status_code resp = 200
  /\ exists v, decoded resp = Some v /\ either_contained "placementId" "id" v.

(** A purchase refused with a body that is not JSON. *)
Definition purchase_refused_plainly : Reply := plain_reply 400 "Insufficient balance".

(** * Properties *)

(** ** TC001: the rate-limit probe *)

Lemma ProbeEnd_S n k h tail r :
  ProbeEnd n k h tail r -> ProbeEnd (S n) (S k) h tail r.
Proof. destruct 1; constructor; auto; lia. Qed.

Lemma probe_loop_spec (attempts : list nat) (env : Env) (st : State unit) :
  exists resps tail,
    trace (snd (TC001.probe_loop attempts false env st))
      = trace st ++ flat_map quiet_round resps ++ tail
    /\ handling (snd (TC001.probe_loop attempts false env st)) = handling st
    /\ Forall not_throttled resps
    /\ ProbeEnd (List.length attempts) (List.length resps) (handling st) tail
         (fst (TC001.probe_loop attempts false env st)).
Proof.
  revert st. induction attempts as [|a rest IH]; intros st.
  - exists [], []. cbn. rewrite app_nil_r. repeat split; auto.
    now constructor.
  - cbn [TC001.probe_loop]. unfold bind, post, send.
    fold TC001.probe_request.
    destruct (server env (trace st) TC001.probe_request) as [resp|net msg] eqn:Hrep.
    + destruct (status_code resp =? 429) eqn:Hs.
      * exists [], [EvSend TC001.probe_request (Responded resp)]. cbn.
        repeat split; auto. constructor; [now apply Z.eqb_eq | lia].
      * cbn [sleep].
        set (st2 := emit (EvSleep (1 # 10))
                      (emit (EvSend TC001.probe_request (Responded resp)) st)).
        destruct (IH st2) as (resps & tail & Htr & Hh & Hall & Hend).
        exists (resp :: resps), tail.
        change (sleep (1 # 10) env (emit (EvSend TC001.probe_request (Responded resp)) st))
          with (@Ok unit tt, st2).
        cbn iota. repeat split.
        -- rewrite Htr. subst st2. cbn. rewrite <- !app_assoc. reflexivity.
        -- rewrite Hh. reflexivity.
        -- constructor; [now apply Z.eqb_neq | exact Hall].
        -- subst st2. cbn [handling emit] in Hend.
           cbn [List.length]. now apply ProbeEnd_S.
    + exists [], [EvSend TC001.probe_request (Failed net msg)]. cbn.
      repeat split; auto. constructor. lia.
Qed.

(** C1.  Whatever the server answers and whatever happened before, step 3 of
    the login scenario adds to the trace some rounds "failing-credential
    login, a response other than 429, a pause of 0.1 s" and then ends in one
    of three ways: a login answered 429 within the first ten attempts, after
    which nothing more is sent and the step passes; ten rounds without a 429,
    and the step fails with the assertion error on rate limiting; or a
    request that raised, which ends the step with that exception. *)
Theorem rate_limit_probe (env : Env) (st : State unit) :
  exists resps tail,
    trace (snd (TC001.step3 env st)) = trace st ++ flat_map quiet_round resps ++ tail
    /\ Forall not_throttled resps
    /\ Step3End (handling st) (List.length resps) tail (fst (TC001.step3 env st)).
Proof.
  destruct (probe_loop_spec (seq 0 TC001.max_attempts) env st)
    as (resps & tail & Htr & Hh & Hall & Hend).
  exists resps, tail.
  unfold TC001.step3, bind.
  destruct (TC001.probe_loop (seq 0 TC001.max_attempts) false env st) as [r st'] eqn:E.
  cbn [fst snd] in *. rewrite length_seq in Hend.
  destruct Hend as [resp H429 Hk | Hk | net msg Hk]; cbn.
  - repeat split; auto. now constructor.
  - repeat split; auto. rewrite Hh, Hk. constructor.
  - repeat split; auto. now constructor.
Qed.

(** ** Strings: substring test and case folding *)

Lemma prefix_iff (n h : string) :
  prefix n h = true <-> exists suf, h = (n ++ suf)%string.
Proof.
  revert h. induction n as [|c n IH]; intros h; destruct h as [|d h]; cbn.
  - split; [intros _; now exists EmptyString | reflexivity].
  - split; [intros _; now exists (String d h) | reflexivity].
  - split; [discriminate | intros [suf H]; discriminate].
  - destruct (ascii_dec c d) as [->|Hne].
    + rewrite IH. split; intros [suf H]; exists suf; [now subst | now inversion H].
    + split; [discriminate | intros [suf H]; inversion H; congruence].
Qed.

Lemma contains_iff (n h : string) :
  contains n h = true <-> exists pre suf, h = (pre ++ n ++ suf)%string.
Proof.
  induction h as [|d h IH]; cbn [contains]; rewrite orb_true_iff, prefix_iff.
  - split.
    + intros [[suf H]|H]; [|discriminate]. now exists EmptyString, suf.
    + intros (pre & suf & H). left.
      destruct pre; [now exists suf | discriminate].
  - rewrite IH. split.
    + intros [[suf H]|(pre & suf & H)].
      * now exists EmptyString, suf.
      * exists (String d pre), suf. cbn. now rewrite H.
    + intros (pre & suf & H). destruct pre as [|c pre]; cbn in H.
      * left. now exists suf.
      * right. inversion H. now exists pre, suf.
Qed.

Lemma lower_app (a b : string) : lower (a ++ b) = (lower a ++ lower b)%string.
Proof. induction a; cbn; congruence. Qed.

Lemma lower_split (t x y : string) :
  lower t = (x ++ y)%string ->
  exists a b, t = (a ++ b)%string /\ lower a = x /\ lower b = y.
Proof.
  revert t. induction x as [|c x IH]; intros t H; cbn in H.
  - now exists EmptyString, t.
  - destruct t as [|d t]; [discriminate|]. cbn in H. inversion H as [[Hc Ht]].
    destruct (IH t Ht) as (a & b & -> & Ha & Hb).
    exists (String d a), b. cbn. now rewrite Ha.
Qed.

(** ** TC002 and TC004: the registration step *)

Lemma mentions_already_iff (body : string) :
  contains "already" (lower body) = true <-> mentions_already body.
Proof.
  rewrite contains_iff. split.
  - intros (pre & suf & H).
    apply lower_split in H as (a & b & -> & Ha & Hb).
    apply lower_split in Hb as (w & c & -> & Hw & Hc).
    now exists a, w, c.
  - intros (pre & w & suf & -> & Hw).
    exists (lower pre), (lower suf). now rewrite !lower_app, Hw.
Qed.

Lemma TC002_step1_result (env : Env) (st : State unit) (resp : Response) :
  server env (trace st) TC002_register_request = Responded resp ->
  TC002.step1 env st =
    (if (status_code resp =? 201)
        || ((status_code resp =? 400) && contains "already" (lower (text resp)))
     then Ok tt
     else Err (mkExn AssertionError
                 [Lit "Expected status code 201, got "; status (status_code resp)]
                 (handling st)),
     emit (EvSend TC002_register_request (Responded resp)) st).
Proof.
  intros Hrep. unfold TC002.step1, bind, post, send, try_except, assert_.
  fold TC002_register_request. rewrite Hrep.
  destruct (status_code resp =? 201) eqn:H201; cbn; [reflexivity|].
  destruct ((status_code resp =? 400) && contains "already" (lower (text resp)));
    cbn; destruct st; reflexivity.
Qed.

Lemma registration_accepted_iff (resp : Response) :
  (status_code resp =? 201)
  || ((status_code resp =? 400) && contains "already" (lower (text resp))) = true
  <-> registration_accepted resp.
Proof.
  unfold registration_accepted.
  now rewrite orb_true_iff, andb_true_iff, !Z.eqb_eq, mentions_already_iff.
Qed.

(** C9.  When the server answers the valid-payload registration of TC002 with
    a response, step 1 passes exactly when the status is 201, or the status
    is 400 and the body contains "already" in some mix of cases.  In every
    other case (a 400 without that word, any other status) the whole scenario
    fails with the assertion error of step 1 and sends nothing more. *)
Theorem registration_400_only_if_already
    (env : Env) (st : State unit) (resp : Response) :
  server env (trace st) TC002_register_request = Responded resp ->
  (fst (TC002.step1 env st) = Ok tt <-> registration_accepted resp)
  /\ (~ registration_accepted resp ->
      TC002.test_user_registration_process env st =
        (Err (mkExn AssertionError
                [Lit "Expected status code 201, got "; status (status_code resp)]
                (handling st)),
         emit (EvSend TC002_register_request (Responded resp)) st)).
Proof.
  intros Hrep. pose proof (TC002_step1_result env st Hrep) as Hstep.
  pose proof (registration_accepted_iff resp) as Hiff.
  destruct ((status_code resp =? 201)
            || ((status_code resp =? 400) && contains "already" (lower (text resp)))) eqn:Hc.
  - split.
    + rewrite Hstep. cbn. split; intros _; [now apply Hiff | reflexivity].
    + intros Hn. exfalso. apply Hn. now apply Hiff.
  - split.
    + rewrite Hstep. cbn. split; [discriminate|].
      intros Ha. apply Hiff in Ha. discriminate.
    + intros _. unfold TC002.test_user_registration_process, bind.
      now rewrite Hstep.
Qed.

(** ** Traces of computations *)

Lemma Silent_Steps {L A} (m : M L A) : Silent m -> Steps m.
Proof.
  intros H env st. exists []. rewrite app_nil_r. split; [apply H|].
  split; [constructor|]. intros pre rq net msg post Heq.
  destruct pre; discriminate.
Qed.

Lemma Silent_ret {L A} (a : A) : Silent (@ret L A a).
Proof. intros env st. reflexivity. Qed.

Lemma Silent_raise {L A} k msg : Silent (@raise L A k msg).
Proof. intros env st. reflexivity. Qed.

Lemma Silent_assert_False {L A} msg : Silent (@assert_False L A msg).
Proof. intros env st. reflexivity. Qed.

Lemma Silent_reraise {L A} e : Silent (@reraise L A e).
Proof. intros env st. reflexivity. Qed.

Lemma Silent_assert {L} c msg : Silent (@assert_ L c msg).
Proof. intros env st. destruct c; reflexivity. Qed.

Lemma Silent_get_locals {L} : Silent (@get_locals L).
Proof. intros env st. reflexivity. Qed.

Lemma Silent_modify {L} f : Silent (@modify L f).
Proof. intros env st. reflexivity. Qed.

Lemma Silent_uuid4 {L} : Silent (@uuid4_hex_ L).
Proof. intros env st. reflexivity. Qed.

Lemma Silent_utcnow {L} d : Silent (@utcnow_plus_days L d).
Proof. intros env st. reflexivity. Qed.

Lemma Silent_json_of {L} r : Silent (@json_of L r).
Proof. intros env st. unfold json_of. destruct (decoded r); reflexivity. Qed.

Lemma Silent_get_default {L} obj key d : Silent (@get_default L obj key d).
Proof. intros env st. destruct obj; reflexivity. Qed.

Lemma Silent_get {L} obj key : Silent (@get L obj key).
Proof. apply Silent_get_default. Qed.

Lemma Silent_py_in {L} key obj : Silent (@py_in L key obj).
Proof. intros env st. destruct obj; reflexivity. Qed.

Lemma Silent_gt0 {L} v : Silent (@gt0 L v).
Proof. intros env st. destruct v; reflexivity. Qed.

Lemma Silent_subscript {L} obj key : Silent (@subscript L obj key).
Proof.
  intros env st. destruct obj; try reflexivity.
  cbn. destruct (lookup key m); reflexivity.
Qed.

Lemma Silent_bind {L A B} (m : M L A) (k : A -> M L B) :
  Silent m -> (forall a, Silent (k a)) -> Silent (bind m k).
Proof.
  intros Hm Hk env st. unfold bind. specialize (Hm env st).
  destruct (m env st) as [[a|e] st1]; cbn in *; [|exact Hm].
  now rewrite Hk.
Qed.

Lemma Silent_or_else {L} (a b : M L bool) :
  Silent a -> Silent b -> Silent (or_else a b).
Proof.
  intros Ha Hb. apply Silent_bind; [exact Ha|].
  intros [|]; [apply Silent_ret | exact Hb].
Qed.

Lemma Silent_or_val {L} (a b : M L JSON) :
  Silent a -> Silent b -> Silent (or_val a b).
Proof.
  intros Ha Hb. apply Silent_bind; [exact Ha|].
  intros x. destruct (truthy x); [apply Silent_ret | exact Hb].
Qed.

Lemma Silent_try_except {L A} (m : M L A) c (h : Exn -> M L A) :
  Silent m -> (forall e, Silent (h e)) -> Silent (try_except m c h).
Proof.
  intros Hm Hh env st. unfold try_except. specialize (Hm env st).
  destruct (m env st) as [[a|e] st1]; cbn in *; [exact Hm|].
  destruct (c e); cbn; [|exact Hm].
  specialize (Hh e env (set_handling (Some e) st1)).
  destruct (h e env (set_handling (Some e) st1)) as [r st2]. cbn in *.
  congruence.
Qed.

Lemma Steps_send {L} (r : Request) :
  timeout r = 30 -> method r <> DELETE -> Steps (@send L r).
Proof.
  intros Ht Hm env st. exists [EvSend r (server env (trace st) r)].
  unfold send. split.
  - destruct (server env (trace st) r); reflexivity.
  - split; [repeat constructor; assumption|].
    intros pre rq net msg post Heq.
    destruct pre as [|x pre]; [|destruct pre; discriminate].
    inversion Heq as [[Hr Hrep Hpost]]. split; [reflexivity|].
    rewrite Hrep. cbn. eexists; reflexivity.
Qed.

Lemma Steps_sleep {L} q : Steps (@sleep L q).
Proof.
  intros env st. exists [EvSleep q]. split; [reflexivity|].
  split; [repeat constructor|].
  intros pre rq net msg post Heq.
  destruct pre as [|x pre]; [discriminate | destruct pre; discriminate].
Qed.

Lemma fail_stop_nil {A} (r : Res A) : fail_stop [] r.
Proof.
  split; [constructor|]. intros pre rq net msg post Heq. destruct pre; discriminate.
Qed.

Lemma fail_stop_app {A B} (n1 n2 : list Event) (a : A) (r : Res B) :
  fail_stop n1 (Ok a) -> fail_stop n2 r -> fail_stop (n1 ++ n2) r.
Proof.
  intros [F1 S1] [F2 S2]. split; [now apply Forall_app|].
  intros pre rq net msg post Heq.
  apply app_eq_app in Heq as [l [[H1 H2]|[H1 H2]]].
  - destruct l as [|x l].
    + cbn in H2. rewrite app_nil_r in H1. subst.
      apply (S2 [] rq net msg post). reflexivity.
    + inversion H2; subst.
      destruct (S1 pre rq net msg l eq_refl) as [_ [e He]]. discriminate.
  - subst. apply (S2 l rq net msg post). reflexivity.
Qed.

Lemma fail_stop_err {A B} (n : list Event) (e e' : Exn) :
  @fail_stop A n (Err e) -> @fail_stop B n (Err e').
Proof.
  intros [F S]. split; [exact F|]. intros pre rq net msg post Heq.
  destruct (S pre rq net msg post Heq) as [Hp _]. split; [exact Hp|].
  eexists; reflexivity.
Qed.

Lemma Steps_bind {L A B} (m : M L A) (k : A -> M L B) :
  Steps m -> (forall a, Steps (k a)) -> Steps (bind m k).
Proof.
  intros Hm Hk env st. unfold bind.
  destruct (Hm env st) as (n1 & Ht1 & Hf1).
  destruct (m env st) as [[a|e] st1]; cbn [fst snd] in *.
  - destruct (Hk a env st1) as (n2 & Ht2 & Hf2).
    exists (n1 ++ n2). split.
    + rewrite Ht2, Ht1. now rewrite app_assoc.
    + eapply fail_stop_app; eassumption.
  - exists n1. split; [exact Ht1|]. eapply fail_stop_err; eassumption.
Qed.

(** A handler that always raises keeps the computation fail-stop. *)
Lemma Steps_try_except_raise {L A} (m : M L A) c (h : Exn -> M L A) :
  Steps m ->
  (forall e, Silent (h e)) ->
  (forall e env st, is_err (fst (h e env st))) ->
  Steps (try_except m c h).
Proof.
  intros Hm Hs He env st. unfold try_except.
  destruct (Hm env st) as (n1 & Ht1 & Hf1).
  destruct (m env st) as [[a|e] st1]; cbn [fst snd] in *.
  - exists n1. now split.
  - destruct (c e).
    + specialize (Hs e env (set_handling (Some e) st1)).
      specialize (He e env (set_handling (Some e) st1)).
      destruct (h e env (set_handling (Some e) st1)) as [r st2]. cbn in *.
      exists n1. split; [congruence|].
      destruct He as [e' ->]. eapply fail_stop_err; eassumption.
    + exists n1. now split.
Qed.

Lemma Steps_for_each {L A} (xs : list A) (f : A -> M L unit) :
  (forall x, Steps (f x)) -> Steps (for_each xs f).
Proof.
  intros Hf. induction xs as [|x xs IH]; cbn.
  - apply Silent_Steps, Silent_ret.
  - apply Steps_bind; [apply Hf | intros _; exact IH].
Qed.

Lemma is_err_raise {L A} k msg env (st : State L) :
  is_err (fst (@raise L A k msg env st)).
Proof. eexists; reflexivity. Qed.

Lemma is_err_assert_False {L A} msg env (st : State L) :
  is_err (fst (@assert_False L A msg env st)).
Proof. eexists; reflexivity. Qed.

Ltac silent :=
  repeat first
    [ apply Silent_ret | apply Silent_raise | apply Silent_assert_False
    | apply Silent_reraise | apply Silent_assert | apply Silent_get_locals
    | apply Silent_modify | apply Silent_uuid4 | apply Silent_utcnow
    | apply Silent_json_of | apply Silent_get | apply Silent_get_default
    | apply Silent_py_in | apply Silent_gt0 | apply Silent_subscript
    | apply Silent_or_else | apply Silent_or_val
    | apply Silent_try_except; [| intro]
    | apply Silent_bind; [| intro]
    | match goal with
      | |- Silent (if ?b then _ else _) => destruct b
      | |- Silent (match ?x with _ => _ end) => destruct x
      end ].

Ltac steps :=
  repeat first
    [ solve [apply Silent_Steps; silent]
    | apply Steps_send; [reflexivity | discriminate]
    | apply Steps_sleep
    | apply Steps_for_each; intro
    | apply Steps_try_except_raise;
        [ | intro; solve [silent] | intros; solve [apply is_err_assert_False | apply is_err_raise] ]
    | apply Steps_bind; [| intro]
    | match goal with
      | |- Steps (if ?b then _ else _) => destruct b
      | |- Steps (match ?x with _ => _ end) => destruct x
      end ].







Lemma Steps_TC006_body u e : Steps (TC006.body u e).
Proof.
  unfold TC006.body, TC006.register, TC006.login, TC006.extract_token. steps.
Qed.


Lemma Steps_TC008_authenticate : Steps TC008.authenticate.
Proof. unfold TC008.authenticate, TC008.extract_token. steps. Qed.

Lemma Steps_TC008_body py_eq h : Steps (TC008.body py_eq h).
Proof. unfold TC008.body. steps. Qed.


Lemma Steps_TC010_body : Steps TC010.body.
Proof.
  unfold TC010.body, TC010.step1_register, TC010.step2_login, TC010.step3_project,
    TC010.step4_site, TC010.step5_link, TC010.step6_deposit, TC010.step7_balance,
    TC010.step8_purchase, TC010.extract_token, TC010.validate_purchase,
    TC010.balance_positive.
  steps.
Qed.

(** ** Scenarios: steps followed by cleanup *)


Lemma sends_app a b : sends (a ++ b) = sends a ++ sends b.
Proof. unfold sends. apply flat_map_app. Qed.




Lemma try_finally_trace {L A} (body : M L A) (fin : M L unit) env st :
  trace (snd (try_finally body fin env st)) =
    trace (snd (fin env
      (match fst (body env st) with
       | Ok _ => snd (body env st)
       | Err e => set_handling (Some e) (snd (body env st))
       end))).
Proof.
  unfold try_finally. destruct (body env st) as [[a|e] st1]; cbn [fst snd].
  - destruct (fin env st1) as [[u|e'] st2]; reflexivity.
  - destruct (fin env (set_handling (Some e) st1)) as [[u|e'] st2]; reflexivity.
Qed.



(** ** TC010: the cleanup block *)

Lemma sends_exchanges env rs tr : sends (exchanges env rs tr) = rs.
Proof.
  revert tr. induction rs as [|r rs IH]; intros tr; cbn; [reflexivity|].
  f_equal. apply IH.
Qed.

Lemma exchanges_app env rs1 rs2 tr :
  exchanges env (rs1 ++ rs2) tr
  = exchanges env rs1 tr ++ exchanges env rs2 (tr ++ exchanges env rs1 tr).
Proof.
  revert tr. induction rs1 as [|r rs1 IH]; intros tr; cbn.
  - now rewrite app_nil_r.
  - f_equal. rewrite IH. now rewrite <- app_assoc.
Qed.

Lemma delete_quietly_eq u h env (st : State TC010.Locals) :
  TC010.delete_quietly u h env st =
    (Ok tt,
     emit (EvSend (mkRequest DELETE u None (Some h) TC010.TIMEOUT)
             (server env (trace st) (mkRequest DELETE u None (Some h) TC010.TIMEOUT)))
          st).
Proof.
  unfold TC010.delete_quietly, try_except, bind, delete, send.
  destruct (server env (trace st) _); cbn; destruct st; reflexivity.
Qed.

Lemma after_exchanges_nil {L} env (st : State L) : after_exchanges env [] st = st.
Proof. unfold after_exchanges. cbn. rewrite app_nil_r. now destruct st. Qed.

Lemma after_exchanges_one {L} env r (st : State L) :
  emit (EvSend r (server env (trace st) r)) st = after_exchanges env [r] st.
Proof. reflexivity. Qed.

Lemma after_exchanges_app {L} env rs1 rs2 (st : State L) :
  after_exchanges env rs2 (after_exchanges env rs1 st) = after_exchanges env (rs1 ++ rs2) st.
Proof.
  unfold after_exchanges. cbn. rewrite exchanges_app. now rewrite app_assoc.
Qed.

Lemma TC010_cleanup_eq env (st : State TC010.Locals) :
  TC010.cleanup env st = (Ok tt, after_exchanges env (cleanup_requests (locals st)) st).
Proof.
  unfold TC010.cleanup, cleanup_requests, bind, get_locals.
  destruct (truthy (TC010.auth_token (locals st)));
    [|now rewrite after_exchanges_nil].
  assert (Hopt : forall (b : bool) u h (s : State TC010.Locals),
            (if b then TC010.delete_quietly u h else ret tt) env s
            = (Ok tt, after_exchanges env
                        (if b then [mkRequest DELETE u None (Some h) TC010.TIMEOUT]
                         else []) s)).
  { intros [|] u h s; [now rewrite delete_quietly_eq | cbn; now rewrite after_exchanges_nil]. }
  rewrite !Hopt. cbn iota.
  rewrite !after_exchanges_app. reflexivity.
Qed.

Lemma TC010_test_eq env (st : State TC010.Locals) :
  TC010.test_purchase_placement_with_billing env st =
    (fst (TC010.body env (set_locals TC010.no_locals st)),
     after_exchanges env
       (cleanup_requests (locals (snd (TC010.body env (set_locals TC010.no_locals st)))))
       (snd (TC010.body env (set_locals TC010.no_locals st)))).
Proof.
  unfold TC010.test_purchase_placement_with_billing, bind, modify, try_finally.
  destruct (TC010.body env (set_locals TC010.no_locals st)) as [[u|e] stb];
    rewrite TC010_cleanup_eq; cbn; [now destruct u|].
  unfold after_exchanges, set_handling. cbn. reflexivity.
Qed.

Lemma deletes_app a b : deletes (a ++ b) = deletes a ++ deletes b.
Proof. unfold deletes. now rewrite sends_app, filter_app. Qed.

Lemma step_events_no_delete (new : list Event) :
  Forall step_event new -> deletes new = [].
Proof.
  induction 1 as [|ev new Hev _ IH]; [reflexivity|].
  change (ev :: new) with ([ev] ++ new). rewrite deletes_app, IH, app_nil_r.
  destruct ev as [r rep| |]; cbn in *; try reflexivity.
  unfold deletes, is_delete. cbn. destruct Hev as [_ Hm].
  destruct (method r); congruence.
Qed.

Lemma deletes_exchanges env rs tr :
  Forall (fun r => is_delete r = true) rs -> deletes (exchanges env rs tr) = rs.
Proof.
  intros H. unfold deletes. rewrite sends_exchanges.
  induction H as [|r rs Hr _ IH]; cbn; [reflexivity|]. now rewrite Hr, IH.
Qed.

Lemma cleanup_requests_are_deletes l :
  Forall (fun r => is_delete r = true) (cleanup_requests l).
Proof.
  unfold cleanup_requests.
  destruct (truthy (TC010.auth_token l)); [|constructor].
  repeat (apply Forall_app; split);
    match goal with |- Forall _ (if ?b then _ else _) => destruct b end;
    repeat constructor.
Qed.

(** The trace of a run of TC010 is that of the steps, which hold no DELETE,
    followed by one exchange for each request of [cleanup_requests]. *)
Lemma TC010_trace_shape env (st : State TC010.Locals) :
  let stb := snd (TC010.body env (set_locals TC010.no_locals st)) in
  let st' := snd (TC010.test_purchase_placement_with_billing env st) in
  locals st' = locals stb
  /\ exists steps_events,
       trace stb = trace st ++ steps_events
       /\ Forall step_event steps_events
       /\ trace st' = trace stb ++ exchanges env (cleanup_requests (locals stb)) (trace stb).
Proof.
  cbv zeta. rewrite TC010_test_eq. cbn [snd]. split; [reflexivity|].
  destruct (Steps_TC010_body env (set_locals TC010.no_locals st)) as (new & Ht & F & _).
  exists new. repeat split; [exact Ht | exact F].
Qed.

Lemma TC010_deletes env (l0 : TC010.Locals) :
  let st' := snd (TC010.test_purchase_placement_with_billing env (initial l0)) in
  deletes (trace st') = cleanup_requests (locals st').
Proof.
  cbv zeta.
  destruct (TC010_trace_shape env (initial l0)) as (Hl & new & Ht & F & Ht').
  rewrite Ht', Hl, Ht. cbn [initial trace app].
  rewrite deletes_app, (step_events_no_delete F).
  apply deletes_exchanges, cleanup_requests_are_deletes.
Qed.








(** ** TC008: the cleanup block *)

Lemma TC008_cleanup_eq token env (st : State TC008.Locals) :
  let id := TC008.created_project_id (locals st) in
  let rq := TC008_delete token id in
  TC008.cleanup (TC008.make_headers token) env st =
    if truthy id then
      (match delete_failure (handling st) (server env (trace st) rq) with
       | None => Ok tt
       | Some inner => Err (cleanup_failed id inner)
       end,
       emit (EvSend rq (server env (trace st) rq)) st)
    else (Ok tt, st).
Proof.
  cbv zeta. unfold TC008.cleanup, bind, get_locals.
  destruct (truthy (TC008.created_project_id (locals st))); [|reflexivity].
  unfold try_except, bind, delete, send. fold (TC008_delete token (TC008.created_project_id (locals st))).
  destruct (server env (trace st) _) as [resp|n msg]; cbn.
  - destruct (status_code resp =? 200); cbn; destruct st; reflexivity.
  - destruct st; reflexivity.
Qed.

Lemma chained_neq e' e : chained e' e -> e' <> e.
Proof.
  intros (inner & H1 & H2) ->.
  destruct e as [k m [c|]]; cbn in H1; [|discriminate].
  injection H1 as ->. destruct inner as [k' m' [c'|]]; cbn in H2; [|discriminate].
  injection H2 as H2. apply (f_equal depth) in H2. cbn in H2. lia.
Qed.

(** ** Failures of the cleanup and the reported outcome *)

Lemma delete_failure_context h rep inner :
  delete_failure h rep = Some inner -> context inner = h.
Proof.
  destruct rep as [resp|n msg]; cbn.
  - destruct (status_code resp =? 200); [discriminate|].
    now intros [= <-].
  - now intros [= <-].
Qed.

Lemma TC008_test_unfold py_eq env st token st1 :
  TC008.authenticate env st = (Ok token, st1) ->
  TC008.test_project_creation_and_retrieval py_eq env st =
    try_finally (TC008.body py_eq (TC008.make_headers token))
      (TC008.cleanup (TC008.make_headers token)) env
      (set_locals (TC008.mkLocals JNull) st1).
Proof.
  intros Ha. unfold TC008.test_project_creation_and_retrieval, bind. now rewrite Ha.
Qed.

(** C2, as the code has it.  In the purchase scenario (TC010) the outcome of
    a run is the outcome of its steps: nothing that happens in the cleanup
    changes it.  In the project scenario (TC008), when the steps fail with
    [e] and the cleanup then fails with [e'], the run reports [e']: an
    assertion error on the failed cleanup, different from [e], that has [e]
    two links down its context chain. *)
Theorem primary_failure_after_cleanup
    (env10 : Env) (st10 : State TC010.Locals)
    (py_eq : JSON -> JSON -> bool) (env8 : Env) (st8 st1 : State TC008.Locals)
    (token : JSON) (e e' : Exn) :
  TC008.authenticate env8 st8 = (Ok token, st1) ->
  fst (TC008.body py_eq (TC008.make_headers token) env8
         (set_locals (TC008.mkLocals JNull) st1)) = Err e ->
  fst (TC008.cleanup (TC008.make_headers token) env8
         (set_handling (Some e)
            (snd (TC008.body py_eq (TC008.make_headers token) env8
                    (set_locals (TC008.mkLocals JNull) st1))))) = Err e' ->
  fst (TC010.test_purchase_placement_with_billing env10 st10)
    = fst (TC010.body env10 (set_locals TC010.no_locals st10))
  /\ fst (TC008.test_project_creation_and_retrieval py_eq env8 st8) = Err e'
  /\ kind e' = AssertionError
  /\ chained e' e
  /\ e' <> e.
Proof.
  intros Ha Hb Hc. split; [now rewrite TC010_test_eq|].
  rewrite (TC008_test_unfold py_eq env8 st8 Ha). unfold try_finally.
  destruct (TC008.body py_eq (TC008.make_headers token) env8
              (set_locals (TC008.mkLocals JNull) st1)) as [[u|e0] stb].
  { discriminate. }
  cbn [fst snd] in Hb, Hc. injection Hb as ->.
  assert (Hch : kind e' = AssertionError /\ chained e' e).
  { rewrite TC008_cleanup_eq in Hc. cbv zeta in Hc.
    destruct (truthy (TC008.created_project_id (locals (set_handling (Some e) stb))));
      [|discriminate].
    cbn [fst] in Hc.
    destruct (delete_failure _ _) as [inner|] eqn:Hd; [|discriminate].
    injection Hc as <-. split; [reflexivity|].
    exists inner. split; [reflexivity|].
    now apply delete_failure_context in Hd. }
  destruct (TC008.cleanup (TC008.make_headers token) env8 (set_handling (Some e) stb))
    as [[u|e1] stc]; cbn [fst] in Hc; [discriminate|]. injection Hc as ->.
  destruct Hch as [Hk Hch]. repeat split; auto. now apply chained_neq.
Qed.

(** C2 fails on TC008: with the project created, the listing answered 500 and
    the DELETE answered 500, the steps fail on the listing, and what the run
    reports is the failure of the cleanup. *)
Lemma cleanup_failure_replaces_primary :
  fst (run (TC008_steps scalar_eq) TC008.no_locals failing_list_and_delete)
    = Err TC008_primary
  /\ fst (run (TC008.test_project_creation_and_retrieval scalar_eq) TC008.no_locals
            failing_list_and_delete)
    = Err TC008_reported
  /\ TC008_reported <> TC008_primary
  /\ message TC008_reported <> message TC008_primary.
Proof.
  repeat split; try (vm_compute; reflexivity); intros H; vm_compute in H; discriminate.
Qed.

Lemma primary_failure_after_cleanup_witness :
  fst (TC010.test_purchase_placement_with_billing failing_list_and_delete
         (initial TC010.no_locals))
    = fst (TC010.body failing_list_and_delete
             (set_locals TC010.no_locals (initial TC010.no_locals)))
  /\ fst (TC008.test_project_creation_and_retrieval scalar_eq failing_list_and_delete
            (initial TC008.no_locals)) = Err TC008_reported
  /\ kind TC008_reported = AssertionError
  /\ chained TC008_reported TC008_primary
  /\ TC008_reported <> TC008_primary.
Proof.
  apply (@primary_failure_after_cleanup failing_list_and_delete (initial TC010.no_locals)
           scalar_eq failing_list_and_delete (initial TC008.no_locals) TC008_after_login
           (JStr "jwt") TC008_primary TC008_reported);
    vm_compute; reflexivity.
Defined.

(** ** Cleanup: once, in order *)

(** C3, at the failing input.  The server creates the site under the
    identifier 0 and accepts every step.  The run passes; the response to
    the creation of the site is a 201 whose [id] is 0, which step 4 takes as
    a created site; and the cleanup deletes the link and the project but
    sends no DELETE for the site. *)
Lemma site_zero_not_deleted :
  fst (run TC010.test_purchase_placement_with_billing TC010.no_locals
         (purchase_run (JInt 0) "0" purchase_accepted)) = Ok tt
  /\ In (EvSend (mkRequest POST TC010.sites_url (Some TC010.site_payload)
                   (Some (TC010.make_auth_headers (JStr "jwt"))) 30)
           (json_reply 201 "id" "0" (JInt 0)))
        (snd (run TC010.test_purchase_placement_with_billing TC010.no_locals
                (purchase_run (JInt 0) "0" purchase_accepted)))
  /\ locals (snd (TC010.test_purchase_placement_with_billing
                    (purchase_run (JInt 0) "0" purchase_accepted)
                    (initial TC010.no_locals)))
     = captured_with_site (JInt 0)
  /\ deletes (snd (run TC010.test_purchase_placement_with_billing TC010.no_locals
                     (purchase_run (JInt 0) "0" purchase_accepted)))
     = [delete_link (captured_with_site (JInt 0));
        delete_project (captured_with_site (JInt 0))]
  /\ ~ In (delete_site (captured_with_site (JInt 0)))
         (sends (snd (run TC010.test_purchase_placement_with_billing TC010.no_locals
                        (purchase_run (JInt 0) "0" purchase_accepted)))).
Proof.
  split; [vm_compute; reflexivity|].
  split; [vm_compute; do 3 right; left; reflexivity|].
  repeat split; try (vm_compute; reflexivity).
  vm_compute. intuition discriminate.
Qed.

(** ** Registration: accepted statuses *)

Lemma registration_400_only_if_already_witness :
  (fst (TC002.step1 user_exists (initial tt)) = Ok tt
   <-> registration_accepted user_exists_response)
  /\ (~ registration_accepted user_exists_response ->
      TC002.test_user_registration_process user_exists (initial tt) =
        (Err (mkExn AssertionError
                [Lit "Expected status code 201, got ";
                 status (status_code user_exists_response)]
                (handling (initial tt))),
         emit (EvSend TC002_register_request (Responded user_exists_response))
           (initial tt))).
Proof.
  apply (@registration_400_only_if_already user_exists (initial tt) user_exists_response).
  reflexivity.
Defined.




(** ** Token extraction *)

(** C4, as the code has it.  For a login response whose JSON object carries a
    non-empty token string under exactly one of [token] and [accessToken],
    TC005 and TC010 extract it; TC006, TC007 and TC008 extract it exactly when
    the key is [token].  TC004 extracts a refresh token carried under exactly
    one of [refreshToken] and [refresh_token]. *)
Theorem token_under_either_key
    (env : Env) (st : State unit) (st8 : State TC008.Locals) (st10 : State TC010.Locals)
    (resp : Response) (m m' : list (string * JSON)) (tok : string) (rtok : JSON) :
  tok <> EmptyString ->
  decoded resp = Some (JObj m) ->
  under_one_key m "token" "accessToken" (JStr tok) ->
  under_one_key m' "refreshToken" "refresh_token" rtok ->
  fst (TC005.extract_token (JObj m) env st) = Ok (JStr tok)
  /\ fst (TC010.extract_token resp env st10) = Ok (JStr tok)
  /\ fst (TC004.extract_refresh_token (JObj m') env st) = Ok rtok
  /\ (fst (TC006.extract_token (JObj m) env st) = Ok (JStr tok)
      <-> lookup "token" m = Some (JStr tok))
  /\ (fst (TC007.extract_token (JObj m) env st) = Ok (JStr tok)
      <-> lookup "token" m = Some (JStr tok))
  /\ (fst (TC008.extract_token (JObj m) env st8) = Ok (JStr tok)
      <-> lookup "token" m = Some (JStr tok)).
Proof.
  intros Htok Hdec Hone Href.
  destruct tok as [|c tok]; [contradiction|].
  unfold TC005.extract_token, TC010.extract_token, TC004.extract_refresh_token,
    TC006.extract_token, TC007.extract_token, TC008.extract_token,
    or_val, or_else, bind, json_of, get, get_default, py_in, has_key, subscript,
    assert_, ret.
  rewrite Hdec.
  destruct Hone as [[H1 H2]|[H1 H2]], Href as [[R1 R2]|[R1 R2]];
    rewrite ?H1, ?H2, ?R1, ?R2; cbn;
    repeat split; try reflexivity; try discriminate; try congruence.
Qed.

(** C4 fails on TC007, TC006 and TC008: a login response that carries the
    token under [accessToken] only stops the password scenario at "No auth
    token received after login", and the extraction of TC006 and TC008 fails
    in the same way, while that of TC005 succeeds. *)
Lemma access_token_key_rejected :
  run TC007.test_change_user_password tt login_with_access_token
    = (Err (token_not_found "No auth token received after login" None),
       [EvSend (mkRequest POST TC007.register_url (Some TC007.register_payload)
                  (Some TC007.headers) 30)
          (plain_reply 201 "Created");
        EvSend (mkRequest POST TC007.login_url
                  (Some (JObj [("username", JStr TC007.test_username);
                               ("password", JStr TC007.initial_password)]))
                  (Some TC007.headers) 30)
          (Responded access_token_response)])
  /\ fst (TC006.extract_token access_token_data login_with_access_token (initial tt))
     = Err (token_not_found "JWT token not found in login response" None)
  /\ fst (TC008.extract_token access_token_data login_with_access_token
            (initial TC008.no_locals))
     = Err (token_not_found "JWT token not found in login response" None)
  /\ fst (TC005.extract_token access_token_data login_with_access_token (initial tt))
     = Ok (JStr "jwt").
Proof. repeat split; vm_compute; reflexivity. Qed.

Lemma token_under_either_key_witness :
  fst (TC005.extract_token access_token_data login_with_access_token (initial tt))
    = Ok (JStr "jwt")
  /\ fst (TC010.extract_token access_token_response login_with_access_token
            (initial TC010.no_locals)) = Ok (JStr "jwt")
  /\ fst (TC004.extract_refresh_token (JObj [("refresh_token", JStr "r1")])
            login_with_access_token (initial tt)) = Ok (JStr "r1")
  /\ (fst (TC006.extract_token access_token_data login_with_access_token (initial tt))
        = Ok (JStr "jwt")
      <-> lookup "token" [("accessToken", JStr "jwt")] = Some (JStr "jwt"))
  /\ (fst (TC007.extract_token access_token_data login_with_access_token (initial tt))
        = Ok (JStr "jwt")
      <-> lookup "token" [("accessToken", JStr "jwt")] = Some (JStr "jwt"))
  /\ (fst (TC008.extract_token access_token_data login_with_access_token
             (initial TC008.no_locals)) = Ok (JStr "jwt")
      <-> lookup "token" [("accessToken", JStr "jwt")] = Some (JStr "jwt")).
Proof.
  apply (@token_under_either_key login_with_access_token (initial tt)
           (initial TC008.no_locals) (initial TC010.no_locals) access_token_response
           [("accessToken", JStr "jwt")] [("refresh_token", JStr "r1")] "jwt" (JStr "r1")).
  - discriminate.
  - reflexivity.
  - right. split; reflexivity.
  - right. split; reflexivity.
Defined.

(** ** The first request of a scenario *)

Lemma Steps_Extends {L A} (m : M L A) : Steps m -> Extends m.
Proof. intros H env st. destruct (H env st) as (new & Ht & _). now exists new. Qed.

Lemma Silent_Extends {L A} (m : M L A) : Silent m -> Extends m.
Proof. intros H env st. exists []. now rewrite app_nil_r. Qed.

Lemma Extends_session_close {L} : Extends (@session_close L).
Proof. intros env st. now exists [EvClose]. Qed.

Lemma Extends_TC010_cleanup : Extends TC010.cleanup.
Proof. intros env st. rewrite TC010_cleanup_eq. eexists. reflexivity. Qed.

Lemma first_send_send {L} (r : Request) env (st : State L) : first_send (send r) env st r.
Proof.
  exists (server env (trace st) r), []. unfold send.
  destruct (server env (trace st) r); reflexivity.
Qed.

Lemma first_send_bind {L A B} (m : M L A) (k : A -> M L B) env st r :
  first_send m env st r -> (forall a, Extends (k a)) -> first_send (bind m k) env st r.
Proof.
  intros (rep & rest & Ht) Hk. unfold first_send, bind.
  destruct (m env st) as [[a|e] st1]; cbn [snd] in *.
  - destruct (Hk a env st1) as (new & Hn). exists rep, (rest ++ new).
    rewrite Hn, Ht. now rewrite <- app_assoc.
  - now exists rep, rest.
Qed.

Lemma first_send_after {L A B} (m : M L A) (k : A -> M L B) env st r a st1 :
  m env st = (Ok a, st1) -> trace st1 = trace st ->
  first_send (k a) env st1 r -> first_send (bind m k) env st r.
Proof.
  intros Hm Ht (rep & rest & Hk). exists rep, rest. unfold bind.
  now rewrite Hm, Hk, Ht.
Qed.

Lemma first_send_try_except {L A} (m : M L A) c (h : Exn -> M L A) env st r :
  first_send m env st r -> (forall e, Extends (h e)) ->
  first_send (try_except m c h) env st r.
Proof.
  intros (rep & rest & Ht) Hh. unfold first_send, try_except.
  destruct (m env st) as [[a|e] st1]; cbn [snd] in *; [now exists rep, rest|].
  destruct (c e); [|now exists rep, rest].
  destruct (Hh e env (set_handling (Some e) st1)) as (new & Hn).
  destruct (h e env (set_handling (Some e) st1)) as [r' st2]. cbn in *.
  exists rep, (rest ++ new). rewrite Hn, Ht. now rewrite <- app_assoc.
Qed.

Lemma first_send_try_finally {L A} (body : M L A) (fin : M L unit) env st r :
  first_send body env st r -> Extends fin -> first_send (try_finally body fin) env st r.
Proof.
  intros (rep & rest & Ht) Hf. unfold first_send. rewrite try_finally_trace.
  match goal with |- context [fin env ?s] => destruct (Hf env s) as (new & Hn);
    assert (Hs : trace s = trace (snd (body env st))) by
      (destruct (fst (body env st)); reflexivity) end.
  exists rep, (rest ++ new). rewrite Hn, Hs, Ht. now rewrite <- app_assoc.
Qed.

Lemma first_send_first_request {L A} (m : M L A) env l r :
  first_send m env (initial l) r -> first_request (snd (run m l env)) = Some r.
Proof.
  intros (rep & rest & Ht). unfold run.
  destruct (m env (initial l)) as [res st]. cbn [snd] in *. now rewrite Ht.
Qed.

Ltac first_send :=
  repeat first
    [ apply first_send_send
    | apply first_send_try_finally;
        [ | first [ apply Extends_session_close | apply Extends_TC010_cleanup
                  | apply Silent_Extends; solve [silent] ] ]
    | apply first_send_try_except; [ | intro; apply Steps_Extends; solve [steps] ]
    | apply first_send_bind; [ | intro; apply Steps_Extends; solve [steps] ] ].

Lemma first_send_TC002 env st :
  first_send TC002.test_user_registration_process env st TC002_register_request.
Proof.
  unfold TC002.test_user_registration_process, TC002.step1, TC002.expect_400. first_send.
Qed.

Lemma first_send_TC004 env st :
  first_send TC004.test_jwt_token_refresh env st TC004_register_request.
Proof.
  unfold TC004.test_jwt_token_refresh, TC004.register, TC004.login, TC004.refresh_valid,
    TC004.refresh_invalid, TC004.extract_refresh_token.
  first_send.
Qed.

Lemma first_send_TC006 env st :
  first_send TC006.script env st (TC006_register_request (uuid4_hex env (uuids st))).
Proof.
  unfold TC006.script.
  eapply first_send_after; [reflexivity | reflexivity |].
  unfold TC006.test_update_user_profile, TC006.body, TC006.register, TC006.login,
    TC006.extract_token.
  unfold TC006_register_request. first_send.
Qed.

Lemma first_send_TC007 env st :
  first_send TC007.test_change_user_password env st TC007_register_request.
Proof.
  unfold TC007.test_change_user_password, TC007.body, TC007.register, TC007.login,
    TC007.extract_token.
  first_send.
Qed.

Lemma first_send_TC010 env st :
  first_send TC010.test_purchase_placement_with_billing env st TC010_register_request.
Proof.
  unfold TC010.test_purchase_placement_with_billing.
  eapply first_send_after; [reflexivity | reflexivity |].
  unfold TC010.body, TC010.step1_register, TC010.step2_login, TC010.step3_project,
    TC010.step4_site, TC010.step5_link, TC010.step6_deposit, TC010.step7_balance,
    TC010.step8_purchase, TC010.extract_token, TC010.validate_purchase,
    TC010.balance_positive.
  first_send.
Qed.

(** ** User names *)

Lemma make_username_inj (h1 h2 : string) :
  TC006.make_username h1 = TC006.make_username h2 <-> substring 0 8 h1 = substring 0 8 h2.
Proof.
  unfold TC006.make_username. cbn [append]. split.
  - intros H. now inversion H.
  - now intros ->.
Qed.

(** C5, as the code has it.  The profile-update scenario (TC006) registers
    the user [testuser_] followed by the first eight hex digits of a fresh
    uuid, with the e-mail address built from that name, so two runs whose
    uuids differ in those digits register different names.  The other
    scenarios that register a user (TC002, TC004, TC007, TC010) send the same
    fixed name in every run. *)
Theorem uuid_username_only_in_TC006 (env : Env) :
  first_request (snd (run TC006.script tt env))
    = Some (TC006_register_request (uuid4_hex env 0%nat))
  /\ (forall h1 h2,
        TC006.make_username h1 = TC006.make_username h2
        <-> substring 0 8 h1 = substring 0 8 h2)
  /\ first_request (snd (run TC002.test_user_registration_process tt env))
     = Some TC002_register_request
  /\ first_request (snd (run TC004.test_jwt_token_refresh tt env))
     = Some TC004_register_request
  /\ first_request (snd (run TC007.test_change_user_password tt env))
     = Some TC007_register_request
  /\ first_request (snd (run TC010.test_purchase_placement_with_billing
                           TC010.no_locals env))
     = Some TC010_register_request.
Proof.
  repeat split.
  - apply first_send_first_request. apply (first_send_TC006 env (initial tt)).
  - now apply make_username_inj.
  - now apply make_username_inj.
  - apply first_send_first_request, first_send_TC002.
  - apply first_send_first_request, first_send_TC004.
  - apply first_send_first_request, first_send_TC007.
  - apply first_send_first_request, first_send_TC010.
Qed.

(** C5 fails on TC010 (and on TC002, TC004 and TC007): in two runs with
    different uuids the scenario registers the same user, [testuser_tc010];
    against a server that already has that user, the run stops at the
    registration. *)
Lemma fixed_username_in_every_run :
  first_request (snd (run TC010.test_purchase_placement_with_billing TC010.no_locals
                        (with_uuid first_uuid user_exists)))
    = Some TC010_register_request
  /\ first_request (snd (run TC010.test_purchase_placement_with_billing TC010.no_locals
                           (with_uuid second_uuid user_exists)))
     = Some TC010_register_request
  /\ json TC010_register_request
     = Some (JObj [("username", JStr "testuser_tc010");
                   ("email", JStr "testuser_tc010@example.com");
                   ("password", JStr "TestPassword123!")])
  /\ uuid4_hex (with_uuid first_uuid user_exists) 0%nat
     <> uuid4_hex (with_uuid second_uuid user_exists) 0%nat
  /\ fst (run TC010.test_purchase_placement_with_billing TC010.no_locals
            (with_uuid second_uuid user_exists))
     = Err (mkExn AssertionError
              [Lit "User registration failed: "; Lit "Username ALREADY taken"] None).
Proof.
  repeat split; try (vm_compute; reflexivity). vm_compute. discriminate.
Qed.

(** ** Every scenario: the timeout, and no retry *)





















(** ** TC010: the steps, in order *)

Ltac unfold_monad :=
  cbv beta iota zeta delta
    [bind post http_get send assert_ assert_False ret raise get get_default json_of
     or_val or_else py_in gt0 modify get_locals utcnow_plus_days emit set_locals
     has_key TC010.balance_positive TC010.extract_token TC010.validate_purchase
     TC010.set_auth_token TC010.set_project_id TC010.set_site_id TC010.set_link_id
     TC010.auth_token TC010.project_id TC010.site_id TC010.link_id
     TC010.TIMEOUT fst snd trace locals handling uuids negb].

(** Case analysis on whatever the computation in the goal is waiting for. *)
Ltac run_cases :=
  repeat (unfold_monad;
    match goal with
    | |- context [match server ?e ?h ?r with _ => _ end] =>
        destruct (server e h r) as [?resp|? ?] eqn:?
    | |- context [if (status_code ?r =? ?c) then _ else _] =>
        destruct (status_code r =? c) eqn:?
    | |- context [match decoded ?r with _ => _ end] => destruct (decoded r) eqn:?
    | |- context [match lookup ?k ?m with _ => _ end] => destruct (lookup k m) eqn:?
    | |- context [if truthy ?v then _ else _] => destruct (truthy v) eqn:?
    | |- context [if is_None ?v then _ else _] => destruct (is_None v) eqn:?
    | |- context [match ?x with JNull => _ | _ => _ end] => is_var x; destruct x
    | |- context [if ?b then _ else _] => destruct b eqn:?
    end).

Lemma step1_spec env st :
  sends_once (nth 0 (planned_requests (locals st) EmptyString) TC010_register_request)
    env st (snd (TC010.step1_register env st))
  /\ locals (snd (TC010.step1_register env st)) = locals st.
Proof.
  unfold sends_once, TC010.step1_register. cbn [nth planned_requests].
  destruct st as [l tr u h]. run_cases; repeat split; reflexivity.
Qed.

Lemma step2_spec env st :
  let l := locals st in
  let l' := locals (snd (TC010.step2_login env st)) in
  sends_once (nth 1 (planned_requests l EmptyString) TC010_register_request)
    env st (snd (TC010.step2_login env st))
  /\ TC010.project_id l' = TC010.project_id l
  /\ TC010.site_id l' = TC010.site_id l
  /\ TC010.link_id l' = TC010.link_id l.
Proof.
  unfold sends_once, TC010.step2_login. cbn [nth planned_requests].
  destruct st as [[a p s li] tr u h]. run_cases; repeat split; reflexivity.
Qed.

Lemma step3_spec h env st :
  let l := locals st in
  let l' := locals (snd (TC010.step3_project h env st)) in
  sends_once (mkRequest POST TC010.projects_url (Some TC010.project_payload) (Some h) 30)
    env st (snd (TC010.step3_project h env st))
  /\ TC010.auth_token l' = TC010.auth_token l
  /\ TC010.site_id l' = TC010.site_id l
  /\ TC010.link_id l' = TC010.link_id l.
Proof.
  unfold sends_once, TC010.step3_project.
  destruct st as [[a p s li] tr u hd]. run_cases; repeat split; reflexivity.
Qed.

Lemma step4_spec h env st :
  let l := locals st in
  let l' := locals (snd (TC010.step4_site h env st)) in
  sends_once (mkRequest POST TC010.sites_url (Some TC010.site_payload) (Some h) 30)
    env st (snd (TC010.step4_site h env st))
  /\ TC010.auth_token l' = TC010.auth_token l
  /\ TC010.project_id l' = TC010.project_id l
  /\ TC010.link_id l' = TC010.link_id l.
Proof.
  unfold sends_once, TC010.step4_site.
  destruct st as [[a p s li] tr u hd]. run_cases; repeat split; reflexivity.
Qed.

Lemma step5_spec h env st :
  let l := locals st in
  let l' := locals (snd (TC010.step5_link h env st)) in
  sends_once (mkRequest POST (TC010.links_url (TC010.project_id l))
                (Some TC010.link_payload) (Some h) 30)
    env st (snd (TC010.step5_link h env st))
  /\ TC010.auth_token l' = TC010.auth_token l
  /\ TC010.project_id l' = TC010.project_id l
  /\ TC010.site_id l' = TC010.site_id l.
Proof.
  unfold sends_once, TC010.step5_link.
  destruct st as [[a p s li] tr u hd]. run_cases; repeat split; reflexivity.
Qed.

Lemma step6_spec h env st :
  sends_once (mkRequest POST TC010.deposit_url (Some TC010.deposit_payload) (Some h) 30)
    env st (snd (TC010.step6_deposit h env st))
  /\ locals (snd (TC010.step6_deposit h env st)) = locals st.
Proof.
  unfold sends_once, TC010.step6_deposit.
  destruct st as [l tr u hd]. run_cases; repeat split; reflexivity.
Qed.

Lemma step7_spec h env st :
  let rq := mkRequest GET TC010.balance_url None (Some h) 30 in
  sends_once rq env st (snd (TC010.step7_balance h env st))
  /\ locals (snd (TC010.step7_balance h env st)) = locals st
  /\ (fst (TC010.step7_balance h env st) = Ok tt ->
      exists resp, server env (trace st) rq = Responded resp /\ balance_confirmed resp).
Proof.
  unfold sends_once, TC010.step7_balance, balance_confirmed.
  destruct st as [l tr u hd]. run_cases; repeat split; try reflexivity;
    try discriminate; intros _; eexists; (split; [reflexivity|]);
    (split; [now apply Z.eqb_eq|]); do 2 eexists;
    (split; [eassumption|]); (split; [eassumption|]); cbn;
    try reflexivity; try assumption; try (now apply Z.ltb_lt).
Qed.

Lemma validate_purchase_handling resp env (st st' : State TC010.Locals) :
  handling st = handling st' ->
  fst (TC010.validate_purchase resp env st) = fst (TC010.validate_purchase resp env st').
Proof.
  destruct st as [l tr u hd], st' as [l' tr' u' hd']. cbn [handling]. intros ->.
  run_cases; reflexivity.
Qed.

Lemma step8_spec h env st :
  let rq := purchase_request h (locals st) env in
  let st' := snd (TC010.step8_purchase h env st) in
  sends_once rq env st st'
  /\ locals st' = locals st
  /\ fst (TC010.step8_purchase h env st)
     = purchase_result env st (server env (trace st) rq).
Proof.
  cbv zeta. unfold sends_once, TC010.step8_purchase, purchase_request, purchase_result,
    scheduled_date.
  destruct st as [l tr u hd]. run_cases; repeat split; reflexivity.
Qed.

Lemma bind_Ok {L A B} (m : M L A) (k : A -> M L B) env st a st1 :
  m env st = (Ok a, st1) -> bind m k env st = k a env st1.
Proof. intros H. unfold bind. now rewrite H. Qed.

Lemma bind_Err {L A B} (m : M L A) (k : A -> M L B) env st e st1 :
  m env st = (Err e, st1) -> bind m k env st = (Err e, st1).
Proof. intros H. unfold bind. now rewrite H. Qed.

Lemma purchase_result_handling env (st st' : State TC010.Locals) rep :
  handling st = handling st' -> purchase_result env st rep = purchase_result env st' rep.
Proof.
  intros H. destruct rep as [resp|n msg]; cbn.
  - now apply validate_purchase_handling.
  - now rewrite H.
Qed.

Ltac next_step E spec :=
  match goal with
  | |- context [bind ?m ?k ?env ?st] =>
      pose proof (spec env st) as E; cbv zeta in E;
      let s := fresh "st" in let Eq := fresh "Eq" in
      destruct (m env st) as [[[]|?e] s] eqn:Eq;
      cbn [fst snd nth planned_requests] in E;
      [ erewrite bind_Ok by exact Eq | erewrite bind_Err by exact Eq ]
  end.

Ltac chain_traces :=
  cbn [snd];
  repeat match goal with H : trace _ = _ |- _ => rewrite H; clear H end;
  unfold planned_requests; cbn [firstn exchanges];
  rewrite <- ?app_assoc; cbn [app].

Ltac stopped k :=
  cbn [fst snd]; unfold sends_once in *;
  repeat match goal with H : _ /\ _ |- _ => destruct H end;
  eapply steps_stopped with (n := k);
  [ lia
  | repeat match goal with x := _ |- _ => subst x end; chain_traces; congruence
  | cbn [snd]; congruence
  | eexists; reflexivity ].

Lemma TC010_body_run env st0 :
  StepsEnd env st0 (snd (TC010.body env st0)) (fst (TC010.body env st0)).
Proof.
  unfold TC010.body.
  next_step S1 step1_spec; [|stopped 1%nat].
  next_step S2 step2_spec; [|stopped 2%nat].
  erewrite bind_Ok by reflexivity.
  cbv zeta.
  set (h := TC010.make_auth_headers (TC010.auth_token (locals st1))).
  next_step S3 (step3_spec h); [|stopped 3%nat].
  next_step S4 (step4_spec h); [|stopped 4%nat].
  next_step S5 (step5_spec h); [|stopped 5%nat].
  next_step S6 (step6_spec h); [|stopped 6%nat].
  next_step S7 (step7_spec h); [|stopped 7%nat].
  pose proof (step8_spec h env st6) as S8. cbv zeta in S8.
  destruct (TC010.step8_purchase h env st6) as [r8 st7] eqn:Eq8. cbn [fst snd] in *.
  unfold sends_once in *.
  destruct S1 as [[T1 H1] L1], S2 as [[T2 H2] (P2 & I2 & K2)],
    S3 as [[T3 H3] (A3 & I3 & K3)], S4 as [[T4 H4] (A4 & P4 & K4)],
    S5 as [[T5 H5] (A5 & P5 & I5)], S6 as [[T6 H6] L6], S7 as [[T7 H7] [L7 B7]],
    S8 as [[T8 H8] [L8 R8]].
  destruct (B7 eq_refl) as (resp7 & R7 & C7).
  assert (Ha : TC010.auth_token (locals st7) = TC010.auth_token (locals st1))
    by congruence.
  subst h.
  rewrite T1 in T2. rewrite <- app_assoc in T2. cbn [app] in T2.
  rewrite T2 in T3. rewrite <- app_assoc in T3. cbn [app] in T3.
  rewrite T3 in T4. rewrite <- app_assoc in T4. cbn [app] in T4.
  rewrite T4 in T5. rewrite <- app_assoc in T5. cbn [app] in T5.
  rewrite T5 in T6. rewrite <- app_assoc in T6. cbn [app] in T6.
  rewrite T6 in T7, R7. rewrite <- app_assoc in T7. cbn [app] in T7.
  rewrite T7 in T8, R8. rewrite <- app_assoc in T8. cbn [app] in T8.
  eapply steps_purchased with (resp7 := resp7); cbv zeta; rewrite ?Ha.
  - rewrite T8. unfold planned_requests, purchase_request.
    cbn [exchanges]. rewrite <- ?app_assoc. cbn [app]. congruence.
  - unfold planned_requests, balance_request. cbn [exchanges In].
    do 6 right. left. rewrite <- ?app_assoc. cbn [app].
    rewrite <- R7. congruence.
  - exact C7.
  - congruence.
  - rewrite R8. unfold planned_requests, purchase_request.
    cbn [firstn exchanges]. rewrite <- ?app_assoc. cbn [app].
    rewrite (purchase_result_handling env st6 st7) by congruence. congruence.
Qed.

Lemma In_exchanges env rq rep rs tr :
  In (EvSend rq rep) (exchanges env rs tr) -> In rq rs.
Proof.
  revert tr. induction rs as [|r rs IH]; intros tr; cbn; [tauto|].
  intros [H|H]; [left; congruence | right; eauto].
Qed.

Lemma purchase_not_before h l env d :
  ~ In (purchase_request h l env) (firstn 7 (planned_requests l d)).
Proof.
  unfold purchase_request, planned_requests, TC010.purchase_url, TC010.register_url,
    TC010.login_url, TC010.projects_url, TC010.sites_url, TC010.links_url,
    TC010.deposit_url, TC010.balance_url.
  cbn [firstn In append TC010.BASE_URL]. intuition congruence.
Qed.

Lemma purchase_not_cleanup h l env : ~ In (purchase_request h l env) (cleanup_requests l).
Proof.
  intros Hin. pose proof (cleanup_requests_are_deletes l) as Hd.
  rewrite Forall_forall in Hd. apply Hd in Hin. discriminate.
Qed.

(** ** Example runs *)

(** The probe stops at the 429: two quiet rounds, then the throttled login. *)
Example login_scenario_throttled :
  fst (run TC001.test_user_login_functionality tt throttling_server) = Ok tt
  /\ skipn 2 (snd (run TC001.test_user_login_functionality tt throttling_server))
     = quiet_round (mkResponse 401 "Unauthorized" None)
       ++ quiet_round (mkResponse 401 "Unauthorized" None)
       ++ [EvSend TC001.probe_request (plain_reply 429 "Too Many Requests")].
Proof. split; vm_compute; reflexivity. Qed.

(** A request that times out fails the scenario at once. *)
Example verification_times_out :
  run TC003.test_email_verification_mechanism tt silent_server
  = (Err (mkExn AssertionError
            [Lit "Request failed for token '"; Lit "invalidtoken123"; Lit "': ";
             Lit "Read timed out."]
            (Some (mkExn Timeout [Lit "Read timed out."] None))),
     [EvSend (mkRequest GET
                [Lit "http://localhost:3003/api/auth/verify-email/invalidtoken123"]
                None None 30)
        (Failed NetTimeout "Read timed out.")]).
Proof. vm_compute. reflexivity. Qed.

(** The purchase scenario cleans up after a refused purchase, and the run
    still reports the refusal. *)
Example refused_purchase_is_cleaned_up :
  fst (run TC010.test_purchase_placement_with_billing TC010.no_locals
         (purchase_run (JInt 22) "22" purchase_refused))
    = Err (mkExn AssertionError
             [Lit "Purchase failed with 400 error: "; Lit "Insufficient balance"] None)
  /\ deletes (snd (run TC010.test_purchase_placement_with_billing TC010.no_locals
                     (purchase_run (JInt 22) "22" purchase_refused)))
     = [delete_link (captured_with_site (JInt 22));
        delete_project (captured_with_site (JInt 22));
        delete_site (captured_with_site (JInt 22))].
Proof. split; vm_compute; reflexivity. Qed.

(** ** Passing runs, step by step *)

Lemma passes_bind {L A B} (m : M L A) (k : A -> M L B) env st b st' :
  passes (bind m k) env st b st' ->
  exists a st1, passes m env st a st1 /\ passes (k a) env st1 b st'.
Proof.
  unfold passes, bind. destruct (m env st) as [[a|e] st1]; [|discriminate].
  intros H. now exists a, st1.
Qed.

Lemma passes_ret {L A} (a b : A) env (st st' : State L) :
  passes (ret a) env st b st' -> b = a /\ st' = st.
Proof. unfold passes, ret. now intros [= <- <-]. Qed.

Lemma passes_assert {L} c msg env (st st' : State L) u :
  passes (assert_ c msg) env st u st' -> c = true /\ st' = st.
Proof. unfold passes, assert_. destruct c; [now intros [= <-] | discriminate]. Qed.

Lemma passes_send {L} r env (st st' : State L) resp :
  passes (send r) env st resp st' ->
  server env (trace st) r = Responded resp /\ st' = emit (EvSend r (Responded resp)) st.
Proof.
  unfold passes, send. destruct (server env (trace st) r) as [x|n msg]; [|discriminate].
  now intros [= <- <-].
Qed.

Lemma passes_json_of {L} r env (st st' : State L) v :
  passes (json_of r) env st v st' -> decoded r = Some v /\ st' = st.
Proof. unfold passes, json_of. destruct (decoded r); [now intros [= <- <-] | discriminate]. Qed.

Lemma passes_get {L} obj key env (st st' : State L) v :
  passes (get obj key) env st v st' ->
  exists m, obj = JObj m
            /\ v = match lookup key m with Some x => x | None => JNull end
            /\ st' = st.
Proof.
  unfold passes, get, get_default. destruct obj; try discriminate.
  intros [= <- <-]. now exists m.
Qed.

Lemma passes_py_in {L} key obj env (st st' : State L) b :
  passes (py_in key obj) env st b st' -> contained key obj = Some b /\ st' = st.
Proof.
  unfold passes, py_in, contained. destruct obj; try discriminate; now intros [= <- <-].
Qed.

Lemma passes_uuid4 {L} env (st st' : State L) h :
  passes uuid4_hex_ env st h st' ->
  h = uuid4_hex env (uuids st)
  /\ st' = mkState (locals st) (trace st) (S (uuids st)) (handling st).
Proof. unfold passes, uuid4_hex_. now intros [= <- <-]. Qed.

Lemma passes_session_close {L} env (st st' : State L) u :
  passes session_close env st u st' -> st' = emit EvClose st.
Proof. unfold passes, session_close. now intros [= <-]. Qed.

Lemma passes_sleep {L} q env (st st' : State L) u :
  passes (sleep q) env st u st' -> st' = emit (EvSleep q) st.
Proof. unfold passes, sleep. now intros [= <-]. Qed.

Lemma eq_str_member (key s : string) (m : list (string * JSON)) :
  eq_str (match lookup key m with Some x => x | None => JNull end) s = true ->
  lookup key m = Some (JStr s).
Proof.
  destruct (lookup key m) as [[| b | z | f | t | l | o]|]; try discriminate.
  cbn. intros H. apply String.eqb_eq in H. now subst.
Qed.

Lemma passes_get_locals {L} env (st st' : State L) l :
  passes get_locals env st l st' -> l = locals st /\ st' = st.
Proof. unfold passes, get_locals. now intros [= <- <-]. Qed.

Lemma passes_modify {L} (f : L -> L) env (st st' : State L) u :
  passes (modify f) env st u st' -> st' = set_locals (f (locals st)) st.
Proof. unfold passes, modify. now intros [= <-]. Qed.

Lemma passes_or_val3 {L} d a b c env (st st' : State L) v :
  passes (or_val (or_val (get d a) (get d b)) (get d c)) env st v st' ->
  st' = st
  /\ exists m, d = JObj m /\ v = py_or (py_or (member a m) (member b m)) (member c m).
Proof.
  unfold passes. destruct d as [| x | z | f | s | l | m]; try discriminate.
  unfold or_val, bind, get, get_default, ret, py_or, member.
  destruct (truthy match lookup a m with Some x => x | None => JNull end) eqn:Ha; cbn.
  - rewrite ?Ha. intros [= <- <-]. split; [reflexivity|]. exists m. now rewrite !Ha.
  - destruct (truthy match lookup b m with Some x => x | None => JNull end) eqn:Hb; cbn.
    + rewrite ?Hb. intros [= <- <-]. split; [reflexivity|]. exists m. now rewrite Ha, !Hb.
    + intros [= <- <-]. split; [reflexivity|]. exists m. now rewrite Ha, Hb.
Qed.

Lemma passes_try_except_raise {L A} (m : M L A) c (h : Exn -> M L A) env st a st' :
  (forall e env st, is_err (fst (h e env st))) ->
  passes (try_except m c h) env st a st' -> passes m env st a st'.
Proof.
  intros Hh. unfold passes, try_except.
  destruct (m env st) as [[x|e] st1]; [trivial|].
  destruct (c e); [|discriminate].
  specialize (Hh e env (set_handling (Some e) st1)).
  destruct (h e env (set_handling (Some e) st1)) as [r st2]. cbn in Hh.
  destruct Hh as [e' ->]. discriminate.
Qed.

Lemma passes_try_finally {L A} (body : M L A) (fin : M L unit) env st a st' :
  passes (try_finally body fin) env st a st' ->
  exists st1, passes body env st a st1 /\ passes fin env st1 tt st'.
Proof.
  unfold passes, try_finally. destruct (body env st) as [[x|e] st1].
  - destruct (fin env st1) as [[[]|e'] st2] eqn:Hf; [|discriminate].
    intros [= <- <-]. now exists st1.
  - destruct (fin env (set_handling (Some e) st1)) as [[u|e'] st2]; discriminate.
Qed.

Lemma run_passes {L} (m : M L unit) l env :
  fst (run m l env) = Ok tt ->
  exists st', passes m env (initial l) tt st' /\ snd (run m l env) = trace st'.
Proof.
  unfold run, passes. destruct (m env (initial l)) as [[[]|e] st']; [|discriminate].
  intros _. now exists st'.
Qed.

Lemma lookup_truthy key m :
  truthy (match lookup key m with Some x => x | None => JNull end) = true ->
  exists v, lookup key m = Some v /\ truthy v = true.
Proof. destruct (lookup key m) as [v|]; [now exists v | discriminate]. Qed.

(** One step back along a passing computation. *)
Ltac pass_step :=
  match goal with
  | H : passes (bind _ _) _ _ _ _ |- _ =>
      let Hm := fresh "Hm" in
      apply passes_bind in H as (? & ? & Hm & H)
  | H : passes (ret _) _ _ _ _ |- _ => apply passes_ret in H as [? ?]; subst
  | H : passes (assert_ _ _) _ _ _ _ |- _ => apply passes_assert in H as [? ?]; subst
  | H : passes (send _) _ _ _ _ |- _ => apply passes_send in H as [? ?]; subst
  | H : passes (post _ _ _ _) _ _ _ _ |- _ => unfold post in H
  | H : passes (http_get _ _ _) _ _ _ _ |- _ => unfold http_get in H
  | H : passes (patch _ _ _ _) _ _ _ _ |- _ => unfold patch in H
  | H : passes (delete _ _ _) _ _ _ _ |- _ => unfold delete in H
  | H : passes (json_of _) _ _ _ _ |- _ => apply passes_json_of in H as [? ?]; subst
  | H : passes (get _ _) _ _ _ _ |- _ =>
      let Ho := fresh "Ho" in
      apply passes_get in H as (? & Ho & ? & ?); try injection Ho as Ho; subst
  | H : passes get_locals _ _ _ _ |- _ => apply passes_get_locals in H as [? ?]; subst
  | H : passes (modify _) _ _ _ _ |- _ => apply passes_modify in H; subst
  | H : passes (or_val (or_val (get ?d _) (get ?d _)) (get ?d _)) _ _ _ _ |- _ =>
      let Ho := fresh "Ho" in
      apply passes_or_val3 in H as (? & ? & Ho & ?); try injection Ho as Ho; subst
  | H : passes (py_in _ _) _ _ _ _ |- _ => apply passes_py_in in H as [? ?]; subst
  | H : passes (or_else _ _) _ _ _ _ |- _ => unfold or_else in H
  | H : passes (or_val _ _) _ _ _ _ |- _ => unfold or_val in H
  | H : passes (if ?c then _ else _) _ _ _ _ |- _ => destruct c eqn:?
  | H : passes uuid4_hex_ _ _ _ _ |- _ => apply passes_uuid4 in H as [? ?]; subst
  | H : passes session_close _ _ _ _ |- _ => apply passes_session_close in H; subst
  | H : passes (sleep _) _ _ _ _ |- _ => apply passes_sleep in H; subst
  | H : passes (assert_False _) _ _ _ _ |- _ => discriminate H
  | H : passes (raise _ _) _ _ _ _ |- _ => discriminate H
  | H : passes (try_finally _ _) _ _ _ _ |- _ =>
      let Hb := fresh "Hb" in
      apply passes_try_finally in H as (? & Hb & H)
  | H : passes (try_except _ _ _) _ _ _ _ |- _ =>
      apply passes_try_except_raise in H;
      [| intros; solve [apply is_err_assert_False | apply is_err_raise] ]
  end.

Ltac pass_steps := repeat pass_step.

(** The facts left by [pass_steps], in the form the statements use. *)
Ltac pass_facts :=
  repeat match goal with
         | Hd : isinstance_dict ?j = true |- _ =>
             destruct j; try discriminate Hd; clear Hd
         | Hd : isinstance_list ?j = true |- _ =>
             destruct j; try discriminate Hd; clear Hd
         end;
  cbn [contained] in *;
  repeat match goal with
         | Hs : Some (has_key _ _) = Some _ |- _ => injection Hs as Hs
         end.

Ltac exists_responses :=
  repeat match goal with |- exists _, _ => eexists end.

Ltac pass_done :=
  repeat match goal with |- _ /\ _ => split end;
  try (apply Z.eqb_eq; eassumption); try eassumption;
  try (repeat match goal with Hs : has_key _ _ = _ |- _ => rewrite Hs end; reflexivity).

(** ** TC007: a passing run *)

(** X1.  A passing run of the password scenario is five exchanges: the
    registration answered 201, the login answered 200 with a token, the
    change of password under that token answered 200, the login with the new
    password answered 200, and the change with a wrong current password,
    under the same token, answered 400. *)
Theorem password_change_passing_run (env : Env) :
  fst (run TC007.test_change_user_password tt env) = Ok tt ->
  exists r1 r2 r3 r4 r5 token,
    snd (run TC007.test_change_user_password tt env)
    = [EvSend TC007_register_request (Responded r1);
       EvSend (TC007_login_request TC007.initial_password) (Responded r2);
       EvSend (TC007_change_request token TC007.initial_password TC007.new_password)
         (Responded r3);
       EvSend (TC007_login_request TC007.new_password) (Responded r4);
       EvSend (TC007_change_request token "WrongPass123!" "DoesNotMatter123!")
         (Responded r5)]
    /\ status_code r1 = 201
    /\ status_code r2 = 200 /\ carries r2 "token" token
    /\ status_code r3 = 200
    /\ status_code r4 = 200
    /\ status_code r5 = 400.
Proof.
  intros Hok. apply run_passes in Hok as (st' & H & ->).
  unfold TC007.test_change_user_password, TC007.body, TC007.register, TC007.login,
    TC007.extract_token in H.
  pass_steps.
  apply lookup_truthy in H3 as (token & Htok & Htruthy). rewrite Htok.
  do 5 eexists. exists token.
  split; [cbn; reflexivity|].
  repeat match goal with |- _ /\ _ => split end;
    try (apply Z.eqb_eq; eassumption).
  eexists; eauto.
Qed.

Lemma password_change_passing_run_witness :
  fst (run TC007.test_change_user_password tt password_changing_server) = Ok tt
  /\ exists r1 r2 r3 r4 r5 token,
    snd (run TC007.test_change_user_password tt password_changing_server)
    = [EvSend TC007_register_request (Responded r1);
       EvSend (TC007_login_request TC007.initial_password) (Responded r2);
       EvSend (TC007_change_request token TC007.initial_password TC007.new_password)
         (Responded r3);
       EvSend (TC007_login_request TC007.new_password) (Responded r4);
       EvSend (TC007_change_request token "WrongPass123!" "DoesNotMatter123!")
         (Responded r5)]
    /\ status_code r1 = 201
    /\ status_code r2 = 200 /\ carries r2 "token" token
    /\ status_code r3 = 200
    /\ status_code r4 = 200
    /\ status_code r5 = 400.
Proof.
  split; [reflexivity | apply (password_change_passing_run password_changing_server)].
  reflexivity.
Defined.

(** ** TC003: the verification loop *)

Lemma check_token_run (token : string) (env : Env) (st : State unit) :
  let rep := server env (trace st) (verify_request token) in
  TC003.check_token token env st
  = (match rep with
     | Responded r =>
         if status_code r =? 400 then Ok tt
         else Err (verification_error token rep (handling st))
     | Failed _ _ => Err (verification_error token rep (handling st))
     end,
     emit (EvSend (verify_request token) rep) st).
Proof.
  cbv zeta. unfold TC003.check_token, try_except, bind, http_get, send, assert_, assert_False,
    raise, ret, verify_request, TC003.TIMEOUT.
  destruct (server env (trace st) _) as [r|n msg]; cbn.
  - destruct (status_code r =? 400); reflexivity.
  - destruct n; reflexivity.
Qed.

Lemma one_verification_event (token : string) (rest : list string) (rep : Reply) :
  verification_events (token :: rest) [rep] = [EvSend (verify_request token) rep].
Proof. unfold verification_events. cbn. now rewrite combine_nil. Qed.

Lemma check_tokens_run (tokens : list string) (env : Env) :
  forall st : State unit,
  exists replies,
    trace (snd (for_each tokens TC003.check_token env st))
    = trace st ++ verification_events tokens replies
    /\ verification_outcome tokens replies (handling st)
         (fst (for_each tokens TC003.check_token env st)).
Proof.
  induction tokens as [|token rest IH]; intros st.
  - exists []. cbn. rewrite app_nil_r. auto.
  - cbn [for_each]. unfold bind at 1 2. rewrite check_token_run.
    remember (server env (trace st) (verify_request token)) as rep eqn:Hrep.
    destruct rep as [r|n msg].
    + destruct (status_code r =? 400) eqn:Hc.
      * destruct (IH (emit (EvSend (verify_request token) (Responded r)) st))
          as (replies & Htr & Hout).
        exists (Responded r :: replies). split.
        { rewrite Htr. cbn. now rewrite <- app_assoc. }
        assert (Ha : answered 400 (Responded r)).
        { exists r. split; [reflexivity | now apply Z.eqb_eq]. }
        cbn [handling emit] in Hout.
        destruct (fst (for_each rest TC003.check_token env _)) as [u|e]; cbn in Hout |- *.
        { destruct Hout as [Hl Hf]. split; [now rewrite Hl | now constructor]. }
        { destruct Hout as (done & rep & tok & -> & Hd & Hn & Hnth & ->).
          exists (Responded r :: done), rep, tok. cbn. repeat split; auto. }
      * exists [Responded r]. split; [now rewrite one_verification_event|].
        exists [], (Responded r), token. cbn. repeat split; auto.
        intros (resp & [= <-] & Hs). apply Z.eqb_neq in Hc. contradiction.
    + exists [Failed n msg]. split; [now rewrite one_verification_event|].
      exists [], (Failed n msg), token. cbn. repeat split; auto.
      intros (resp & Hd & _). discriminate.
Qed.

(** X2.  Whatever the server answers, the email verification scenario sends
    the GET requests for its three invalid tokens in order and stops at the
    first reply that is not a response with status 400.  It passes exactly
    when all three were answered 400; otherwise it fails with an assertion
    error that names the token, and when no response arrived the error of
    the request is its context. *)
Theorem verification_stops_at_first_refusal (env : Env) :
  exists replies,
    snd (run TC003.test_email_verification_mechanism tt env)
    = verification_events TC003.invalid_tokens replies
    /\ verification_outcome TC003.invalid_tokens replies None
         (fst (run TC003.test_email_verification_mechanism tt env)).
Proof.
  destruct (check_tokens_run TC003.invalid_tokens env (initial tt)) as (replies & Htr & Hout).
  exists replies. unfold run, TC003.test_email_verification_mechanism.
  destruct (for_each _ _ env (initial tt)) as [r st']. cbn in *. auto.
Qed.

(** ** TC009: a passing run *)

(** X3.  A passing run of the site registration scenario is two POST
    requests to the registration endpoint: the valid payload, answered 201
    with a JSON object that has [site_url] or [id], and the payload with the
    invalid token, answered 400 with a JSON body in which [error] or
    [message] occurs. *)
Theorem plugin_registration_passing_run (env : Env) :
  fst (run TC009.test_site_registration_from_wordpress_plugin tt env) = Ok tt ->
  exists r1 r2 m v,
    snd (run TC009.test_site_registration_from_wordpress_plugin tt env)
    = [EvSend (TC009_request TC009.payload_valid) (Responded r1);
       EvSend (TC009_request TC009.invalid_payload) (Responded r2)]
    /\ status_code r1 = 201
    /\ decoded r1 = Some (JObj m)
    /\ has_key "site_url" m || has_key "id" m = true
    /\ status_code r2 = 400
    /\ decoded r2 = Some v
    /\ either_contained "error" "message" v.
Proof.
  intros Hok. apply run_passes in Hok as (st' & H & ->).
  unfold TC009.test_site_registration_from_wordpress_plugin in H.
  pass_steps; pass_facts;
    (do 4 eexists; split; [cbn; reflexivity|]);
    pass_done; unfold either_contained; auto.
Qed.

Lemma plugin_registration_passing_run_witness :
  fst (run TC009.test_site_registration_from_wordpress_plugin tt plugin_server) = Ok tt
  /\ exists r1 r2 m v,
    snd (run TC009.test_site_registration_from_wordpress_plugin tt plugin_server)
    = [EvSend (TC009_request TC009.payload_valid) (Responded r1);
       EvSend (TC009_request TC009.invalid_payload) (Responded r2)]
    /\ status_code r1 = 201
    /\ decoded r1 = Some (JObj m)
    /\ has_key "site_url" m || has_key "id" m = true
    /\ status_code r2 = 400
    /\ decoded r2 = Some v
    /\ either_contained "error" "message" v.
Proof.
  split; [reflexivity | apply (plugin_registration_passing_run plugin_server)].
  reflexivity.
Defined.

(** ** TC004: the refresh token *)

Lemma has_key_lookup (k : string) (m : list (string * JSON)) :
  has_key k m = match lookup k m with Some _ => true | None => false end.
Proof. reflexivity. Qed.

Lemma extract_refresh_token_object
    (m : list (string * JSON)) (env : Env) (st : State unit) :
  TC004.extract_refresh_token (JObj m) env st = (refresh_token_of m (handling st), st).
Proof.
  unfold TC004.extract_refresh_token, refresh_token_of, or_else, bind, py_in, subscript,
    assert_, assert_False, raise, ret.
  rewrite !has_key_lookup.
  destruct (lookup "refreshToken" m), (lookup "refresh_token" m), (lookup "token" m);
    reflexivity.
Qed.

(** X4.  From a login response that is a JSON object the refresh token is
    the member [refreshToken] when present, else the member [refresh_token];
    the value is taken as it is, even null or empty.  Without either member
    the extraction fails with "No refresh token provided in login response"
    when there is a [token] member and with "No token found in login
    response" otherwise.  No request is sent. *)
Theorem refresh_token_precedence
    (m : list (string * JSON)) (env : Env) (st : State unit) :
  TC004.extract_refresh_token (JObj m) env st = (refresh_token_of m (handling st), st).
Proof.
  unfold TC004.extract_refresh_token, refresh_token_of, or_else, bind, py_in, subscript,
    assert_, assert_False, raise, ret.
  rewrite !has_key_lookup.
  destruct (lookup "refreshToken" m), (lookup "refresh_token" m), (lookup "token" m);
    reflexivity.
Qed.

Lemma extract_refresh_token_cases (login_resp : JSON) (env : Env) (st : State unit) :
  match fst (TC004.extract_refresh_token login_resp env st) with
  | Ok v =>
      exists m, login_resp = JObj m
                /\ (lookup "refreshToken" m = Some v \/ lookup "refresh_token" m = Some v)
  | Err e =>
      kind e = TypeError
      \/ e = mkExn AssertionError [Lit "No refresh token provided in login response"]
               (handling st)
      \/ e = mkExn AssertionError [Lit "No token found in login response"] (handling st)
  end.
Proof.
  destruct login_resp as [| b | z | f | s | l | m];
    try (cbn; left; reflexivity).
  - unfold TC004.extract_refresh_token, or_else, bind, py_in, subscript,
      assert_, assert_False, raise, ret.
    destruct (contains "refreshToken" s), (contains "refresh_token" s),
      (contains "token" s); cbn; auto.
  - unfold TC004.extract_refresh_token, or_else, bind, py_in, subscript,
      assert_, assert_False, raise, ret.
    repeat match goal with
           | |- context [existsb ?f l] => destruct (existsb f l)
           end; cbn; auto.
  - rewrite extract_refresh_token_object. unfold refresh_token_of. cbn [fst].
    destruct (lookup "refreshToken" m) as [v|] eqn:H1.
    { exists m. auto. }
    destruct (lookup "refresh_token" m) as [v|] eqn:H2.
    { exists m. auto. }
    destruct (has_key "token" m); auto.
Qed.

Lemma extract_refresh_token_state (login_resp : JSON) (env : Env) (st : State unit) :
  snd (TC004.extract_refresh_token login_resp env st) = st.
Proof.
  destruct login_resp as [| b | z | f | s | l | m]; try reflexivity.
  - unfold TC004.extract_refresh_token, or_else, bind, py_in, subscript,
      assert_, assert_False, raise, ret.
    destruct (contains "refreshToken" s), (contains "refresh_token" s),
      (contains "token" s); reflexivity.
  - unfold TC004.extract_refresh_token, or_else, bind, py_in, subscript,
      assert_, assert_False, raise, ret.
    repeat match goal with
           | |- context [existsb ?f l] => destruct (existsb f l)
           end; reflexivity.
  - now rewrite extract_refresh_token_object.
Qed.

Lemma passes_extract_refresh_token login_resp env (st st' : State unit) v :
  passes (TC004.extract_refresh_token login_resp) env st v st' ->
  st' = st /\ exists m, login_resp = JObj m /\ refresh_token_of m (handling st) = Ok v.
Proof.
  unfold passes. intros H. split.
  - rewrite <- (extract_refresh_token_state login_resp env st). now rewrite H.
  - pose proof (extract_refresh_token_cases login_resp env st) as Hc.
    rewrite H in Hc. cbn in Hc. destruct Hc as (m & -> & _).
    exists m. split; [reflexivity|].
    rewrite extract_refresh_token_object in H. now injection H.
Qed.

(** X5.  Whatever JSON value the login response holds, the extraction of the
    refresh token succeeds only on an object, with the value of its
    [refreshToken] or [refresh_token] member, and fails only with a type
    error or with one of the two assertion errors "No refresh token provided
    in login response" and "No token found in login response": the last
    branch of the source, "Refresh token not found in login response", is
    never taken. *)
Theorem refresh_token_last_branch_dead (login_resp : JSON) (env : Env) (st : State unit) :
  match fst (TC004.extract_refresh_token login_resp env st) with
  | Ok v =>
      exists m, login_resp = JObj m
                /\ (lookup "refreshToken" m = Some v \/ lookup "refresh_token" m = Some v)
  | Err e =>
      kind e = TypeError
      \/ e = mkExn AssertionError [Lit "No refresh token provided in login response"]
               (handling st)
      \/ e = mkExn AssertionError [Lit "No token found in login response"] (handling st)
  end.
Proof.
  destruct login_resp as [| b | z | f | s | l | m];
    try (cbn; left; reflexivity).
  - unfold TC004.extract_refresh_token, or_else, bind, py_in, subscript,
      assert_, assert_False, raise, ret.
    destruct (contains "refreshToken" s), (contains "refresh_token" s),
      (contains "token" s); cbn; auto.
  - unfold TC004.extract_refresh_token, or_else, bind, py_in, subscript,
      assert_, assert_False, raise, ret.
    repeat match goal with
           | |- context [existsb ?f l] => destruct (existsb f l)
           end; cbn; auto.
  - rewrite extract_refresh_token_object. unfold refresh_token_of. cbn [fst].
    destruct (lookup "refreshToken" m) as [v|] eqn:H1.
    { exists m. auto. }
    destruct (lookup "refresh_token" m) as [v|] eqn:H2.
    { exists m. auto. }
    destruct (has_key "token" m); auto.
Qed.

(** X6.  A passing run of the token refresh scenario is four POST requests:
    the registration, answered 201 or 400; the login, answered 200 with a
    JSON object; the refresh whose payload carries, under [refreshToken],
    the refresh token of that login response, answered 200 with a JSON
    object that has [accessToken] or [token]; and the refresh with the
    invalid token, answered 401. *)
Theorem refresh_passing_run (env : Env) :
  fst (run TC004.test_jwt_token_refresh tt env) = Ok tt ->
  exists r1 r2 r3 r4 m v m3,
    snd (run TC004.test_jwt_token_refresh tt env)
    = [EvSend TC004_register_request (Responded r1);
       EvSend TC004_login_request (Responded r2);
       EvSend (TC004_refresh_request v) (Responded r3);
       EvSend (TC004_refresh_request (JStr "invalid_or_expired_refresh_token_value"))
         (Responded r4)]
    /\ (status_code r1 = 201 \/ status_code r1 = 400)
    /\ status_code r2 = 200
    /\ decoded r2 = Some (JObj m)
    /\ refresh_token_of m None = Ok v
    /\ status_code r3 = 200
    /\ decoded r3 = Some (JObj m3)
    /\ has_key "accessToken" m3 || has_key "token" m3 = true
    /\ status_code r4 = 401.
Proof.
  intros Hok. apply run_passes in Hok as (st' & H & ->).
  unfold TC004.test_jwt_token_refresh, TC004.register, TC004.login, TC004.refresh_valid,
    TC004.refresh_invalid in H.
  pass_steps;
    match goal with
    | Hm : passes (TC004.extract_refresh_token _) _ _ _ _ |- _ =>
        apply passes_extract_refresh_token in Hm as (-> & m & -> & Hr)
    end;
    pass_steps; pass_facts;
    cbn [handling emit initial] in Hr;
    match goal with
    | Hs : _ || _ = true |- _ => apply orb_true_iff in Hs; rewrite !Z.eqb_eq in Hs
    end;
    (do 7 eexists; split; [cbn; reflexivity|]);
    pass_done.
Qed.

Lemma refresh_passing_run_witness :
  fst (run TC004.test_jwt_token_refresh tt refreshing_server) = Ok tt
  /\ exists r1 r2 r3 r4 m v m3,
    snd (run TC004.test_jwt_token_refresh tt refreshing_server)
    = [EvSend TC004_register_request (Responded r1);
       EvSend TC004_login_request (Responded r2);
       EvSend (TC004_refresh_request v) (Responded r3);
       EvSend (TC004_refresh_request (JStr "invalid_or_expired_refresh_token_value"))
         (Responded r4)]
    /\ (status_code r1 = 201 \/ status_code r1 = 400)
    /\ status_code r2 = 200
    /\ decoded r2 = Some (JObj m)
    /\ refresh_token_of m None = Ok v
    /\ status_code r3 = 200
    /\ decoded r3 = Some (JObj m3)
    /\ has_key "accessToken" m3 || has_key "token" m3 = true
    /\ status_code r4 = 401.
Proof.
  split; [reflexivity | apply (refresh_passing_run refreshing_server)].
  reflexivity.
Defined.

(** ** TC005: the token and the profile *)

Lemma TC005_extract_token_object
    (m : list (string * JSON)) (env : Env) (st : State unit) :
  TC005.extract_token (JObj m) env st
  = (match login_token_of m with
     | Some v => Ok v
     | None => Err (mkExn AssertionError [Lit "JWT token not found in login response"]
                      (handling st))
     end, st).
Proof.
  unfold TC005.extract_token, login_token_of, member, or_val, bind, get, get_default,
    assert_, raise, ret.
  destruct (truthy _) eqn:Ht.
  - destruct (match lookup "token" m with Some v => v | None => JNull end);
      try discriminate Ht; reflexivity.
  - destruct (match lookup "accessToken" m with Some v => v | None => JNull end);
      reflexivity.
Qed.

(** X7.  From login data that is a JSON object the profile scenario takes
    the member [token] when it is truthy, and otherwise the member
    [accessToken] whenever that is present and not null: a falsy value such
    as the empty string is accepted there.  Only when neither applies does it
    fail, with "JWT token not found in login response".  No request is
    sent. *)
Theorem profile_token_not_none
    (m : list (string * JSON)) (env : Env) (st : State unit) :
  TC005.extract_token (JObj m) env st
  = (match login_token_of m with
     | Some v => Ok v
     | None => Err (mkExn AssertionError [Lit "JWT token not found in login response"]
                      (handling st))
     end, st).
Proof.
  unfold TC005.extract_token, login_token_of, member, or_val, bind, get, get_default,
    assert_, raise, ret.
  destruct (truthy _) eqn:Ht.
  - destruct (match lookup "token" m with Some v => v | None => JNull end);
      try discriminate Ht; reflexivity.
  - destruct (match lookup "accessToken" m with Some v => v | None => JNull end);
      reflexivity.
Qed.

Lemma passes_TC005_extract_token login_data env (st st' : State unit) v :
  passes (TC005.extract_token login_data) env st v st' ->
  st' = st /\ exists m, login_data = JObj m /\ login_token_of m = Some v.
Proof.
  unfold passes. destruct login_data as [| b | z | f | s | l | m]; try discriminate.
  rewrite TC005_extract_token_object.
  destruct (login_token_of m) as [t|] eqn:Ht; [|discriminate].
  intros [= <- <-]. split; [reflexivity|]. now exists m.
Qed.

(** X8.  A passing run of the profile scenario is two requests: the login,
    answered 200 with a JSON object, and the GET of the profile whose
    [Authorization] header is "Bearer " followed by the token taken from
    that object, answered 200 with a JSON object that has [username] and
    [email]. *)
Theorem profile_passing_run (env : Env) :
  fst (run TC005.test_get_current_user_profile tt env) = Ok tt ->
  exists r1 r2 m token m2,
    snd (run TC005.test_get_current_user_profile tt env)
    = [EvSend TC005_login_request (Responded r1);
       EvSend (TC005_profile_request token) (Responded r2)]
    /\ status_code r1 = 200
    /\ decoded r1 = Some (JObj m)
    /\ login_token_of m = Some token
    /\ status_code r2 = 200
    /\ decoded r2 = Some (JObj m2)
    /\ has_key "username" m2 && has_key "email" m2 = true.
Proof.
  intros Hok. apply run_passes in Hok as (st' & H & ->).
  unfold TC005.test_get_current_user_profile, TC005.login, TC005.profile in H.
  pass_steps;
    match goal with
    | Hm : passes (TC005.extract_token _) _ _ _ _ |- _ =>
        apply passes_TC005_extract_token in Hm as (-> & m & -> & Hr)
    end;
    pass_steps; pass_facts; pass_steps.
  do 5 eexists. split; [cbn; reflexivity|]. pass_done.
  match goal with
  | Hs : context [TC005.missing_fields ?m2] |- _ =>
      unfold TC005.missing_fields, TC005.expected_fields in Hs; cbn [filter] in Hs;
      destruct (has_key "username" m2), (has_key "email" m2);
      try discriminate Hs; reflexivity
  end.
Qed.

Lemma profile_passing_run_witness :
  fst (run TC005.test_get_current_user_profile tt empty_token_server) = Ok tt
  /\ exists r1 r2 m token m2,
    snd (run TC005.test_get_current_user_profile tt empty_token_server)
    = [EvSend TC005_login_request (Responded r1);
       EvSend (TC005_profile_request token) (Responded r2)]
    /\ status_code r1 = 200
    /\ decoded r1 = Some (JObj m)
    /\ login_token_of m = Some token
    /\ status_code r2 = 200
    /\ decoded r2 = Some (JObj m2)
    /\ has_key "username" m2 && has_key "email" m2 = true.
Proof.
  split; [reflexivity | apply (profile_passing_run empty_token_server)].
  reflexivity.
Defined.

(** ** TC006: the session and a passing run *)

(** X9.  A passing run of the profile update script is seven requests and
    then the closing of the session: the registration of the user named
    after the first uuid, answered 201; the login, answered 200 with a
    token; the GET of the profile under that token, answered 200 with a body
    in which [email] occurs; the PATCH with the new email, made from the
    user name, and the new display name, made from the second uuid, answered
    200 with both values; the GET of the profile, answered 200 with both
    values again; the PATCH with the invalid email, answered 400 or 422; and
    the PATCH of the new data without headers, answered 401. *)
Theorem profile_update_passing_run (env : Env) :
  let username := TC006.make_username (uuid4_hex env 0%nat) in
  let update := update_payload_of username (uuid4_hex env 1%nat) in
  let new_email := new_email_of username in
  let new_name := new_display_name_of (uuid4_hex env 1%nat) in
  fst (run TC006.script tt env) = Ok tt ->
  exists r1 r2 r3 r4 r5 r6 r7 token before,
    snd (run TC006.script tt env)
    = [EvSend (TC006_register_request (uuid4_hex env 0%nat)) (Responded r1);
       EvSend (TC006_login_request username) (Responded r2);
       EvSend (TC006_profile_request token) (Responded r3);
       EvSend (TC006_patch_request update (Some (TC006_headers token))) (Responded r4);
       EvSend (TC006_profile_request token) (Responded r5);
       EvSend (TC006_patch_request (JObj [("email", JStr "invalid-email-format")])
                 (Some (TC006_headers token))) (Responded r6);
       EvSend (TC006_patch_request update None) (Responded r7);
       EvClose]
    /\ status_code r1 = 201
    /\ status_code r2 = 200 /\ carries r2 "token" token
    /\ status_code r3 = 200
    /\ decoded r3 = Some before /\ contained "email" before = Some true
    /\ status_code r4 = 200
    /\ shows r4 "email" new_email /\ shows r4 "display_name" new_name
    /\ status_code r5 = 200
    /\ shows r5 "email" new_email /\ shows r5 "display_name" new_name
    /\ (status_code r6 = 400 \/ status_code r6 = 422)
    /\ status_code r7 = 401.
Proof.
  intros username update new_email new_name Hok.
  apply run_passes in Hok as (st' & H & ->).
  unfold TC006.script, TC006.test_update_user_profile, TC006.body, TC006.register,
    TC006.login, TC006.extract_token in H.
  pass_steps;
    try match goal with
        | Hd : true = false |- _ => discriminate Hd
        | Hd : false = true |- _ => discriminate Hd
        end;
    pass_facts;
    repeat match goal with
           | Hs : eq_str _ _ = true |- _ => apply eq_str_member in Hs
           end;
    match goal with
    | Ht : truthy _ = true |- _ =>
        apply lookup_truthy in Ht as (token & Htok & Htruthy); rewrite Htok
    end;
    match goal with
    | Hs : _ || _ = true |- _ => apply orb_true_iff in Hs; rewrite !Z.eqb_eq in Hs
    end;
    (do 7 eexists; exists token; eexists; split; [cbn; reflexivity|]);
    pass_done; eexists; eauto.
Qed.

Lemma profile_update_passing_run_witness :
  fst (run TC006.script tt profile_server) = Ok tt
  /\ exists r1 r2 r3 r4 r5 r6 r7 token before,
    snd (run TC006.script tt profile_server)
    = [EvSend (TC006_register_request (uuid4_hex profile_server 0%nat)) (Responded r1);
       EvSend (TC006_login_request (TC006.make_username (uuid4_hex profile_server 0%nat)))
         (Responded r2);
       EvSend (TC006_profile_request token) (Responded r3);
       EvSend (TC006_patch_request
                 (update_payload_of (TC006.make_username (uuid4_hex profile_server 0%nat))
                    (uuid4_hex profile_server 1%nat))
                 (Some (TC006_headers token))) (Responded r4);
       EvSend (TC006_profile_request token) (Responded r5);
       EvSend (TC006_patch_request (JObj [("email", JStr "invalid-email-format")])
                 (Some (TC006_headers token))) (Responded r6);
       EvSend (TC006_patch_request
                 (update_payload_of (TC006.make_username (uuid4_hex profile_server 0%nat))
                    (uuid4_hex profile_server 1%nat)) None) (Responded r7);
       EvClose]
    /\ status_code r1 = 201
    /\ status_code r2 = 200 /\ carries r2 "token" token
    /\ status_code r3 = 200
    /\ decoded r3 = Some before /\ contained "email" before = Some true
    /\ status_code r4 = 200
    /\ shows r4 "email"
         (new_email_of (TC006.make_username (uuid4_hex profile_server 0%nat)))
    /\ shows r4 "display_name" (new_display_name_of (uuid4_hex profile_server 1%nat))
    /\ status_code r5 = 200
    /\ shows r5 "email"
         (new_email_of (TC006.make_username (uuid4_hex profile_server 0%nat)))
    /\ shows r5 "display_name" (new_display_name_of (uuid4_hex profile_server 1%nat))
    /\ (status_code r6 = 400 \/ status_code r6 = 422)
    /\ status_code r7 = 401.
Proof.
  split; [reflexivity | apply (profile_update_passing_run profile_server)].
  reflexivity.
Defined.

(** X10.  In every run of the profile update test, passing or failing, the
    session is closed exactly once, after everything the body did, and
    closing it leaves the outcome of the body as it is. *)
Theorem session_closed_once_last (u e : string) (env : Env) (st : State unit) :
  exists new,
    trace (snd (TC006.body u e env st)) = trace st ++ new
    /\ ~ In EvClose new
    /\ trace (snd (TC006.test_update_user_profile u e env st)) = trace st ++ new ++ [EvClose]
    /\ fst (TC006.test_update_user_profile u e env st) = fst (TC006.body u e env st).
Proof.
  destruct (Steps_TC006_body u e env st) as (new & Htr & Hall & _).
  exists new. split; [exact Htr|]. split.
  - intros Hin. rewrite Forall_forall in Hall. exact (Hall _ Hin).
  - unfold TC006.test_update_user_profile, try_finally, session_close.
    destruct (TC006.body u e env st) as [[a|x] st1]; cbn in *;
      rewrite Htr, <- app_assoc; auto.
Qed.

(** ** TC008: authentication and a passing run *)

Lemma authenticate_run (env : Env) (st : State TC008.Locals) :
  exists rep,
    trace (snd (TC008.authenticate env st)) = trace st ++ [EvSend TC008_login_request rep]
    /\ match fst (TC008.authenticate env st) with
       | Ok _ => True
       | Err e => exists cause, e = authentication_failed cause /\ context cause = handling st
       end.
Proof.
  exists (server env (trace st) TC008_login_request).
  unfold TC008.authenticate, TC008.extract_token, try_except, bind, post, send, assert_,
    json_of, get, get_default, raise, ret, is_Exception, authentication_failed,
    TC008_login_request, TC008.TIMEOUT.
  destruct (server env (trace st) _) as [r|n msg]; cbn.
  - destruct (status_code r =? 200); cbn;
      [destruct (decoded r) as [[| b | z | f | s | l | m]|]; cbn;
       try match goal with |- context [is_None ?x] => destruct (is_None x); cbn end|];
      (split; [reflexivity|]); try exact I;
      match goal with
      | |- exists _, mkExn _ _ (Some ?c) = _ /\ _ => exists c; split; reflexivity
      end.
  - split; [reflexivity|].
    match goal with
    | |- exists _, mkExn _ _ (Some ?c) = _ /\ _ => exists c; split; reflexivity
    end.
Qed.

(** X11.  When the login of the project scenario fails for whatever reason,
    a refused status, a body that is not JSON or has no token, or a request
    that raised, the run reports an assertion error "Authentication failed: "
    followed by the message of the cause, with the cause as its context.
    The login is then the only request of the run: no project is created
    and nothing is deleted. *)
Theorem authentication_failure_wrapped
    (py_eq : JSON -> JSON -> bool) (env : Env) (e : Exn) :
  fst (TC008.authenticate env (initial TC008.no_locals)) = Err e ->
  exists cause rep,
    e = authentication_failed cause
    /\ context cause = None
    /\ run (TC008.test_project_creation_and_retrieval py_eq) TC008.no_locals env
       = (Err e, [EvSend TC008_login_request rep]).
Proof.
  intros He.
  destruct (authenticate_run env (initial TC008.no_locals)) as (rep & Htr & Hres).
  rewrite He in Hres. destruct Hres as (cause & -> & Hctx).
  exists cause, rep. split; [reflexivity|]. split; [exact Hctx|].
  unfold run, TC008.test_project_creation_and_retrieval, bind.
  destruct (TC008.authenticate env (initial TC008.no_locals)) as [[t|x] st1];
    cbn in *; [discriminate|].
  injection He as ->. now rewrite Htr.
Qed.

Lemma authentication_failure_wrapped_witness :
  exists cause rep,
    mkExn AssertionError
      [Lit "Authentication failed: "; Lit "Login failed with status "; status 401]
      (Some (mkExn AssertionError [Lit "Login failed with status "; status 401] None))
    = authentication_failed cause
    /\ context cause = None
    /\ run (TC008.test_project_creation_and_retrieval scalar_eq) TC008.no_locals
         (scripted [plain_reply 401 "Unauthorized"])
       = (Err (mkExn AssertionError
                 [Lit "Authentication failed: "; Lit "Login failed with status ";
                  status 401]
                 (Some (mkExn AssertionError [Lit "Login failed with status "; status 401]
                          None))),
          [EvSend TC008_login_request rep]).
Proof.
  apply (authentication_failure_wrapped scalar_eq (scripted [plain_reply 401 "Unauthorized"])).
  reflexivity.
Defined.

(** X12.  A passing run of the project scenario is the login, answered 200
    with a token that is not null; the creation of the project, answered 201
    with a JSON object whose first truthy member among [id], [projectId] and
    [project_id] gives an identifier that is not null; the listing of the
    projects, answered 200 with a JSON array in which an object has that
    identifier under [id]; and then the cleanup: one DELETE of the project,
    answered 200, when the identifier is truthy, and nothing at all when it
    is falsy, such as a [project_id] of 0. *)
Theorem project_passing_run (py_eq : JSON -> JSON -> bool) (env : Env) :
  fst (run (TC008.test_project_creation_and_retrieval py_eq) TC008.no_locals env) = Ok tt ->
  exists r1 r2 r3 m1 m l cleanup_events,
    let token := member "token" m1 in
    let id := project_id_of m in
    snd (run (TC008.test_project_creation_and_retrieval py_eq) TC008.no_locals env)
    = [EvSend TC008_login_request (Responded r1);
       EvSend (TC008_create_request token) (Responded r2);
       EvSend (TC008_list_request token) (Responded r3)] ++ cleanup_events
    /\ status_code r1 = 200
    /\ decoded r1 = Some (JObj m1)
    /\ is_None token = false
    /\ status_code r2 = 201
    /\ decoded r2 = Some (JObj m)
    /\ is_None id = false
    /\ status_code r3 = 200
    /\ decoded r3 = Some (JArr l)
    /\ existsb (py_eq id) (TC008.project_ids l) = true
    /\ deleted_if_truthy token id cleanup_events.
Proof.
  intros Hok. apply run_passes in Hok as (st' & H & ->).
  unfold TC008.test_project_creation_and_retrieval, TC008.authenticate,
    TC008.extract_token, TC008.body, TC008.cleanup in H.
  pass_steps; pass_facts; pass_steps;
    repeat match goal with
           | Hn : negb _ = true |- _ => apply negb_true_iff in Hn
           end;
    (do 7 eexists; cbv zeta; split; [cbn; reflexivity|]);
    pass_done;
    unfold deleted_if_truthy;
    match goal with
    | Ht : truthy _ = ?b |- context [if truthy ?i then _ else _] =>
        replace (truthy i) with b by (symmetry; exact Ht)
    end;
    [eexists; split; [reflexivity | apply Z.eqb_eq; assumption] | reflexivity].
Qed.

Lemma project_passing_run_witness :
  fst (run (TC008.test_project_creation_and_retrieval scalar_eq) TC008.no_locals
         project_zero_server) = Ok tt
  /\ exists r1 r2 r3 m1 m l cleanup_events,
    snd (run (TC008.test_project_creation_and_retrieval scalar_eq) TC008.no_locals
           project_zero_server)
    = [EvSend TC008_login_request (Responded r1);
       EvSend (TC008_create_request (member "token" m1)) (Responded r2);
       EvSend (TC008_list_request (member "token" m1)) (Responded r3)] ++ cleanup_events
    /\ status_code r1 = 200
    /\ decoded r1 = Some (JObj m1)
    /\ is_None (member "token" m1) = false
    /\ status_code r2 = 201
    /\ decoded r2 = Some (JObj m)
    /\ is_None (project_id_of m) = false
    /\ status_code r3 = 200
    /\ decoded r3 = Some (JArr l)
    /\ existsb (scalar_eq (project_id_of m)) (TC008.project_ids l) = true
    /\ deleted_if_truthy (member "token" m1) (project_id_of m) cleanup_events.
Proof.
  split; [reflexivity | apply (project_passing_run scalar_eq project_zero_server)].
  reflexivity.
Defined.

(** ** TC001: a passing run *)

(** X13.  A passing run of the login scenario is the valid login, answered
    200 with a JSON body in which [token] or [accessToken] occurs; the login
    with the wrong password, answered 401; and then the same request again,
    fewer than ten times with an answer other than 429 and a pause of 0.1 s
    each, and a last time with the answer 429.  So the server has to answer
    one and the same request with 401 first and with 429 within the next ten
    attempts. *)
Theorem login_passing_run (env : Env) :
  fst (run TC001.test_user_login_functionality tt env) = Ok tt ->
  exists r1 r2 resps r v,
    snd (run TC001.test_user_login_functionality tt env)
    = [EvSend TC001_login_request (Responded r1);
       EvSend TC001.probe_request (Responded r2)]
      ++ flat_map quiet_round resps
      ++ [EvSend TC001.probe_request (Responded r)]
    /\ status_code r1 = 200
    /\ decoded r1 = Some v
    /\ either_contained "token" "accessToken" v
    /\ status_code r2 = 401
    /\ Forall not_throttled resps
    /\ (List.length resps < 10)%nat
    /\ status_code r = 429.
Proof.
  intros Hok. apply run_passes in Hok as (st' & H & ->).
  unfold TC001.test_user_login_functionality, TC001.step1, TC001.step2, TC001.step3 in H.
  pass_steps;
    match goal with
    | Hm : passes (TC001.probe_loop ?a false) ?env ?st _ _ |- _ =>
        destruct (probe_loop_spec a env st) as (resps & tail & Htr & _ & Hall & Hend);
        unfold passes in Hm; rewrite Hm in Htr, Hend; cbn in Htr, Hend;
        inversion Hend; subst
    end;
    exists_responses;
    (split; [rewrite Htr; reflexivity|]);
    pass_done; unfold either_contained; auto.
Qed.

Lemma login_passing_run_witness :
  fst (run TC001.test_user_login_functionality tt login_then_throttle) = Ok tt
  /\ exists r1 r2 resps r v,
    snd (run TC001.test_user_login_functionality tt login_then_throttle)
    = [EvSend TC001_login_request (Responded r1);
       EvSend TC001.probe_request (Responded r2)]
      ++ flat_map quiet_round resps
      ++ [EvSend TC001.probe_request (Responded r)]
    /\ status_code r1 = 200
    /\ decoded r1 = Some v
    /\ either_contained "token" "accessToken" v
    /\ status_code r2 = 401
    /\ Forall not_throttled resps
    /\ (List.length resps < 10)%nat
    /\ status_code r = 429.
Proof.
  split; [reflexivity | apply (login_passing_run login_then_throttle)].
  reflexivity.
Defined.

(** ** TC002: a passing run *)

Lemma passes_TC002_step1 env (st st' : State unit) u :
  passes TC002.step1 env st u st' ->
  exists r, st' = emit (EvSend TC002_register_request (Responded r)) st
            /\ registration_accepted r.
Proof.
  unfold passes.
  destruct (server env (trace st) TC002_register_request) as [r|n msg] eqn:Hrep.
  - rewrite (TC002_step1_result env st Hrep).
    destruct ((status_code r =? 201)
              || ((status_code r =? 400) && contains "already" (lower (text r)))) eqn:Hc;
      [|discriminate].
    intros H. inversion H. exists r. split; [reflexivity|].
    now apply registration_accepted_iff.
  - unfold TC002.step1, bind, post, send. fold TC002_register_request.
    rewrite Hrep. discriminate.
Qed.

(** X14.  A passing run of the registration scenario is five POST requests
    to the registration endpoint, in this order: the valid payload, whose
    response is a 201 or a 400 that mentions "already"; then the payloads
    without username, without email, without password and with the invalid
    email, each answered 400. *)
Theorem registration_passing_run (env : Env) :
  fst (run TC002.test_user_registration_process tt env) = Ok tt ->
  exists r0 r1 r2 r3 r4,
    snd (run TC002.test_user_registration_process tt env)
    = [EvSend TC002_register_request (Responded r0);
       EvSend (TC002_request TC002.payload_missing_username) (Responded r1);
       EvSend (TC002_request TC002.payload_missing_email) (Responded r2);
       EvSend (TC002_request TC002.payload_missing_password) (Responded r3);
       EvSend (TC002_request TC002.payload_invalid_email) (Responded r4)]
    /\ registration_accepted r0
    /\ status_code r1 = 400
    /\ status_code r2 = 400
    /\ status_code r3 = 400
    /\ status_code r4 = 400.
Proof.
  intros Hok. apply run_passes in Hok as (st' & H & ->).
  unfold TC002.test_user_registration_process, TC002.expect_400 in H.
  pass_steps;
    match goal with
    | Hm : passes TC002.step1 _ _ _ _ |- _ =>
        apply passes_TC002_step1 in Hm as (r0 & -> & Hacc)
    end;
    pass_steps;
    exists_responses; (split; [cbn; reflexivity|]); pass_done.
Qed.

Lemma registration_passing_run_witness :
  fst (run TC002.test_user_registration_process tt validating_server) = Ok tt
  /\ exists r0 r1 r2 r3 r4,
    snd (run TC002.test_user_registration_process tt validating_server)
    = [EvSend TC002_register_request (Responded r0);
       EvSend (TC002_request TC002.payload_missing_username) (Responded r1);
       EvSend (TC002_request TC002.payload_missing_email) (Responded r2);
       EvSend (TC002_request TC002.payload_missing_password) (Responded r3);
       EvSend (TC002_request TC002.payload_invalid_email) (Responded r4)]
    /\ registration_accepted r0
    /\ status_code r1 = 400
    /\ status_code r2 = 400
    /\ status_code r3 = 400
    /\ status_code r4 = 400.
Proof.
  split; [reflexivity | apply (registration_passing_run validating_server)].
  reflexivity.
Defined.

(** ** The exceptions a scenario can end with *)

Lemma raises_only_ret {L A} ks (a : A) : raises_only ks (@ret L A a).
Proof. intros env st e. discriminate. Qed.

Lemma raises_only_raise {L A} ks k msg : In k ks -> raises_only ks (@raise L A k msg).
Proof. intros Hin env st e [= <-]. exact Hin. Qed.

Lemma raises_only_assert_False {L A} ks msg :
  In AssertionError ks -> raises_only ks (@assert_False L A msg).
Proof. apply raises_only_raise. Qed.

Lemma raises_only_assert {L} ks c msg :
  In AssertionError ks -> raises_only ks (@assert_ L c msg).
Proof.
  intros Hin. destruct c; [apply raises_only_ret | now apply raises_only_raise].
Qed.

Lemma raises_only_send {L} ks r :
  incl [Timeout; ConnectionError; RequestException] ks -> raises_only ks (@send L r).
Proof.
  intros Hin env st e. unfold send.
  destruct (server env (trace st) r) as [resp|n msg]; [discriminate|].
  intros [= <-]. apply Hin. destruct n; cbn; auto.
Qed.

Lemma raises_only_json_of {L} ks r :
  In JSONDecodeError ks -> raises_only ks (@json_of L r).
Proof.
  intros Hin. unfold json_of.
  destruct (decoded r); [apply raises_only_ret | now apply raises_only_raise].
Qed.

Lemma raises_only_get {L} ks obj key :
  In AttributeError ks -> raises_only ks (@get L obj key).
Proof.
  intros Hin. unfold get, get_default.
  destruct obj; try (now apply raises_only_raise); apply raises_only_ret.
Qed.

Lemma raises_only_py_in {L} ks key obj :
  In TypeError ks -> raises_only ks (@py_in L key obj).
Proof.
  intros Hin. unfold py_in.
  destruct obj; try (now apply raises_only_raise); apply raises_only_ret.
Qed.

Lemma raises_only_bind {L A B} ks (m : M L A) (k : A -> M L B) :
  raises_only ks m -> (forall a, raises_only ks (k a)) -> raises_only ks (bind m k).
Proof.
  intros Hm Hk env st e. unfold bind.
  specialize (Hm env st). destruct (m env st) as [[a|x] st1]; cbn in *.
  - apply Hk.
  - intros [= <-]. now apply Hm.
Qed.

Lemma raises_only_for_each {L A} ks (xs : list A) (f : A -> M L unit) :
  (forall x, raises_only ks (f x)) -> raises_only ks (for_each xs f).
Proof.
  intros Hf. induction xs as [|x rest IH]; cbn [for_each].
  - apply raises_only_ret.
  - apply raises_only_bind; auto.
Qed.

(** [except requests.RequestException] around [m], with a handler that
    raises within [ks]: the request classes of [m] do not get out. *)
Lemma raises_only_wrapped {L A} ks (m : M L A) (h : Exn -> M L A) :
  raises_only (request_kinds ++ ks) m ->
  (forall x, raises_only ks (h x)) ->
  raises_only ks (try_except m is_RequestException h).
Proof.
  intros Hm Hh env st e. unfold try_except.
  specialize (Hm env st). destruct (m env st) as [[a|x] st1]; cbn in *; [discriminate|].
  destruct (is_RequestException x) eqn:Hc.
  - specialize (Hh x env (set_handling (Some x) st1)).
    destruct (h x env (set_handling (Some x) st1)) as [r st2]. cbn in *.
    intros ->. now apply Hh.
  - intros [= <-]. specialize (Hm x eq_refl).
    unfold is_RequestException in Hc.
    destruct Hm as [H|[H|[H|[H|H]]]]; try (rewrite <- H in Hc; discriminate Hc).
    exact H.
Qed.

Lemma raises_only_extract_refresh_token ks login_resp :
  incl [AssertionError; TypeError] ks ->
  raises_only ks (TC004.extract_refresh_token login_resp).
Proof.
  intros Hin env st e He.
  pose proof (extract_refresh_token_cases login_resp env st) as Hc.
  rewrite He in Hc. apply Hin.
  destruct Hc as [H|[->| ->]]; [rewrite H|..]; cbn; auto.
Qed.

Ltac raises :=
  repeat first
    [ apply raises_only_extract_refresh_token
    | apply raises_only_ret
    | apply raises_only_bind; [|intros ?]
    | apply raises_only_wrapped; [|intros ?]
    | apply raises_only_for_each; intros ?
    | apply raises_only_send
    | apply raises_only_assert
    | apply raises_only_assert_False
    | apply raises_only_json_of
    | apply raises_only_get
    | apply raises_only_py_in
    | match goal with
      | |- raises_only _ (if ?c then _ else _) => destruct c
      | |- raises_only _ (match ?j with JNull => _ | _ => _ end) => destruct j
      | |- raises_only _ (post _ _ _ _) => unfold post
      | |- raises_only _ (http_get _ _ _) => unfold http_get
      | |- raises_only _ (or_else _ _) => unfold or_else
      | |- raises_only _ (or_val _ _) => unfold or_val
      | |- In _ _ => cbn; tauto
      | |- incl _ _ => intros ? ?; cbn in *; tauto
      end ].

(** X15.  In the scenarios that wrap their requests in [except
    RequestException], a request that raises never surfaces as such: every
    failure of the email verification scenario is an assertion error; the
    token refresh scenario fails only with an assertion or a type error; the
    profile scenario only with an assertion or an attribute error; and the
    site registration scenario only with an assertion error, a type error or
    the decoding error of a body that is not JSON. *)
Theorem request_errors_never_escape :
  raises_only [AssertionError] TC003.test_email_verification_mechanism
  /\ raises_only [AssertionError; TypeError] TC004.test_jwt_token_refresh
  /\ raises_only [AssertionError; AttributeError] TC005.test_get_current_user_profile
  /\ raises_only [AssertionError; TypeError; JSONDecodeError]
       TC009.test_site_registration_from_wordpress_plugin.
Proof.
  split; [|split; [|split]].
  - unfold TC003.test_email_verification_mechanism, TC003.check_token. raises.
  - unfold TC004.test_jwt_token_refresh, TC004.register, TC004.login,
      TC004.refresh_valid, TC004.refresh_invalid. raises.
  - unfold TC005.test_get_current_user_profile, TC005.login, TC005.profile,
      TC005.extract_token. raises.
  - unfold TC009.test_site_registration_from_wordpress_plugin. raises.
Qed.

(** ** The login token: which values are accepted *)

(** X16.  The scenarios differ in what they accept as the token of a login
    response that is a JSON object.  TC006 wants a truthy [token] member.
    TC008 takes any [token] member that is not null, so an empty string
    passes.  TC005 wants a truthy [token], or else an [accessToken] that is
    not null.  TC010 wants one of the two members to be truthy. *)
Theorem token_strictness
    (m : list (string * JSON)) (code : Z) (body : string) (env : Env)
    (st : State unit) (st8 : State TC008.Locals) (st10 : State TC010.Locals) :
  let t := member "token" m in
  let a := member "accessToken" m in
  succeeds (fst (TC006.extract_token (JObj m) env st)) = truthy t
  /\ succeeds (fst (TC008.extract_token (JObj m) env st8)) = negb (is_None t)
  /\ succeeds (fst (TC005.extract_token (JObj m) env st))
     = truthy t || negb (is_None a)
  /\ succeeds (fst (TC010.extract_token (mkResponse code body (Some (JObj m))) env st10))
     = truthy t || truthy a.
Proof.
  cbv zeta.
  unfold TC006.extract_token, TC008.extract_token,
    TC005.extract_token, TC010.extract_token, or_val, bind, json_of, get, get_default,
    assert_, raise, ret, member. cbn [decoded].
  destruct (truthy match lookup "token" m with Some v => v | None => JNull end) eqn:Ht;
    cbn.
  - rewrite ?Ht. cbn.
    destruct (match lookup "token" m with Some v => v | None => JNull end);
      try discriminate Ht; cbn; auto.
  - rewrite ?Ht. cbn.
    repeat split.
    + destruct (is_None match lookup "token" m with Some v => v | None => JNull end);
        reflexivity.
    + destruct (is_None match lookup "accessToken" m with Some v => v | None => JNull end);
        reflexivity.
    + destruct (truthy match lookup "accessToken" m with Some v => v | None => JNull end)
        eqn:Ha; cbn; rewrite ?Ha; reflexivity.
Qed.

(** ** Cleanup: once, after the steps, in order *)

(** X17.  In every run of the purchase scenario, passing or failing, the
    cleanup runs once, after the steps: the trace is the events of the
    steps, none of them a DELETE, followed by one exchange for each request
    of the cleanup, and these are, in this order and each at most once, the
    DELETE of the link, of the project and of the site.  In every run of the
    project scenario the steps hold no DELETE either, and they are followed
    by nothing or by the one DELETE of the project. *)
Theorem cleanup_after_steps_in_order
    (env10 : Env) (py_eq : JSON -> JSON -> bool) (env8 : Env) :
  let st := snd (TC010.test_purchase_placement_with_billing env10
                   (initial TC010.no_locals)) in
  let l := locals st in
  let st' := snd (TC008.test_project_creation_and_retrieval py_eq env8
                    (initial TC008.no_locals)) in
  let id := TC008.created_project_id (locals st') in
  (exists steps_events,
      trace st = steps_events ++ exchanges env10 (cleanup_requests l) steps_events
      /\ deletes steps_events = [])
  /\ deletes (trace st) = cleanup_requests l
  /\ (exists a b c : bool,
        cleanup_requests l
        = (if a then [delete_link l] else [])
          ++ (if b then [delete_project l] else [])
          ++ (if c then [delete_site l] else []))
  /\ (exists steps_events' cleanup_events,
        trace st' = steps_events' ++ cleanup_events
        /\ deletes steps_events' = []
        /\ (cleanup_events = []
            \/ exists token rep, cleanup_events = [EvSend (TC008_delete token id) rep])).
Proof.
  cbv zeta. split; [|split; [|split]].
  - destruct (TC010_trace_shape env10 (initial TC010.no_locals))
      as (Hloc & new & Htb & F & Htr).
    cbn [initial trace app] in Htb. rewrite <- Hloc in Htr. rewrite Htb in Htr.
    exists new. split; [exact Htr | now apply step_events_no_delete].
  - apply TC010_deletes.
  - set (l := locals _). unfold cleanup_requests.
    destruct (truthy (TC010.auth_token l)).
    + now exists (truthy (TC010.link_id l) && truthy (TC010.project_id l)),
        (truthy (TC010.project_id l)), (truthy (TC010.site_id l)).
    + now exists false, false, false.
  - destruct (Steps_TC008_authenticate env8 (initial TC008.no_locals))
      as (n0 & Ht0 & F0 & _).
    destruct (TC008.authenticate env8 (initial TC008.no_locals)) as [[token|e] st1] eqn:Ha.
    + rewrite (TC008_test_unfold py_eq env8 _ Ha).
      cbn [snd initial trace app] in Ht0.
      destruct (Steps_TC008_body py_eq (TC008.make_headers token) env8
                  (set_locals (TC008.mkLocals JNull) st1)) as (n1 & Ht1 & F1 & _).
      cbn [set_locals trace] in Ht1. rewrite Ht0 in Ht1.
      assert (Hno : deletes (n0 ++ n1) = []).
      { now rewrite deletes_app, (step_events_no_delete F0), (step_events_no_delete F1). }
      unfold try_finally.
      destruct (TC008.body py_eq (TC008.make_headers token) env8
                  (set_locals (TC008.mkLocals JNull) st1)) as [[u|e] stb];
        cbn [snd] in Ht1; rewrite TC008_cleanup_eq; cbv zeta; cbn [locals set_handling];
        destruct (truthy (TC008.created_project_id (locals stb))) eqn:Hid;
        try destruct (delete_failure _ _);
        cbn [snd locals emit trace set_handling]; rewrite Ht1;
        exists (n0 ++ n1);
        first [ exists []; rewrite app_nil_r; now auto
              | eexists; split; [reflexivity|]; split; [exact Hno|];
                right; do 2 eexists; reflexivity ].
    + unfold TC008.test_project_creation_and_retrieval, bind. rewrite Ha.
      cbn [snd initial trace app] in *. exists n0, []. rewrite app_nil_r.
      split; [exact Ht0|]. split; [now apply step_events_no_delete | now left].
Qed.

(** ** TC010: the steps and what they capture *)

Lemma passes_or_val2 {L} d a b env (st st' : State L) v :
  passes (or_val (get d a) (get d b)) env st v st' ->
  st' = st /\ exists m, d = JObj m /\ v = py_or (member a m) (member b m).
Proof.
  unfold passes. destruct d as [| x | z | f | s | l | m]; try discriminate.
  unfold or_val, bind, get, get_default, ret, py_or, member.
  destruct (truthy match lookup a m with Some x => x | None => JNull end) eqn:Ha; cbn.
  - rewrite ?Ha. intros [= <- <-]. split; [reflexivity|]. exists m. now rewrite !Ha.
  - intros [= <- <-]. split; [reflexivity|]. exists m. now rewrite Ha.
Qed.

Lemma passes_TC010_extract_token resp env (st st' : State TC010.Locals) tok :
  passes (TC010.extract_token resp) env st tok st' ->
  st' = st
  /\ exists m, decoded resp = Some (JObj m) /\ tok = login_token m /\ truthy tok = true.
Proof.
  unfold passes, TC010.extract_token, or_val, bind, json_of, get, get_default, assert_,
    raise, ret, login_token, py_or, member.
  destruct (decoded resp) as [[| x | z | f | s | l | m]|]; try discriminate.
  destruct (truthy match lookup "token" m with Some x => x | None => JNull end) eqn:Ht;
    cbn.
  - rewrite ?Ht. cbn. intros [= <- <-]. split; [reflexivity|]. exists m.
    rewrite !Ht. auto.
  - destruct (truthy match lookup "accessToken" m with Some x => x | None => JNull end)
      eqn:Ha; cbn; rewrite ?Ha; [|discriminate].
    intros [= <- <-]. split; [reflexivity|]. exists m. rewrite Ht. auto.
Qed.

(** [pass_steps], with [x.get(a) or x.get(b)] taken in one step. *)
Ltac pass_steps_or :=
  repeat first
    [ match goal with
      | Hm : passes (or_val (get _ _) (get _ _)) _ _ _ _ |- _ =>
          let Ho := fresh "Ho" in
          apply passes_or_val2 in Hm as (? & ? & Ho & ?); try injection Ho as Ho; subst
      end
    | pass_step ].

Ltac stepped_done :=
  unfold stepped; cbn [trace locals handling emit set_locals];
  repeat match goal with |- _ /\ _ => split end;
  try reflexivity; try eassumption; try (apply Z.eqb_eq; eassumption);
  try (apply negb_true_iff; eassumption).

Lemma passes_step1 env (st st' : State TC010.Locals) u :
  passes TC010.step1_register env st u st' ->
  exists r, stepped TC010_register_request r (locals st) env st st'
            /\ status_code r = 201.
Proof.
  intros H. unfold TC010.step1_register in H. pass_steps.
  eexists. stepped_done.
Qed.

Lemma passes_step2 env (st st' : State TC010.Locals) u :
  passes TC010.step2_login env st u st' ->
  exists r m,
    stepped TC010_login_request r (TC010.set_auth_token (login_token m) (locals st))
      env st st'
    /\ status_code r = 200
    /\ decoded r = Some (JObj m)
    /\ truthy (login_token m) = true.
Proof.
  intros H. unfold TC010.step2_login in H. pass_steps.
  match goal with
  | Hm : passes (TC010.extract_token _) _ _ _ _ |- _ =>
      apply passes_TC010_extract_token in Hm as (-> & m & Hd & -> & Ht)
  end.
  pass_steps. do 2 eexists. stepped_done.
Qed.

Lemma passes_step3 h env (st st' : State TC010.Locals) u :
  passes (TC010.step3_project h) env st u st' ->
  exists r m,
    stepped (mkRequest POST TC010.projects_url (Some TC010.project_payload) (Some h) 30) r
      (TC010.set_project_id (created_id "projectId" m) (locals st)) env st st'
    /\ status_code r = 201
    /\ decoded r = Some (JObj m)
    /\ is_None (created_id "projectId" m) = false.
Proof.
  intros H. unfold TC010.step3_project in H. pass_steps_or.
  do 2 eexists. stepped_done.
Qed.

Lemma passes_step4 h env (st st' : State TC010.Locals) u :
  passes (TC010.step4_site h) env st u st' ->
  exists r m,
    stepped (mkRequest POST TC010.sites_url (Some TC010.site_payload) (Some h) 30) r
      (TC010.set_site_id (member "id" m) (locals st)) env st st'
    /\ status_code r = 201
    /\ decoded r = Some (JObj m)
    /\ is_None (member "id" m) = false.
Proof.
  intros H. unfold TC010.step4_site in H. pass_steps.
  do 2 eexists. stepped_done.
Qed.

Lemma passes_step5 h env (st st' : State TC010.Locals) u :
  passes (TC010.step5_link h) env st u st' ->
  exists r m,
    stepped (mkRequest POST (TC010.links_url (TC010.project_id (locals st)))
               (Some TC010.link_payload) (Some h) 30) r
      (TC010.set_link_id (created_id "linkId" m) (locals st)) env st st'
    /\ status_code r = 201
    /\ decoded r = Some (JObj m)
    /\ is_None (created_id "linkId" m) = false.
Proof.
  intros H. unfold TC010.step5_link in H. pass_steps_or.
  do 2 eexists. stepped_done.
Qed.

Lemma passes_step6 h env (st st' : State TC010.Locals) u :
  passes (TC010.step6_deposit h) env st u st' ->
  exists r,
    stepped (mkRequest POST TC010.deposit_url (Some TC010.deposit_payload) (Some h) 30) r
      (locals st) env st st'
    /\ status_code r = 200.
Proof.
  intros H. unfold TC010.step6_deposit in H. pass_steps.
  eexists. stepped_done.
Qed.

Lemma passes_step7 h env (st st' : State TC010.Locals) u :
  passes (TC010.step7_balance h) env st u st' ->
  exists r,
    stepped (balance_request h) r (locals st) env st st' /\ balance_confirmed r.
Proof.
  intros H. destruct (step7_spec h env st) as ([Ht Hh] & Hl & Hb).
  destruct u. unfold passes in H. rewrite H in Ht, Hh, Hl, Hb. cbn [fst snd] in *.
  destruct (Hb eq_refl) as (r & Hr & Hc).
  exists r. split; [|exact Hc]. unfold stepped, balance_request.
  rewrite Hr in Ht. auto.
Qed.

(** ** TC010: how a run ends *)

Lemma AtMost_bind {L A B} a b (m : M L A) (k : A -> M L B) :
  AtMost a m -> (forall x, AtMost b (k x)) -> AtMost (a + b) (bind m k).
Proof.
  intros Hm Hk env st. unfold bind.
  destruct (Hm env st) as (n1 & Ht1 & Hl1).
  destruct (m env st) as [[x|e] st1]; cbn [fst snd] in *.
  - destruct (Hk x env st1) as (n2 & Ht2 & Hl2).
    exists (n1 ++ n2). split; [rewrite Ht2, Ht1; now rewrite app_assoc|].
    rewrite length_app. lia.
  - exists n1. split; [exact Ht1 | lia].
Qed.

Lemma AtMost_silent {L A} (m : M L A) : Silent m -> AtMost 0 m.
Proof.
  intros H env st. exists []. rewrite app_nil_r. split; [apply H | cbn; lia].
Qed.

Lemma AtMost_sends_once {A} (m : M TC010.Locals A) :
  (forall env st, exists rq, sends_once rq env st (snd (m env st))) -> AtMost 1 m.
Proof.
  intros H env st. destruct (H env st) as (rq & Ht & _).
  eexists. split; [exact Ht | cbn; lia].
Qed.

Lemma AtMost_steps_to_balance : AtMost 7 TC010_steps_to_balance.
Proof.
  unfold TC010_steps_to_balance.
  change 7%nat with (1 + (1 + (0 + (1 + (1 + (1 + (1 + (1 + 0))))))))%nat.
  repeat (apply AtMost_bind; [|intros ?]);
    try (apply AtMost_silent; first [apply Silent_get_locals | apply Silent_ret]);
    apply AtMost_sends_once; intros env st; eexists.
  - apply step1_spec.
  - apply step2_spec.
  - apply step3_spec.
  - apply step4_spec.
  - apply step5_spec.
  - apply step6_spec.
  - apply step7_spec.
Qed.

Lemma TC010_body_split env st :
  TC010.body env st = bind TC010_steps_to_balance TC010.step8_purchase env st.
Proof.
  unfold TC010.body, TC010_steps_to_balance, bind, get_locals, ret.
  destruct (TC010.step1_register env st) as [[[]|e] s1]; [|reflexivity].
  destruct (TC010.step2_login env s1) as [[[]|e] s2]; [|reflexivity].
  destruct (TC010.step3_project _ env s2) as [[[]|e] s3]; [|reflexivity].
  destruct (TC010.step4_site _ env s3) as [[[]|e] s4]; [|reflexivity].
  destruct (TC010.step5_link _ env s4) as [[[]|e] s5]; [|reflexivity].
  destruct (TC010.step6_deposit _ env s5) as [[[]|e] s6]; [|reflexivity].
  destruct (TC010.step7_balance _ env s6) as [[[]|e] s7]; reflexivity.
Qed.

Ltac take_step lem H Hs :=
  apply passes_bind in H as (? & ? & Hs & H); apply lem in Hs.

(** When steps 1 to 7 pass, the seven requests were answered one after the
    other, and the variables hold what the responses carried. *)
Lemma steps_to_balance_passes env (st0 st7 : State TC010.Locals) h :
  passes TC010_steps_to_balance env st0 h st7 ->
  exists r1 r2 r3 r4 r5 r6 r7,
    h = TC010.make_auth_headers (TC010.auth_token (locals st7))
    /\ trace st7
       = trace st0 ++ answers (firstn 7 (planned_requests (locals st7) EmptyString))
                        [r1; r2; r3; r4; r5; r6; r7]
    /\ handling st7 = handling st0
    /\ status_code r1 = 201 /\ status_code r2 = 200 /\ status_code r3 = 201
    /\ status_code r4 = 201 /\ status_code r5 = 201 /\ status_code r6 = 200
    /\ balance_confirmed r7
    /\ captured_from r2 r3 r4 r5 (locals st7).
Proof.
  intros H. unfold TC010_steps_to_balance in H.
  take_step passes_step1 H S1. destruct S1 as (r1 & (_ & T1 & L1 & H1) & C1).
  take_step passes_step2 H S2. destruct S2 as (r2 & m2 & (_ & T2 & L2 & H2) & C2 & D2 & K2).
  apply passes_bind in H as (l & ? & Hl & H).
  apply passes_get_locals in Hl as [-> ->]. cbv zeta in H.
  take_step passes_step3 H S3. destruct S3 as (r3 & m3 & (_ & T3 & L3 & H3) & C3 & D3 & K3).
  take_step passes_step4 H S4. destruct S4 as (r4 & m4 & (_ & T4 & L4 & H4) & C4 & D4 & K4).
  take_step passes_step5 H S5. destruct S5 as (r5 & m5 & (_ & T5 & L5 & H5) & C5 & D5 & K5).
  take_step passes_step6 H S6. destruct S6 as (r6 & (_ & T6 & L6 & H6) & C6).
  take_step passes_step7 H S7. destruct S7 as (r7 & (_ & T7 & L7 & H7) & C7).
  apply passes_ret in H as [-> ->].
  exists r1, r2, r3, r4, r5, r6, r7.
  rewrite L7, L6, L5, L4, L3, L2, L1 in *.
  repeat match goal with |- _ /\ _ => split end; try assumption.
  - reflexivity.
  - rewrite T7, T6, T5, T4, T3, T2, T1. rewrite <- !app_assoc. reflexivity.
  - congruence.
  - exists m2, m3, m4, m5. repeat split; assumption || reflexivity.
Qed.

Lemma validate_purchase_ok_iff resp env (st : State TC010.Locals) :
  fst (TC010.validate_purchase resp env st) = Ok tt <-> purchase_confirmed resp.
Proof.
  split.
  - destruct (TC010.validate_purchase resp env st) as [[[]|e] st'] eqn:E; [|discriminate].
    intros _. change (passes (TC010.validate_purchase resp) env st tt st') in E.
    unfold TC010.validate_purchase in E.
    pass_steps; (split; [now apply Z.eqb_eq|]); eexists; (split; [eassumption|]);
      unfold either_contained; auto.
  - intros (Hs & v & Hd & Hc).
    unfold TC010.validate_purchase, bind, json_of, or_else. rewrite Hs, Hd. cbn.
    destruct Hc as [Hc|[Hc1 Hc2]]; destruct v; try discriminate; cbn in *;
      unfold ret, bind in *; cbn;
      repeat match goal with
             | Hx : Some _ = Some _ |- _ => injection Hx as Hx; rewrite ?Hx
             end; reflexivity.
Qed.

Lemma validate_purchase_400_error resp env (st : State TC010.Locals) :
  status_code resp = 400 ->
  fst (TC010.validate_purchase resp env st) = Err (purchase_400_error resp (handling st)).
Proof.
  intros Hs. unfold TC010.validate_purchase, purchase_400_error, purchase_refused_error,
    bind, json_of, get_default, assert_False, raise, ret.
  rewrite Hs. cbn. destruct (decoded resp) as [[| b | z | f | s | l | m]|]; reflexivity.
Qed.

Lemma In_answers rq rep rqs resps :
  In (EvSend rq rep) (answers rqs resps) -> In rq rqs.
Proof.
  unfold answers. intros Hin. apply in_map_iff in Hin as ([a b] & [= <- _] & Hin).
  now apply in_combine_l in Hin.
Qed.

Lemma sends_answers rqs resps :
  List.length rqs = List.length resps -> sends (answers rqs resps) = rqs.
Proof.
  revert resps. induction rqs as [|rq rqs IH]; intros [|r resps] Hl;
    try discriminate; [reflexivity|].
  cbn. f_equal. apply IH. now injection Hl.
Qed.

(** How the steps of TC010 end: with an error before the purchase, after a
    prefix of the planned requests; or with the purchase, after the seven
    other requests were answered as the steps want and the variables were
    captured from the responses, and then the reply to the purchase decides
    the result. *)
Lemma TC010_body_outcome env (st0 : State TC010.Locals) :
  let stb := snd (TC010.body env st0) in
  let r := fst (TC010.body env st0) in
  let l := locals stb in
  let h := TC010.make_auth_headers (TC010.auth_token l) in
  let plan := planned_requests l (scheduled_date env) in
  (is_err r
   /\ exists n, (n < 8)%nat
                /\ trace stb = trace st0 ++ exchanges env (firstn n plan) (trace st0))
  \/ (exists r1 r2 r3 r4 r5 r6 r7 rep,
        trace stb = trace st0 ++ answers (firstn 7 plan) [r1; r2; r3; r4; r5; r6; r7]
                      ++ [EvSend (purchase_request h l env) rep]
        /\ status_code r1 = 201 /\ status_code r2 = 200 /\ status_code r3 = 201
        /\ status_code r4 = 201 /\ status_code r5 = 201 /\ status_code r6 = 200
        /\ balance_confirmed r7
        /\ captured_from r2 r3 r4 r5 l
        /\ r = purchase_result env stb rep
        /\ handling stb = handling st0).
Proof.
  cbv zeta.
  pose proof (TC010_body_run env st0) as Hrun.
  rewrite TC010_body_split in *. unfold bind in *.
  destruct (AtMost_steps_to_balance env st0) as (new & Hnew & Hlen).
  destruct (TC010_steps_to_balance env st0) as [[h|e] st7] eqn:EB; cbn [fst snd] in *.
  - right.
    apply steps_to_balance_passes in EB
      as (r1 & r2 & r3 & r4 & r5 & r6 & r7 & -> & T & Hh & C1 & C2 & C3 & C4 & C5 & C6
          & C7 & Hcap).
    destruct (step8_spec (TC010.make_auth_headers (TC010.auth_token (locals st7))) env st7)
      as ([T8 H8] & L8 & R8).
    cbv zeta in *. rewrite L8.
    exists r1, r2, r3, r4, r5, r6, r7.
    exists (server env (trace st7)
              (purchase_request (TC010.make_auth_headers (TC010.auth_token (locals st7)))
                 (locals st7) env)).
    repeat match goal with |- _ /\ _ => split end; try assumption.
    + rewrite T8. rewrite T at 1. rewrite <- app_assoc. reflexivity.
    + rewrite R8. apply purchase_result_handling. now rewrite H8.
    + congruence.
  - left. split; [eexists; reflexivity|].
    destruct Hrun as [n Hn Htr _ _ | resp7 h plan Htr _ _ _ _].
    + exists n. split; [exact Hn | exact Htr].
    + exfalso. rewrite Hnew in Htr. apply app_inv_head in Htr.
      apply (f_equal (@List.length Event)) in Htr. subst plan.
      unfold planned_requests in Htr. cbn [exchanges List.length] in Htr. lia.
Qed.

Lemma purchase_only_eighth l env rs rep rep' cl :
  let h := TC010.make_auth_headers (TC010.auth_token l) in
  let plan := planned_requests l (scheduled_date env) in
  sends cl = cleanup_requests l ->
  In (EvSend (purchase_request h l env) rep')
     ((answers (firstn 7 plan) rs ++ [EvSend (purchase_request h l env) rep]) ++ cl) ->
  rep' = rep.
Proof.
  cbv zeta. intros Hcl Hin. rewrite !in_app_iff in Hin.
  destruct Hin as [[Hin|[Hin|[]]]|Hin].
  - apply In_answers in Hin. now apply purchase_not_before in Hin.
  - congruence.
  - exfalso. apply (@purchase_not_cleanup (TC010.make_auth_headers (TC010.auth_token l)) l env).
    rewrite <- Hcl. unfold sends. apply in_flat_map.
    eexists. split; [exact Hin | now left].
Qed.

(** C8, as the code has it.  In every run of the purchase scenario the
    requests of the steps are a prefix of the plan: register, log in, create
    the project, create the site, add the link, deposit, read the balance,
    purchase.  When the purchase is sent, the seven requests before it were
    answered 201, 200, 201, 201, 201, 200 and a balance response with status
    200 and a balance greater than 0, and the token and the project, site and
    link identifiers that the requests and the purchase carry are the ones
    the responses to the login and to the three creations held.  The run
    passes exactly when the purchase was sent and answered 200 with a body in
    which [placementId] or [id] occurs.  A purchase answered 400 makes the
    run fail: with the assertion error that carries the [message] member, or
    the response text when there is none, when the body is a JSON object,
    and with the error of reading the body when it is not.  The payload of
    the purchase holds the three identifiers under [projectId], [siteId] and
    [contentIds], and its headers the token. *)
Theorem purchase_steps_in_order (env : Env) :
  let st := snd (TC010.test_purchase_placement_with_billing env (initial TC010.no_locals)) in
  let r := fst (TC010.test_purchase_placement_with_billing env (initial TC010.no_locals)) in
  let l := locals st in
  let h := TC010.make_auth_headers (TC010.auth_token l) in
  let plan := planned_requests l (scheduled_date env) in
  (exists n, sends (trace st) = firstn n plan ++ cleanup_requests l)
  /\ (forall rep,
        In (EvSend (purchase_request h l env) rep) (trace st) ->
        exists r1 r2 r3 r4 r5 r6 r7 cleanup_events,
          trace st = answers (firstn 7 plan) [r1; r2; r3; r4; r5; r6; r7]
                     ++ EvSend (purchase_request h l env) rep :: cleanup_events
          /\ sends cleanup_events = cleanup_requests l
          /\ status_code r1 = 201 /\ status_code r2 = 200 /\ status_code r3 = 201
          /\ status_code r4 = 201 /\ status_code r5 = 201 /\ status_code r6 = 200
          /\ balance_confirmed r7
          /\ captured_from r2 r3 r4 r5 l)
  /\ (r = Ok tt
      <-> exists resp,
            In (EvSend (purchase_request h l env) (Responded resp)) (trace st)
            /\ purchase_confirmed resp)
  /\ (forall resp,
        In (EvSend (purchase_request h l env) (Responded resp)) (trace st) ->
        status_code resp = 400 ->
        r = Err (purchase_400_error resp None))
  /\ json (purchase_request h l env)
     = Some (JObj [("projectId", TC010.project_id l); ("siteId", TC010.site_id l);
                   ("type", JStr "link"); ("contentIds", JArr [TC010.link_id l]);
                   ("scheduledDate", JStr (utcnow_plus_days_iso env 1 ++ "Z")%string);
                   ("autoRenewal", JBool true)])
  /\ headers (purchase_request h l env)
     = Some [("Authorization", [Lit "Bearer "; interp (TC010.auth_token l)]);
             ("Content-Type", [Lit "application/json"])].
Proof.
  cbv zeta.
  match goal with
  | |- ?A /\ ?B /\ ?C /\ ?D /\ ?E /\ ?F =>
      cut (A /\ B /\ C /\ D);
      [intros (HA & HB & HC & HD);
       split; [exact HA|]; split; [exact HB|]; split; [exact HC|]; split; [exact HD|];
       split; reflexivity|]
  end.
  rewrite TC010_test_eq. cbn [fst snd].
  change (set_locals TC010.no_locals (initial TC010.no_locals))
    with (initial TC010.no_locals).
  pose proof (TC010_body_outcome env (initial TC010.no_locals)) as Hrun.
  cbv zeta in Hrun.
  set (stb := snd (TC010.body env (initial TC010.no_locals))) in *.
  set (r := fst (TC010.body env (initial TC010.no_locals))) in *.
  unfold after_exchanges. cbn [locals trace].
  set (l := locals stb) in *.
  assert (Hsc : sends (exchanges env (cleanup_requests l) (trace stb))
                = cleanup_requests l) by apply sends_exchanges.
  set (cl := exchanges env (cleanup_requests l) (trace stb)) in *.
  set (h := TC010.make_auth_headers (TC010.auth_token l)) in *.
  destruct Hrun as [[[e He] (n & Hn & Htr)]
                   | (r1 & r2 & r3 & r4 & r5 & r6 & r7 & rep & Htr & C1 & C2 & C3 & C4
                      & C5 & C6 & C7 & Hcap & Hr & Hh)];
    cbn [initial trace app handling] in Htr.
  - assert (Hno : forall rep, ~ In (EvSend (purchase_request h l env) rep) (trace stb ++ cl)).
    { intros rep Hin. rewrite Htr in Hin. apply in_app_iff in Hin as [Hin|Hin].
      - apply In_exchanges in Hin.
        apply (@purchase_not_before h l env (scheduled_date env)).
        revert Hin. clear -Hn. unfold planned_requests.
        do 8 (destruct n as [|n]; [cbn [firstn In]; tauto|]). lia.
      - apply (@purchase_not_cleanup h l env). rewrite <- Hsc.
        unfold sends. apply in_flat_map. eexists. split; [exact Hin | now left]. }
    split; [|split; [|split]].
    + exists n. rewrite sends_app, Hsc, Htr. now rewrite sends_exchanges.
    + intros rep Hin. exfalso. exact (Hno _ Hin).
    + rewrite He. split; [discriminate|]. intros (resp & Hin & _).
      exfalso. exact (Hno _ Hin).
    + intros resp Hin. exfalso. exact (Hno _ Hin).
  - cbn [initial handling] in Hh.
    assert (Hrep : forall rep', In (EvSend (purchase_request h l env) rep') (trace stb ++ cl) ->
                                rep' = rep).
    { intros rep' Hin. rewrite Htr in Hin.
      now apply (@purchase_only_eighth l env _ rep rep' cl Hsc) in Hin. }
    split; [|split; [|split]].
    + exists 8%nat. rewrite sends_app, Hsc, Htr, sends_app.
      rewrite sends_answers by reflexivity. reflexivity.
    + intros rep' Hin. rewrite (Hrep _ Hin).
      exists r1, r2, r3, r4, r5, r6, r7, cl.
      repeat match goal with |- _ /\ _ => split end; try assumption.
      rewrite Htr. now rewrite <- app_assoc.
    + rewrite Hr. split.
      * destruct rep as [resp|n msg]; cbn; [|discriminate].
        intros Hok. exists resp. split; [|now apply (validate_purchase_ok_iff resp env stb)].
        rewrite Htr. apply in_or_app. left. apply in_or_app. right. now left.
      * intros (resp & Hin & Hc). rewrite <- (Hrep _ Hin). cbn.
        now apply validate_purchase_ok_iff.
    + intros resp Hin Hs. rewrite Hr, <- (Hrep _ Hin). cbn.
      rewrite (validate_purchase_400_error resp env stb Hs). now rewrite Hh.
Qed.

(** C8 fails on a refusal whose body is not JSON: the purchase is answered
    400 with the text "Insufficient balance", and the run fails with the
    error of decoding the body, in which the server's text does not
    appear. *)
Lemma plain_refusal_not_surfaced :
  In (EvSend (purchase_request (TC010.make_auth_headers (JStr "jwt"))
                (captured_with_site (JInt 22))
                (purchase_run (JInt 22) "22" purchase_refused_plainly))
        purchase_refused_plainly)
     (snd (run TC010.test_purchase_placement_with_billing TC010.no_locals
             (purchase_run (JInt 22) "22" purchase_refused_plainly)))
  /\ fst (run TC010.test_purchase_placement_with_billing TC010.no_locals
            (purchase_run (JInt 22) "22" purchase_refused_plainly))
     = Err (mkExn JSONDecodeError [Lit "Expecting value"] None).
Proof.
  split; [vm_compute; do 7 right; left; reflexivity | vm_compute; reflexivity].
Qed.

Lemma purchase_steps_in_order_witness :
  fst (TC010.test_purchase_placement_with_billing
         (purchase_run (JInt 22) "22" purchase_refused) (initial TC010.no_locals))
    = Err (purchase_refused_error refused_response
             [("message", JStr "Insufficient balance")] None)
  /\ fst (TC010.test_purchase_placement_with_billing
            (purchase_run (JInt 22) "22" purchase_accepted) (initial TC010.no_locals))
     = Ok tt
  /\ exists login project site link,
       captured_from login project site link
         (locals (snd (TC010.test_purchase_placement_with_billing
                         (purchase_run (JInt 22) "22" purchase_accepted)
                         (initial TC010.no_locals)))).
Proof.
  split; [|split].
  - destruct (purchase_steps_in_order (purchase_run (JInt 22) "22" purchase_refused))
      as (_ & _ & _ & H & _).
    apply (H refused_response); [vm_compute; do 7 right; left; reflexivity | reflexivity].
  - destruct (purchase_steps_in_order (purchase_run (JInt 22) "22" purchase_accepted))
      as (_ & _ & [_ H] & _).
    apply H. exists accepted_response.
    split; [vm_compute; do 7 right; left; reflexivity|].
    split; [reflexivity|]. eexists. split; [reflexivity | left; reflexivity].
  - destruct (purchase_steps_in_order (purchase_run (JInt 22) "22" purchase_accepted))
      as (_ & H & _).
    destruct (H purchase_accepted) as (r1 & r2 & r3 & r4 & r5 & r6 & r7 & cl & Hcap);
      [vm_compute; do 7 right; left; reflexivity|].
    exists r2, r3, r4, r5. apply Hcap.
Defined.
